(** * FAQ generation pipeline: response parsing, batching and validation

    A shallow embedding of

    - [data/validators/validate_data.py]   ([FAQValidator]),
    - [data/generators/generate_faqs.py]   ([BankingFAQGenerator._parse_response]),
    - [data/generators/batch_generator.py] ([BatchFAQGenerator])

    together with the properties of the pipeline that can be read off the
    code.  Python exceptions are modelled by the [result] type, the mutable
    validator object by explicit state passing, and the objects produced by
    [json.loads] by the inductive type [value]. *)

From Stdlib Require Import List String Ascii ZArith Lia Bool Arith PeanoNat.
From Stdlib Require Import DecimalString Sorted.
From Stdlib Require DecimalNat DecimalFacts.
Import ListNotations.

Local Open Scope list_scope.
Local Open Scope string_scope.

(* ===================================================================== *)
(** ** Exceptions *)
(* ===================================================================== *)

(** The exception classes the modelled code can raise.  All of them are
    subclasses of Python's [Exception]. *)
Inductive exn : Type :=
| JSONDecodeError
| TypeError
| AttributeError
| IndexError
| KeyError
| ZeroDivisionError
| ValueError
| UnicodeEncodeError.

Inductive result (A : Type) : Type :=
| Ok (a : A)
| Raise (e : exn).

Arguments Ok {A} a.
Arguments Raise {A} e.

Definition rbind {A B : Type} (r : result A) (k : A -> result B) : result B :=
  match r with
  | Ok a => k a
  | Raise e => Raise e
  end.

Definition is_ok {A : Type} (r : result A) : bool :=
  match r with Ok _ => true | Raise _ => false end.

Declare Scope result_scope.
Delimit Scope result_scope with result.
Notation "x <- r ;; k" := (rbind r (fun x => k))
  (at level 61, r at next level, right associativity) : result_scope.

(* ===================================================================== *)
(** ** Python strings *)
(* ===================================================================== *)

(** Strings are sequences of 8-bit characters, each read as the code point
    of the same number (the Latin-1 range of Python's [str]). *)
Module PyStr.

Definition code (c : ascii) : nat := nat_of_ascii c.

(** [str.isspace] on one character. *)
Definition isspace (c : ascii) : bool :=
  let n := code c in
  (((9 <=? n) && (n <=? 13)) || ((28 <=? n) && (n <=? 32))
   || (n =? 133) || (n =? 160))%nat.

Fixpoint lstrip (s : string) : string :=
  match s with
  | EmptyString => EmptyString
  | String c s' => if isspace c then lstrip s' else s
  end.

Fixpoint rstrip (s : string) : string :=
  match s with
  | EmptyString => EmptyString
  | String c s' =>
      match rstrip s' with
      | EmptyString => if isspace c then EmptyString else String c EmptyString
      | r => String c r
      end
  end.

(** [s.strip()] *)
Definition strip (s : string) : string := rstrip (lstrip s).

(** [s.startswith(p)] *)
Definition startswith (s p : string) : bool := String.prefix p s.

(** [s[n:]] for [0 <= n] *)
Fixpoint drop (n : nat) (s : string) : string :=
  match n, s with
  | O, _ => s
  | S _, EmptyString => EmptyString
  | S k, String _ s' => drop k s'
  end.

(** [s.endswith(p)] *)
Definition endswith (s p : string) : bool :=
  (String.length p <=? String.length s)%nat
  && String.eqb (drop (String.length s - String.length p) s) p.

(** [sub in s] *)
Fixpoint contains (sub s : string) : bool :=
  String.prefix sub s
  || match s with
     | EmptyString => false
     | String _ s' => contains sub s'
     end.

(** [s.split(sep)] for a non-empty [sep]: the pieces between the leftmost
    non-overlapping occurrences of [sep].  [skip] counts the characters of
    an occurrence of [sep] that are still to be passed over. *)
Fixpoint split_from (sep s : string) (skip : nat) : list string :=
  match s with
  | EmptyString => [EmptyString]
  | String c s' =>
      match skip with
      | S k => split_from sep s' k
      | O =>
          if String.prefix sep s
          then EmptyString :: split_from sep s' (String.length sep - 1)
          else match split_from sep s' 0 with
               | p :: ps => String c p :: ps
               | [] => [String c EmptyString]
               end
      end
  end.

Definition split (s sep : string) : list string := split_from sep s 0.

(** [str.lower] on one character. *)
Definition lower_char (c : ascii) : ascii :=
  let n := code c in
  if (((65 <=? n) && (n <=? 90))
      || ((192 <=? n) && (n <=? 222) && negb (n =? 215)))%nat
  then ascii_of_nat (n + 32)
  else c.

Fixpoint lower (s : string) : string :=
  match s with
  | EmptyString => EmptyString
  | String c s' => String (lower_char c) (lower s')
  end.

(** The characters of the class [[.!?]]. *)
Definition is_terminal (c : ascii) : bool :=
  let n := code c in ((n =? 46) || (n =? 33) || (n =? 63))%nat.

(** [re.split(r'[.!?]+', s)]: the pieces between the maximal runs of
    sentence-terminal punctuation.  [in_run] tells that the previous
    character belonged to such a run. *)
Fixpoint re_split_from (in_run : bool) (s : string) : list string :=
  match s with
  | EmptyString => [EmptyString]
  | String c s' =>
      if is_terminal c
      then if in_run then re_split_from true s'
           else EmptyString :: re_split_from true s'
      else match re_split_from false s' with
           | p :: ps => String c p :: ps
           | [] => [String c EmptyString]
           end
  end.

Definition re_split_terminal (s : string) : list string := re_split_from false s.

(** [str(n)] for a natural number and for an integer. *)
Definition of_nat (n : nat) : string := NilZero.string_of_uint (Nat.to_uint n).
Definition of_Z (z : Z) : string := NilZero.string_of_int (Z.to_int z).

(** The characters of a string, as [for c in s] yields them. *)
Fixpoint chars (s : string) : list string :=
  match s with
  | EmptyString => []
  | String c s' => String c EmptyString :: chars s'
  end.

End PyStr.

(* ===================================================================== *)
(** ** Python values *)
(* ===================================================================== *)

(** The objects [json.loads] produces and the programs pass around.  A
    [dict] keeps its keys in insertion order, so it is an association list;
    lookups take the first binding of a key.  The programs observe a float
    only through [bool()] and [str()], which is all [VFloat] records. *)
#[warnings="-register-all"]
Inductive value : Type :=
| VNone
| VBool (b : bool)
| VInt (z : Z)
| VFloat (nonzero : bool) (shown : string)
| VStr (s : string)
| VList (l : list value)
| VDict (d : list (string * value)).

Definition dict : Type := list (string * value).

Fixpoint dict_get (k : string) (d : dict) : option value :=
  match d with
  | [] => None
  | (k', v) :: d' => if String.eqb k k' then Some v else dict_get k d'
  end.

(** [k in d] *)
Definition dict_has (k : string) (d : dict) : bool :=
  match dict_get k d with Some _ => true | None => false end.

(** [d[k] = v]: an existing key keeps its position, a new one goes last. *)
Fixpoint dict_set (k : string) (v : value) (d : dict) : dict :=
  match d with
  | [] => [(k, v)]
  | (k', v') :: d' =>
      if String.eqb k k' then (k', v) :: d' else (k', v') :: dict_set k v d'
  end.

(** [d.setdefault(k, v)], for its effect on [d]. *)
Definition dict_setdefault (k : string) (v : value) (d : dict) : dict :=
  if dict_has k d then d else dict_set k v d.

(** [bool(v)] *)
Definition truthy (v : value) : bool :=
  match v with
  | VNone => false
  | VBool b => b
  | VInt z => negb (Z.eqb z 0)
  | VFloat nonzero _ => nonzero
  | VStr s => negb (String.eqb s EmptyString)
  | VList l => match l with [] => false | _ :: _ => true end
  | VDict d => match d with [] => false | _ :: _ => true end
  end.

(** [v == s] for a string [s] *)
Definition eq_str (v : value) (s : string) : bool :=
  match v with
  | VStr t => String.eqb t s
  | _ => false
  end.

(** [key in v] for a string [key]: key membership in a dict, element
    membership in a list, substring test in a string, [TypeError] on the
    values that are not containers. *)
Definition py_in (key : string) (v : value) : result bool :=
  match v with
  | VDict d => Ok (dict_has key d)
  | VList l => Ok (existsb (fun x => eq_str x key) l)
  | VStr s => Ok (PyStr.contains key s)
  | _ => Raise TypeError
  end.

(** [v[key]] for a string [key] *)
Definition getitem (v : value) (key : string) : result value :=
  match v with
  | VDict d =>
      match dict_get key d with
      | Some x => Ok x
      | None => Raise KeyError
      end
  | _ => Raise TypeError
  end.

(** [v[key] = x] for a string [key]; the result is the updated object. *)
Definition setitem (v : value) (key : string) (x : value) : result value :=
  match v with
  | VDict d => Ok (VDict (dict_set key x d))
  | _ => Raise TypeError
  end.

(** [v.setdefault(key, x)], for its effect on [v]. *)
Definition setdefault (v : value) (key : string) (x : value) : result value :=
  match v with
  | VDict d => Ok (VDict (dict_setdefault key x d))
  | _ => Raise AttributeError
  end.

(** [v.strip()] *)
Definition str_strip (v : value) : result string :=
  match v with
  | VStr s => Ok (PyStr.strip s)
  | _ => Raise AttributeError
  end.

(** [v in choices] for a list of strings *)
Definition in_strings (v : value) (choices : list string) : bool :=
  existsb (fun c => eq_str v c) choices.

(** [isinstance(v, list)] and [isinstance(v, dict)] *)
Definition is_list (v : value) : bool :=
  match v with VList _ => true | _ => false end.
Definition is_dict (v : value) : bool :=
  match v with VDict _ => true | _ => false end.

(** The elements [for x in v] goes through. *)
Definition iter (v : value) : result (list value) :=
  match v with
  | VList l => Ok l
  | VStr s => Ok (map VStr (PyStr.chars s))
  | VDict d => Ok (map (fun kv => VStr (fst kv)) d)
  | _ => Raise TypeError
  end.

(** *** [repr] and [str] *)

Definition dquote : ascii := "034"%char.
Definition squote : ascii := "039"%char.
Definition backslash : ascii := "092"%char.

Definition hex_digit (n : nat) : ascii :=
  if (n <? 10)%nat then ascii_of_nat (48 + n) else ascii_of_nat (87 + n).

Definition has_char (c : ascii) (s : string) : bool :=
  PyStr.contains (String c EmptyString) s.

(** The quote [repr] puts around a string. *)
Definition repr_quote (s : string) : ascii :=
  if has_char squote s && negb (has_char dquote s) then dquote else squote.

Definition repr_char (q c : ascii) : string :=
  let n := PyStr.code c in
  if Ascii.eqb c backslash then String backslash (String backslash EmptyString)
  else if Ascii.eqb c q then String backslash (String q EmptyString)
  else if (n =? 10)%nat then String backslash "n"
  else if (n =? 13)%nat then String backslash "r"
  else if (n =? 9)%nat then String backslash "t"
  else if ((n <? 32) || (n =? 127) || ((128 <=? n) && (n <=? 160)) || (n =? 173))%nat
  then String backslash
         (String "x" (String (hex_digit (n / 16)) (String (hex_digit (n mod 16)) EmptyString)))
  else String c EmptyString.

Fixpoint repr_chars (q : ascii) (s : string) : string :=
  match s with
  | EmptyString => EmptyString
  | String c s' => repr_char q c ++ repr_chars q s'
  end.

Definition repr_str (s : string) : string :=
  let q := repr_quote s in
  String q (repr_chars q s) ++ String q EmptyString.

Fixpoint repr (v : value) : string :=
  match v with
  | VNone => "None"
  | VBool b => if b then "True" else "False"
  | VInt z => PyStr.of_Z z
  | VFloat _ shown => shown
  | VStr s => repr_str s
  | VList l =>
      "[" ++ (fix items (l : list value) : string :=
                match l with
                | [] => EmptyString
                | x :: l' =>
                    match l' with
                    | [] => repr x
                    | _ :: _ => repr x ++ ", " ++ items l'
                    end
                end) l ++ "]"
  | VDict d =>
      "{" ++ (fix items (d : list (string * value)) : string :=
                match d with
                | [] => EmptyString
                | (k, x) :: d' =>
                    match d' with
                    | [] => repr_str k ++ ": " ++ repr x
                    | _ :: _ => repr_str k ++ ": " ++ repr x ++ ", " ++ items d'
                    end
                end) d ++ "}"
  end.

(** [str(v)], which is what an f-string field [{v}] expands to. *)
Definition str (v : value) : string :=
  match v with
  | VStr s => s
  | _ => repr v
  end.

(* ===================================================================== *)
(** ** [validate_data.py]: the validator *)
(* ===================================================================== *)

Module FAQValidator.

Definition REQUIRED_FIELDS : list string := ["question"; "answer"; "category"].
Definition VALID_DIFFICULTIES : list string := ["basic"; "intermediate"; "advanced"].
Definition VALID_SEGMENTS : list string := ["retail"; "business"; "wealth_management"].

Definition MIN_QUESTION_LENGTH : nat := 10.
Definition MAX_QUESTION_LENGTH : nat := 500.
Definition MIN_ANSWER_LENGTH : nat := 100.
Definition MAX_ANSWER_LENGTH : nat := 2000.
Definition MIN_KEYWORDS : nat := 1.
Definition MAX_KEYWORDS : nat := 10.

(** [self.stats] *)
Record Stats : Type := mkStats {
  total : nat;
  valid : nat;
  invalid : nat;
  nwarnings : nat   (* the entry 'warnings' *)
}.

(** The validator object: [self.errors], [self.warnings], [self.stats]. *)
Record t : Type := mkValidator {
  errors : list string;
  warnings : list string;
  stats : Stats
}.

Definition __init__ : t :=
  mkValidator [] [] (mkStats 0 0 0 0).

(** A method body: it reads and updates the validator object and either
    returns or raises.  What was written to the object before an
    exception stays written. *)
Definition M (A : Type) : Type := t -> result A * t.

Definition ret {A : Type} (a : A) : M A := fun self => (Ok a, self).

Definition bind {A B : Type} (m : M A) (k : A -> M B) : M B :=
  fun self =>
    match m self with
    | (Ok a, self') => k a self'
    | (Raise e, self') => (Raise e, self')
    end.

Definition lift {A : Type} (r : result A) : M A := fun self => (r, self).

Declare Scope validator_scope.
Delimit Scope validator_scope with validator.
Notation "x <- m ;; k" := (bind m (fun x => k))
  (at level 61, m at next level, right associativity) : validator_scope.
Notation "m ;; k" := (bind m (fun _ => k))
  (at level 61, right associativity) : validator_scope.

(** [self.errors.append(msg)] *)
Definition add_error (msg : string) : M unit :=
  fun self =>
    (Ok tt, mkValidator (errors self ++ [msg])%list (warnings self) (stats self)).

(** [self.warnings.append(msg)] followed by [self.stats['warnings'] += 1] *)
Definition add_warning (msg : string) : M unit :=
  fun self =>
    let st := stats self in
    (Ok tt,
     mkValidator (errors self) (warnings self ++ [msg])%list
       (mkStats (total st) (valid st) (invalid st) (nwarnings st + 1))).

(** [self.stats['total'] = n] *)
Definition set_total (n : nat) : M unit :=
  fun self =>
    let st := stats self in
    (Ok tt,
     mkValidator (errors self) (warnings self)
       (mkStats n (valid st) (invalid st) (nwarnings st))).

(** [self.stats['valid'] += 1] and [self.stats['invalid'] += 1] *)
Definition incr_valid : M unit :=
  fun self =>
    let st := stats self in
    (Ok tt,
     mkValidator (errors self) (warnings self)
       (mkStats (total st) (valid st + 1) (invalid st) (nwarnings st))).

Definition incr_invalid : M unit :=
  fun self =>
    let st := stats self in
    (Ok tt,
     mkValidator (errors self) (warnings self)
       (mkStats (total st) (valid st) (invalid st + 1) (nwarnings st))).

(** The prefix [f"FAQ #{idx}: "] every message starts with. *)
Definition tag (idx : nat) : string := "FAQ #" ++ PyStr.of_nat idx ++ ": ".

(** *** [_has_repetitive_content] *)

(** [collections.Counter]: the keys in the order of their first occurrence,
    each with its number of occurrences. *)
Fixpoint counter_add (k : string) (c : list (string * nat)) : list (string * nat) :=
  match c with
  | [] => [(k, 1)]
  | (k', n) :: c' =>
      if String.eqb k k' then (k', S n) :: c' else (k', n) :: counter_add k c'
  end.

Definition Counter (keys : list string) : list (string * nat) :=
  fold_left (fun c k => counter_add k c) keys [].

(** [max(c.values()) if c else 0] *)
Definition max_values (c : list (string * nat)) : nat :=
  fold_right Nat.max 0 (map snd c).

(** [bool(s.strip())] *)
Definition nonblank (s : string) : bool :=
  negb (String.eqb (PyStr.strip s) EmptyString).

(** [s.strip().lower()] *)
Definition normalize (s : string) : string := PyStr.lower (PyStr.strip s).

(** [threshold] is the default 0.3.  The source compares the binary64
    quotient [max_count / len(sentences)] with the binary64 constant 0.3;
    for any text of fewer than 10^15 segments this is the comparison of the
    exact quotient with 3/10, which is what is written here. *)
Definition _has_repetitive_content (text : string) : bool :=
  let sentences := PyStr.re_split_terminal text in
  if (List.length sentences <? 3)%nat then false
  else
    let sentence_counts := Counter (map normalize (filter nonblank sentences)) in
    let max_count := max_values sentence_counts in
    (3 * List.length sentences <? 10 * max_count)%nat.

(** *** [validate_single_faq] *)

Local Open Scope validator_scope.

(** [field not in faq or not faq[field]] *)
Definition field_missing (faq : value) (field : string) : result bool :=
  rbind (py_in field faq) (fun present =>
    if negb present then Ok true
    else rbind (getitem faq field) (fun v => Ok (negb (truthy v)))).

(** The loop over [REQUIRED_FIELDS]; [is_valid] is the local variable of
    that name. *)
Fixpoint check_required (faq : value) (idx : nat) (fields : list string)
    (is_valid : bool) : M bool :=
  match fields with
  | [] => ret is_valid
  | field :: rest =>
      missing <- lift (field_missing faq field) ;;
      if missing : bool
      then add_error (tag idx ++ "Missing required field '" ++ field ++ "'") ;;
           check_required faq idx rest false
      else check_required faq idx rest is_valid
  end.

(** [faq[key].strip()] *)
Definition stripped_field (faq : value) (key : string) : result string :=
  rbind (getitem faq key) str_strip.

(** The [if len(x) < lo: ... elif len(x) > hi: ...] pair of warnings. *)
Definition check_length (idx : nat) (what : string) (text : string)
    (lo hi : nat) : M unit :=
  let n := String.length text in
  if (n <? lo)%nat
  then add_warning (tag idx ++ what ++ " too short (" ++ PyStr.of_nat n ++ " chars)")
  else if (hi <? n)%nat
  then add_warning (tag idx ++ what ++ " too long (" ++ PyStr.of_nat n ++ " chars)")
  else ret tt.

Definition check_question_mark (idx : nat) (question : string) : M unit :=
  if negb (PyStr.endswith question "?")
  then add_warning (tag idx ++ "Question doesn't end with '?'")
  else ret tt.

(** The block under [if 'keywords' in faq:]; returns the new [is_valid]. *)
Definition check_keywords (faq : value) (idx : nat) (is_valid : bool) : M bool :=
  present <- lift (py_in "keywords" faq) ;;
  if present : bool then
    keywords <- lift (getitem faq "keywords") ;;
    match keywords with
    | VList l =>
        let n := List.length l in
        if (n <? MIN_KEYWORDS)%nat
        then add_warning (tag idx ++ "Too few keywords (" ++ PyStr.of_nat n ++ ")") ;;
             ret is_valid
        else if (MAX_KEYWORDS <? n)%nat
        then add_warning (tag idx ++ "Too many keywords (" ++ PyStr.of_nat n ++ ")") ;;
             ret is_valid
        else ret is_valid
    | _ =>
        add_error (tag idx ++ "Keywords must be a list") ;;
        ret false
    end
  else ret is_valid.

(** The blocks under [if 'difficulty' in faq:] and [if 'segment' in faq:]. *)
Definition check_enum (faq : value) (idx : nat) (key what : string)
    (choices : list string) (is_valid : bool) : M bool :=
  present <- lift (py_in key faq) ;;
  if present : bool then
    v <- lift (getitem faq key) ;;
    if negb (in_strings v choices)
    then add_error (tag idx ++ "Invalid " ++ what ++ " '" ++ str v ++ "'") ;;
         ret false
    else ret is_valid
  else ret is_valid.

Definition check_repetitive (idx : nat) (answer : string) : M unit :=
  if _has_repetitive_content answer
  then add_warning (tag idx ++ "Answer may have repetitive content")
  else ret tt.

Definition validate_single_faq (faq : value) (idx : nat) : M bool :=
  is_valid <- check_required faq idx REQUIRED_FIELDS true ;;
  if negb is_valid then ret false
  else
    question <- lift (stripped_field faq "question") ;;
    check_length idx "Question" question MIN_QUESTION_LENGTH MAX_QUESTION_LENGTH ;;
    check_question_mark idx question ;;
    answer <- lift (stripped_field faq "answer") ;;
    check_length idx "Answer" answer MIN_ANSWER_LENGTH MAX_ANSWER_LENGTH ;;
    is_valid <- check_keywords faq idx is_valid ;;
    is_valid <- check_enum faq idx "difficulty" "difficulty" VALID_DIFFICULTIES is_valid ;;
    is_valid <- check_enum faq idx "segment" "segment" VALID_SEGMENTS is_valid ;;
    check_repetitive idx answer ;;
    ret is_valid.

(** *** [validate_faqs] *)

(** [for idx, faq in enumerate(faqs, 1)], from position [idx] on. *)
Fixpoint validate_each (faqs : list value) (idx : nat) : M unit :=
  match faqs with
  | [] => ret tt
  | faq :: rest =>
      is_valid <- validate_single_faq faq idx ;;
      (if is_valid : bool then incr_valid else incr_invalid) ;;
      validate_each rest (S idx)
  end.

(** [_print_results] only prints, so it is left out. *)
Definition validate_faqs (faqs : list value) : M bool :=
  set_total (List.length faqs) ;;
  validate_each faqs 1 ;;
  fun self => (Ok (invalid (stats self) =? 0)%nat, self).

End FAQValidator.

(* ===================================================================== *)
(** ** [generate_faqs.py]: the response parser *)
(* ===================================================================== *)

(** The fence delimiter of a markdown code block. *)
Definition FENCE : string := "```".

Module BankingFAQGenerator.

(** The lines the two exception handlers of [_parse_response] print. *)
Inductive line : Type :=
| ParsingError                        (* JSON parsing error: {e} *)
| ResponsePreview (preview : string)  (* Response preview: {text[:200]}... *)
| UnexpectedError (e : exn).          (* Unexpected error: {e} *)

Section Parser.

(** [json.loads], of the Python standard library. *)
Variable json_loads : string -> result value.

(** [print], writing one line to [sys.stdout]: it returns, or raises what
    the stream raises, [UnicodeEncodeError] when the stream cannot encode
    the line.  A call of [_parse_response] prints no line twice, so a
    function of the line covers every behaviour of the stream within one
    call. *)
Variable print : line -> result unit.

(** The loop [for part in parts] with its two [break]s; [text] is the
    variable the loop assigns to. *)
Fixpoint select_part (parts : list string) (text : string) : string :=
  match parts with
  | [] => text
  | part :: rest =>
      let part := PyStr.strip part in
      if PyStr.startswith part "json" then PyStr.strip (PyStr.drop 4 part)
      else if PyStr.startswith part "[" || PyStr.startswith part "{" then part
      else select_part rest text
  end.

(** The text handed to [json.loads]. *)
Definition payload (text : string) : string :=
  let text := PyStr.strip text in
  if PyStr.contains FENCE text
  then select_part (PyStr.split text FENCE) text
  else text.

Local Open Scope result_scope.

(** The five statements under [if 'question' in faq and 'answer' in faq]. *)
Definition fill_defaults (faq : value) (category : string) : result value :=
  faq <- setitem faq "category" (VStr category) ;;
  faq <- setdefault faq "keywords" (VList []) ;;
  faq <- setdefault faq "difficulty" (VStr "basic") ;;
  faq <- setdefault faq "segment" (VStr "retail") ;;
  setdefault faq "subcategory" (VStr category).

(** ['question' in faq and 'answer' in faq] *)
Definition has_question_and_answer (faq : value) : result bool :=
  has_q <- py_in "question" faq ;;
  if has_q : bool then py_in "answer" faq else Ok false.

(** The loop [for faq in faqs] that fills [cleaned_faqs]. *)
Fixpoint clean_each (faqs : list value) (category : string)
    (cleaned_faqs : list value) : result (list value) :=
  match faqs with
  | [] => Ok cleaned_faqs
  | faq :: rest =>
      keep <- has_question_and_answer faq ;;
      if keep : bool
      then faq' <- fill_defaults faq category ;;
           clean_each rest category (cleaned_faqs ++ [faq'])%list
      else clean_each rest category cleaned_faqs
  end.

(** The body of the [try] block. *)
Definition parse_body (text category : string) : result (list value) :=
  faqs <- json_loads (payload text) ;;
  let faqs := if is_dict faqs then VList [faqs] else faqs in
  elements <- iter faqs ;;
  clean_each elements category [].

(** The handler [except json.JSONDecodeError] prints two lines, the
    second with [text[:200]], where [text] is by then the text handed to
    [json.loads]; the handler [except Exception] prints one.  Each then
    returns the empty list.  An exception raised by [print] inside a
    handler is not caught: it leaves [_parse_response]. *)
Definition _parse_response (text category : string) : result (list value) :=
  match parse_body text category with
  | Ok cleaned_faqs => Ok cleaned_faqs
  | Raise JSONDecodeError =>
      _ <- print ParsingError ;;
      _ <- print (ResponsePreview (substring 0 200 (payload text))) ;;
      Ok []
  | Raise e =>
      _ <- print (UnexpectedError e) ;;
      Ok []
  end.

End Parser.

End BankingFAQGenerator.

(* ===================================================================== *)
(** ** [batch_generator.py]: the batch generator *)
(* ===================================================================== *)

(** [l[i]] for [0 <= i] *)
Definition list_index {A : Type} (l : list A) (i : nat) : result A :=
  match nth_error l i with
  | Some x => Ok x
  | None => Raise IndexError
  end.

(** [range(lo, hi)] *)
Definition range (lo hi : Z) : list Z :=
  map (fun i => (lo + Z.of_nat i)%Z) (seq 0 (Z.to_nat (hi - lo))).

(** [a // b] *)
Definition floordiv (a b : Z) : result Z :=
  if Z.eqb b 0 then Raise ZeroDivisionError else Ok (a / b)%Z.

Module BatchFAQGenerator.

(** What the generator does to the outside world. *)
Inductive event : Type :=
| GenerateContent (prompt : string)   (* self.model.generate_content(prompt) *)
| Sleep (seconds : Z).                (* time.sleep(seconds) *)

Section Generator.

Variable json_loads : string -> result value.

(** The external text service: its answer to a prompt, or the exception it
    raises, given everything that happened before the call. *)
Variable generate_content : list event -> string -> result string.

(** [self.batch_size] and [self.delay] *)
Variable batch_size : Z.
Variable delay : Z.

Local Open Scope result_scope.

(** The loop [for faq in faqs: faq['category'] = category]. *)
Fixpoint set_category_each (faqs : list value) (category : string)
    : result (list value) :=
  match faqs with
  | [] => Ok []
  | faq :: rest =>
      faq' <- setitem faq "category" (VStr category) ;;
      rest' <- set_category_each rest category ;;
      Ok (faq' :: rest')
  end.

(** The text handed to [json.loads]; the statements before the [try]. *)
Definition payload (text : string) : result string :=
  let text := PyStr.strip text in
  text <- (if PyStr.contains FENCE text
           then text <- list_index (PyStr.split text FENCE) 1 ;;
                Ok (if PyStr.startswith text "json" then PyStr.drop 4 text else text)
           else Ok text) ;;
  Ok (PyStr.strip text).

(** The body of the [try] block.  It returns the decoded object itself,
    after the loop has updated its elements. *)
Definition parse_body (text category : string) : result value :=
  faqs <- json_loads text ;;
  let faqs := if is_dict faqs then VList [faqs] else faqs in
  elements <- iter faqs ;;
  elements' <- set_category_each elements category ;;
  Ok (match faqs with VList _ => VList elements' | _ => faqs end).

Definition _parse_response (text category : string) : result value :=
  text <- payload text ;;
  match parse_body text category with
  | Ok faqs => Ok faqs
  | Raise _ => Ok (VList [])
  end.

(** The prompt of [generate_batch]. *)
Definition NL : string := String "010" EmptyString.
Definition DQ : string := String dquote EmptyString.

(** [s] between double quotes. *)
Definition in_quotes (s : string) : string := DQ ++ s ++ DQ.

Definition prompt (category : string) (batch_num total_batches : Z) : string :=
  NL ++ "Generate " ++ PyStr.of_Z batch_size ++ " unique FAQs for "
     ++ in_quotes category ++ " in banking/wealth management." ++ NL
  ++ NL
  ++ "This is batch " ++ PyStr.of_Z batch_num ++ " of " ++ PyStr.of_Z total_batches
     ++ ", so ensure variety and avoid repetition." ++ NL
  ++ NL
  ++ "Return JSON array:" ++ NL
  ++ "[" ++ NL
  ++ "  {" ++ NL
  ++ "    " ++ in_quotes "question" ++ ": " ++ in_quotes "question text" ++ "," ++ NL
  ++ "    " ++ in_quotes "answer" ++ ": "
            ++ in_quotes "detailed answer (200-300 words)" ++ "," ++ NL
  ++ "    " ++ in_quotes "keywords" ++ ": ["
            ++ in_quotes "keyword1" ++ ", " ++ in_quotes "keyword2" ++ "]," ++ NL
  ++ "    " ++ in_quotes "difficulty" ++ ": "
            ++ in_quotes "basic|intermediate|advanced" ++ "," ++ NL
  ++ "    " ++ in_quotes "segment" ++ ": "
            ++ in_quotes "retail|business|wealth_management" ++ NL
  ++ "  }" ++ NL
  ++ "]" ++ NL
  ++ NL
  ++ "Only return valid JSON, no markdown." ++ NL.

(** A method of the generator: it extends the trace of events and returns
    or raises. *)
Definition W (A : Type) : Type := list event -> result A * list event.

(** [time.sleep(seconds)], which refuses a negative length. *)
Definition sleep (seconds : Z) : W unit :=
  fun trace =>
    if (seconds <? 0)%Z then (Raise ValueError, trace)
    else (Ok tt, (trace ++ [Sleep seconds])%list).

(** [generate_batch]: one call of the text service; any exception of the
    call or of the parser gives the empty list. *)
Definition generate_batch (category : string) (batch_num total_batches : Z)
    : W value :=
  fun trace =>
    let p := prompt category batch_num total_batches in
    let trace' := (trace ++ [GenerateContent p])%list in
    match (text <- generate_content trace p ;; _parse_response text category) with
    | Ok faqs => (Ok faqs, trace')
    | Raise _ => (Ok (VList []), trace')
    end.

(** The loop [for batch_num in range(1, num_batches + 1)]; [all_faqs] is
    the accumulator of that name. *)
Fixpoint batch_loop (category : string) (batch_nums : list Z) (num_batches : Z)
    (all_faqs : list value) : W (list value) :=
  fun trace =>
    match batch_nums with
    | [] => (Ok all_faqs, trace)
    | batch_num :: rest =>
        match generate_batch category batch_num num_batches trace with
        | (Raise e, trace1) => (Raise e, trace1)
        | (Ok faqs, trace1) =>
            (* all_faqs.extend(faqs) *)
            match iter faqs with
            | Raise e => (Raise e, trace1)
            | Ok new_faqs =>
                match (if (batch_num <? num_batches)%Z
                       then sleep delay trace1 else (Ok tt, trace1)) with
                | (Raise e, trace2) => (Raise e, trace2)
                | (Ok _, trace2) =>
                    batch_loop category rest num_batches
                      (all_faqs ++ new_faqs)%list trace2
                end
            end
        end
    end.

Definition generate_category_batched (category : string) (total_count : Z)
    : W (list value) :=
  fun trace =>
    match floordiv (total_count + batch_size - 1) batch_size with
    | Raise e => (Raise e, trace)
    | Ok num_batches =>
        batch_loop category (range 1 (num_batches + 1)) num_batches [] trace
    end.

End Generator.

End BatchFAQGenerator.

(* ===================================================================== *)
(** ** A JSON decoder *)
(* ===================================================================== *)

(** The parsers above take [json.loads] as a parameter, and the general
    statements below hold for every decoder.  To run the parsers on
    concrete responses this module provides a decoder for the JSON texts
    with integer numbers and the two-character escapes; on those texts it
    returns what [json.loads] returns, and it rejects texts with fractions,
    exponents or [\u] escapes. *)
Module Json.

Definition is_ws (c : ascii) : bool :=
  let n := PyStr.code c in ((n =? 32) || (n =? 9) || (n =? 10) || (n =? 13))%nat.

Fixpoint skip_ws (s : string) : string :=
  match s with
  | EmptyString => EmptyString
  | String c s' => if is_ws c then skip_ws s' else s
  end.

Definition is_digit (c : ascii) : bool :=
  let n := PyStr.code c in ((48 <=? n) && (n <=? 57))%nat.

(** The character an escape [\c] stands for. *)
Definition unescape (c : ascii) : option ascii :=
  let n := PyStr.code c in
  if (n =? 34)%nat then Some dquote
  else if (n =? 92)%nat then Some backslash
  else if (n =? 47)%nat then Some "/"%char
  else if (n =? 98)%nat then Some "008"%char
  else if (n =? 102)%nat then Some "012"%char
  else if (n =? 110)%nat then Some "010"%char
  else if (n =? 114)%nat then Some "013"%char
  else if (n =? 116)%nat then Some "009"%char
  else None.

Definition cons_char (c : ascii) (r : option (string * string))
    : option (string * string) :=
  match r with
  | Some (body, rest) => Some (String c body, rest)
  | None => None
  end.

(** The rest of a string literal after its opening quote: the decoded
    string and the text after the closing quote. *)
Fixpoint scan_string (escaped : bool) (s : string) : option (string * string) :=
  match s with
  | EmptyString => None
  | String c s' =>
      if escaped then
        match unescape c with
        | Some c' => cons_char c' (scan_string false s')
        | None => None
        end
      else if Ascii.eqb c dquote then Some (EmptyString, s')
      else if Ascii.eqb c backslash then scan_string true s'
      else if (PyStr.code c <? 32)%nat then None
      else cons_char c (scan_string false s')
  end.

(** A run of digits, read as a number in base ten. *)
Fixpoint scan_digits (acc : Z) (s : string) : Z * string :=
  match s with
  | EmptyString => (acc, EmptyString)
  | String c s' =>
      if is_digit c
      then scan_digits (10 * acc + Z.of_nat (PyStr.code c - 48))%Z s'
      else (acc, s)
  end.

Definition starts_fraction (s : string) : bool :=
  PyStr.startswith s "." || PyStr.startswith s "e" || PyStr.startswith s "E".

(** An optional minus sign, then either 0 or a run of digits that does
    not start with 0; not followed by a fraction or an exponent. *)
Definition scan_int (s : string) : option (Z * string) :=
  let (neg, s1) :=
    match s with
    | String "-" s' => (true, s')
    | _ => (false, s)
    end in
  match s1 with
  | String c s2 =>
      if is_digit c then
        let (n, rest) :=
          if Ascii.eqb c "0" then (0%Z, s2) else scan_digits 0 s1 in
        if starts_fraction rest then None
        else Some (if neg : bool then (- n)%Z else n, rest)
      else None
  | EmptyString => None
  end.

Definition expect (c : ascii) (s : string) : option string :=
  match s with
  | String c' s' => if Ascii.eqb c c' then Some s' else None
  | EmptyString => None
  end.

(** One value at the start of [s] and the text after it.  Every call
    consumes a character, so [fuel] above the length of the text is
    enough. *)
Fixpoint scan_value (fuel : nat) (s : string) : option (value * string) :=
  match fuel with
  | O => None
  | S fuel =>
      match s with
      | EmptyString => None
      | String c s' =>
          if Ascii.eqb c dquote then
            match scan_string false s' with
            | Some (body, rest) => Some (VStr body, rest)
            | None => None
            end
          else if Ascii.eqb c "[" then
            match expect "]" (skip_ws s') with
            | Some rest => Some (VList [], rest)
            | None =>
                match scan_elements fuel (skip_ws s') with
                | Some (l, rest) => Some (VList l, rest)
                | None => None
                end
            end
          else if Ascii.eqb c "{" then
            match expect "}" (skip_ws s') with
            | Some rest => Some (VDict [], rest)
            | None =>
                match scan_members fuel (skip_ws s') with
                | Some (d, rest) =>
                    Some (VDict (fold_left (fun d kv => dict_set (fst kv) (snd kv) d) d []),
                          rest)
                | None => None
                end
            end
          else if PyStr.startswith s "null" then Some (VNone, PyStr.drop 4 s)
          else if PyStr.startswith s "true" then Some (VBool true, PyStr.drop 4 s)
          else if PyStr.startswith s "false" then Some (VBool false, PyStr.drop 5 s)
          else
            match scan_int s with
            | Some (z, rest) => Some (VInt z, rest)
            | None => None
            end
      end
  end

(** The elements of an array from the first one on, up to the closing
    bracket. *)
with scan_elements (fuel : nat) (s : string) : option (list value * string) :=
  match fuel with
  | O => None
  | S fuel =>
      match scan_value fuel s with
      | Some (v, s1) =>
          match skip_ws s1 with
          | String c s2 =>
              if Ascii.eqb c "," then
                match scan_elements fuel (skip_ws s2) with
                | Some (l, rest) => Some (v :: l, rest)
                | None => None
                end
              else if Ascii.eqb c "]" then Some ([v], s2)
              else None
          | EmptyString => None
          end
      | None => None
      end
  end

(** The members of an object from the first one on, up to the closing
    brace. *)
with scan_members (fuel : nat) (s : string)
    : option (list (string * value) * string) :=
  match fuel with
  | O => None
  | S fuel =>
      match expect dquote s with
      | Some s0 =>
          match scan_string false s0 with
          | Some (key, s1) =>
              match expect ":" (skip_ws s1) with
              | Some s2 =>
                  match scan_value fuel (skip_ws s2) with
                  | Some (v, s3) =>
                      match skip_ws s3 with
                      | String c s4 =>
                          if Ascii.eqb c "," then
                            match scan_members fuel (skip_ws s4) with
                            | Some (d, rest) => Some ((key, v) :: d, rest)
                            | None => None
                            end
                          else if Ascii.eqb c "}" then Some ([(key, v)], s4)
                          else None
                      | EmptyString => None
                      end
                  | None => None
                  end
              | None => None
              end
          | None => None
          end
      | None => None
      end
  end.

Definition loads (s : string) : result value :=
  match scan_value (S (String.length s)) (skip_ws s) with
  | Some (v, rest) =>
      match skip_ws rest with
      | EmptyString => Ok v
      | String _ _ => Raise JSONDecodeError
      end
  | None => Raise JSONDecodeError
  end.

(** [json.dumps(s)] for a string without characters to escape: the text of
    a JSON string literal. *)
Definition quoted (s : string) : string :=
  String dquote s ++ String dquote EmptyString.

End Json.

(* ===================================================================== *)
(** ** The checks of the validator, one by one *)
(* ===================================================================== *)

(** What each check of [validate_single_faq] reports for a record [d],
    written down check by check.  [single_report_correct] below shows that
    the method reports exactly these. *)
Module Checks.

Import FAQValidator.

(** "present and non-empty" *)
Definition present_nonempty (field : string) (d : dict) : bool :=
  match dict_get field d with
  | Some v => truthy v
  | None => false
  end.

Definition missing_fields (d : dict) : list string :=
  filter (fun field => negb (present_nonempty field d)) REQUIRED_FIELDS.

Definition missing_message (idx : nat) (field : string) : string :=
  tag idx ++ "Missing required field '" ++ field ++ "'".

Definition required_errors (idx : nat) (d : dict) : list string :=
  map (missing_message idx) (missing_fields d).

(** "if keywords present, it must be a sequence type" *)
Definition keywords_ok (d : dict) : bool :=
  match dict_get "keywords" d with
  | Some v => is_list v
  | None => true
  end.

(** "if present, it must be one of ..." *)
Definition enum_ok (key : string) (choices : list string) (d : dict) : bool :=
  match dict_get key d with
  | Some v => in_strings v choices
  | None => true
  end.

Definition keywords_errors (idx : nat) (d : dict) : list string :=
  if keywords_ok d then [] else [tag idx ++ "Keywords must be a list"].

Definition enum_errors (idx : nat) (key : string) (choices : list string)
    (d : dict) : list string :=
  match dict_get key d with
  | Some v =>
      if in_strings v choices then []
      else [tag idx ++ "Invalid " ++ key ++ " '" ++ str v ++ "'"]
  | None => []
  end.

(** The errors of the checks that come after the required fields. *)
Definition later_errors (idx : nat) (d : dict) : list string :=
  (keywords_errors idx d
   ++ enum_errors idx "difficulty" VALID_DIFFICULTIES d
   ++ enum_errors idx "segment" VALID_SEGMENTS d)%list.

Definition later_ok (d : dict) : bool :=
  keywords_ok d
  && enum_ok "difficulty" VALID_DIFFICULTIES d
  && enum_ok "segment" VALID_SEGMENTS d.

(** A record passes all structural checks. *)
Definition passes_structural_checks (faq : value) : bool :=
  match faq with
  | VDict d =>
      forallb (fun field => present_nonempty field d) REQUIRED_FIELDS
      && later_ok d
  | _ => false
  end.

Definition length_warnings (idx : nat) (what text : string) (lo hi : nat)
    : list string :=
  let n := String.length text in
  if (n <? lo)%nat
  then [tag idx ++ what ++ " too short (" ++ PyStr.of_nat n ++ " chars)"]
  else if (hi <? n)%nat
  then [tag idx ++ what ++ " too long (" ++ PyStr.of_nat n ++ " chars)"]
  else [].

Definition question_mark_warnings (idx : nat) (question : string) : list string :=
  if PyStr.endswith question "?" then []
  else [tag idx ++ "Question doesn't end with '?'"].

Definition keywords_warnings (idx : nat) (d : dict) : list string :=
  match dict_get "keywords" d with
  | Some (VList l) =>
      let n := List.length l in
      if (n <? MIN_KEYWORDS)%nat
      then [tag idx ++ "Too few keywords (" ++ PyStr.of_nat n ++ ")"]
      else if (MAX_KEYWORDS <? n)%nat
      then [tag idx ++ "Too many keywords (" ++ PyStr.of_nat n ++ ")"]
      else []
  | _ => []
  end.

Definition repetitive_warnings (idx : nat) (answer : string) : list string :=
  if _has_repetitive_content answer
  then [tag idx ++ "Answer may have repetitive content"]
  else [].

(** The warnings of a record whose stripped question and answer are
    [question] and [answer], in the order they are reported. *)
Definition heuristic_warnings (idx : nat) (d : dict) (question answer : string)
    : list string :=
  (length_warnings idx "Question" question MIN_QUESTION_LENGTH MAX_QUESTION_LENGTH
   ++ question_mark_warnings idx question
   ++ length_warnings idx "Answer" answer MIN_ANSWER_LENGTH MAX_ANSWER_LENGTH
   ++ keywords_warnings idx d
   ++ repetitive_warnings idx answer)%list.

(** The validator after it has reported the errors [es] and the warnings
    [ws]. *)
Definition reported (self : t) (es ws : list string) : t :=
  let st := stats self in
  mkValidator (errors self ++ es)%list (warnings self ++ ws)%list
    (mkStats (total st) (valid st) (invalid st) (nwarnings st + List.length ws)).

(** A warning about the length of the answer of record [idx]. *)
Definition is_answer_length_warning (idx : nat) (w : string) : bool :=
  String.prefix (tag idx ++ "Answer too ") w.

(** The record type of the data model: an object whose [question] and
    [answer], where present, are strings. *)
Definition string_or_absent (field : string) (d : dict) : bool :=
  match dict_get field d with
  | Some (VStr _) => true
  | Some _ => false
  | None => true
  end.


(** [extend self d]: the validator [self] after a method has added to it
    what it adds to a new validator to give [d].  The entry [total] is the
    one entry the methods overwrite rather than add to. *)
Definition extend (self d : t) : t :=
  mkValidator (errors self ++ errors d)%list (warnings self ++ warnings d)%list
    (mkStats (total (stats self))
             (valid (stats self) + valid (stats d))
             (invalid (stats self) + invalid (stats d))
             (nwarnings (stats self) + nwarnings (stats d))).

(** A method is framed when, on any validator, it returns what it returns
    on a new validator and adds to the validator what it adds to a new
    one. *)
Definition framed {A : Type} (m : M A) : Prop :=
  forall self, m self = (fst (m __init__), extend self (snd (m __init__))).

(** A method is quiet when all it does to the validator is report errors
    and warnings, the same ones whatever the validator. *)
Definition quiet {A : Type} (m : M A) : Prop :=
  exists r es ws, forall self, m self = (r, reported self es ws).

(** What [validate_single_faq] returns and reports on a record [d]: the
    result, the errors and the warnings.  The checks after the required
    fields are reached only when no required field is missing. *)
Definition single_outcome (idx : nat) (d : dict)
    : result bool * list string * list string :=
  match missing_fields d with
  | _ :: _ => (Ok false, required_errors idx d, [])
  | [] =>
      match dict_get "question" d with
      | Some (VStr q) =>
          let question := PyStr.strip q in
          match dict_get "answer" d with
          | Some (VStr a) =>
              (Ok (later_ok d), later_errors idx d,
               heuristic_warnings idx d question (PyStr.strip a))
          | _ =>
              (Raise AttributeError, [],
               (length_warnings idx "Question" question
                  MIN_QUESTION_LENGTH MAX_QUESTION_LENGTH
                ++ question_mark_warnings idx question)%list)
          end
      | _ => (Raise AttributeError, [], [])
      end
  end.

(** All three required fields are present and non-empty, and [question]
    or [answer] holds something that is not a string. *)
Definition non_string_text (d : dict) : bool :=
  forallb (fun field => present_nonempty field d) REQUIRED_FIELDS
  && negb (string_or_absent "question" d && string_or_absent "answer" d).

End Checks.

(* ===================================================================== *)
(** ** The records of the parser, element by element *)
(* ===================================================================== *)

Module Records.

(** The element is an object with the keys [question] and [answer]. *)
Definition has_both_keys (faq : value) : bool :=
  match faq with
  | VDict d => dict_has "question" d && dict_has "answer" d
  | _ => false
  end.

(** The record made of an object [d] of the response. *)
Definition fill_dict (category : string) (d : dict) : dict :=
  dict_setdefault "subcategory" (VStr category)
    (dict_setdefault "segment" (VStr "retail")
       (dict_setdefault "difficulty" (VStr "basic")
          (dict_setdefault "keywords" (VList [])
             (dict_set "category" (VStr category) d)))).

Definition fill (category : string) (faq : value) : value :=
  match faq with
  | VDict d => VDict (fill_dict category d)
  | _ => faq
  end.

(** The object [d] with its category set, as the batch generator leaves
    it. *)
Definition with_category (category : string) (faq : value) : value :=
  match faq with
  | VDict d => VDict (dict_set "category" (VStr category) d)
  | _ => faq
  end.

(** [d] is an object the decoder gave: the decoded value itself, or an
    element of the decoded array. *)
Definition decoded_object (decoded : result value) (d : dict) : Prop :=
  decoded = Ok (VDict d)
  \/ exists elements, decoded = Ok (VList elements) /\ In (VDict d) elements.

(** [d.get(key, default)] *)
Definition get_or (key : string) (default : value) (d : dict) : value :=
  match dict_get key d with
  | Some v => v
  | None => default
  end.

(** The five keys the parser writes. *)
Definition written_keys : list string :=
  ["category"; "keywords"; "difficulty"; "segment"; "subcategory"].

(** [r] is the record of [element]: the category is the caller's, the
    four other written keys hold the value of the element where it has
    one and the default otherwise, and every other key is as in the
    element. *)
Definition record_of (category : string) (element r : value) : Prop :=
  exists d d',
    element = VDict d /\ r = VDict d'
    /\ dict_get "category" d' = Some (VStr category)
    /\ dict_get "subcategory" d' = Some (get_or "subcategory" (VStr category) d)
    /\ dict_get "keywords" d' = Some (get_or "keywords" (VList []) d)
    /\ dict_get "difficulty" d' = Some (get_or "difficulty" (VStr "basic") d)
    /\ dict_get "segment" d' = Some (get_or "segment" (VStr "retail") d)
    /\ (forall k, ~ In k written_keys -> dict_get k d' = dict_get k d).

End Records.

(* ===================================================================== *)
(** ** The calls of the batch scheduler, batch by batch *)
(* ===================================================================== *)

Module Schedule.

Import BatchFAQGenerator.





End Schedule.

(* ===================================================================== *)
(** ** The repetitive-content check, in terms of occurrences *)
(* ===================================================================== *)

Module Repetition.

Import FAQValidator.

(** The number of occurrences of [x] in [l]. *)
Definition occurrences (x : string) (l : list string) : nat :=
  count_occ string_dec l x.

(** The number of occurrences of the most frequent element of [l]. *)
Definition most_frequent (l : list string) : nat :=
  fold_right Nat.max 0 (map (fun x => occurrences x l) l).

Definition segments (text : string) : list string :=
  PyStr.re_split_terminal text.

(** The check as the words "the most frequent normalized segment's share
    of the total segments exceeds 0.3" read: every segment is normalized
    and counted. *)
Definition share_of_all_segments_exceeds (text : string) : bool :=
  let n := List.length (segments text) in
  if (n <? 3)%nat then false
  else (3 * n <? 10 * most_frequent (map normalize (segments text)))%nat.

(** The check with the blank segments left out of the count of
    occurrences, but not out of the total. *)
Definition share_of_nonblank_segment_exceeds (text : string) : bool :=
  let n := List.length (segments text) in
  if (n <? 3)%nat then false
  else (3 * n <? 10 * most_frequent (map normalize (filter nonblank (segments text))))%nat.

(** The value the counter [c] holds for [k], 0 when it holds none. *)
Fixpoint counter_get (k : string) (c : list (string * nat)) : nat :=
  match c with
  | [] => 0
  | (k', n) :: c' => if String.eqb k k' then n else counter_get k c'
  end.

(** A sentence body: no terminal punctuation in it, and not blank. *)
Fixpoint terminal_free (s : string) : bool :=
  match s with
  | EmptyString => true
  | String c s' => negb (PyStr.is_terminal c) && terminal_free s'
  end.

Definition is_sentence (s : string) : bool := terminal_free s && nonblank s.

(** The text made of the sentences [ss], each closed by a full stop. *)
Fixpoint join_sentences (ss : list string) : string :=
  match ss with
  | [] => EmptyString
  | s :: rest => s ++ "." ++ join_sentences rest
  end.

End Repetition.

(* ===================================================================== *)
(** ** Sample records and responses *)
(* ===================================================================== *)

Module Samples.

(** An answer of 150 characters. *)
Definition answer_150 : string :=
  "The annual percentage rate is a yearly cost of a loan, including the "
  ++ "interest and the fees, expressed as a percentage of the amount that "
  ++ "was borrowed.".

(** The record of the APR scenario. *)
Definition apr_record : value :=
  VDict [("question", VStr "What is APR?");
         ("answer", VStr answer_150);
         ("difficulty", VStr "extreme");
         ("category", VStr "Loans")].

(** A record with an empty question and a difficulty outside the
    enumerated set. *)
Definition empty_question_record : dict :=
  [("question", VStr EmptyString);
   ("answer", VStr "Ask at a branch.");
   ("category", VStr "Loans");
   ("difficulty", VStr "extreme")].

(** A record that passes every structural check. *)
Definition plain_record (answer : string) : dict :=
  [("question", VStr "What is APR?");
   ("answer", VStr answer);
   ("category", VStr "Loans");
   ("keywords", VList [VStr "apr"]);
   ("difficulty", VStr "basic");
   ("segment", VStr "retail")].

(** The response [[{"question": "", "answer": ""}]]. *)
Definition empty_text_response : string :=
  "[{" ++ Json.quoted "question" ++ ": " ++ Json.quoted EmptyString ++ ", "
       ++ Json.quoted "answer" ++ ": " ++ Json.quoted EmptyString ++ "}]".

(** The response [[{"question": "What is APR?"}]]. *)
Definition no_answer_response : string :=
  "[{" ++ Json.quoted "question" ++ ": " ++ Json.quoted "What is APR?" ++ "}]".

(** A fenced response with two records, the second of which declares a
    category, a difficulty and keywords of its own. *)
Definition fenced_response : string :=
  "Here are the FAQs: " ++ FENCE ++ "json [{"
    ++ Json.quoted "question" ++ ": " ++ Json.quoted "What is APR?" ++ ", "
    ++ Json.quoted "answer" ++ ": " ++ Json.quoted "A yearly rate." ++ "}, {"
    ++ Json.quoted "question" ++ ": " ++ Json.quoted "What is a lien?" ++ ", "
    ++ Json.quoted "answer" ++ ": " ++ Json.quoted "A claim on property." ++ ", "
    ++ Json.quoted "category" ++ ": " ++ Json.quoted "Elsewhere" ++ ", "
    ++ Json.quoted "difficulty" ++ ": " ++ Json.quoted "advanced" ++ ", "
    ++ Json.quoted "keywords" ++ ": [" ++ Json.quoted "lien" ++ "]}]"
    ++ FENCE ++ " Let me know.".

(** The response [[{"question": 5, "answer": "A yearly rate."}]]. *)
Definition number_question_response : string :=
  "[{" ++ Json.quoted "question" ++ ": 5, "
       ++ Json.quoted "answer" ++ ": " ++ Json.quoted "A yearly rate." ++ "}]".

(** The response [[{"question": "How do I quote code?", "answer": "Put ```
    before and after it."}]]: a JSON array whose answer holds a fence. *)
Definition fence_in_answer_response : string :=
  "[{" ++ Json.quoted "question" ++ ": " ++ Json.quoted "How do I quote code?" ++ ", "
       ++ Json.quoted "answer" ++ ": "
       ++ Json.quoted ("Put " ++ FENCE ++ " before and after it.") ++ "}]".

(** A standard output that takes every line. *)
Definition stdout : BankingFAQGenerator.line -> result unit :=
  fun _ => Ok tt.

(** Every character of the string is below 128. *)
Fixpoint is_ascii (s : string) : bool :=
  match s with
  | EmptyString => true
  | String c s' => (PyStr.code c <? 128)%nat && is_ascii s'
  end.

(** A standard output that takes the messages of the program but cannot
    encode a preview that holds a character above 127; a UTF-8 stream
    refuses in the same way a text that holds a lone surrogate. *)
Definition narrow_stdout : BankingFAQGenerator.line -> result unit :=
  fun l =>
    match l with
    | BankingFAQGenerator.ResponsePreview preview =>
        if is_ascii preview then Ok tt else Raise UnicodeEncodeError
    | _ => Ok tt
    end.

(** A response that is no JSON and holds the character of code 233. *)
Definition accented_response : string :=
  "Pas de r" ++ String "233" "ponse.".

(** Five sentences, four of which are the same up to case and spacing. *)
Definition four_of_five : list string :=
  ["Fees apply"; " Fees apply"; " fees apply"; " FEES APPLY"; " Ask at a branch"].

(** Five sentences, all different. *)
Definition five_distinct : list string :=
  ["Fees apply"; " Rates vary"; " Terms differ"; " Limits exist"; " Ask at a branch"].

(** A text with an ellipsis typed with spaces. *)
Definition spaced_ellipsis : string := "Rates vary. . . Ask us!".

(** [n] times the character [c]. *)
Fixpoint repeat_char (c : ascii) (n : nat) : string :=
  match n with
  | O => EmptyString
  | S k => String c (repeat_char c k)
  end.

End Samples.

(* ===================================================================== *)
(** ** [validate_data.py]: validating a file *)
(* ===================================================================== *)

Module FAQValidatorFile.

Import FAQValidator.





(** The message [m] starts with the tag of position [idx]. *)
Definition at_position (idx : nat) (m : string) : bool :=
  String.prefix (tag idx) m.

(** At most [k] messages, all of position [idx]. *)
Definition group_of (idx k : nat) (g : list string) : Prop :=
  Forall (fun m => at_position idx m = true) g /\ List.length g <= k.

(** The validator [self] after a loop that reported the groups of errors
    [egroups] and of warnings [wgroups], one group per record, and counted
    [v] valid and [i] invalid records. *)
Definition after_loop (self : t) (egroups wgroups : list (list string))
    (v i : nat) : t :=
  mkValidator (errors self ++ List.concat egroups)%list
    (warnings self ++ List.concat wgroups)%list
    (mkStats (total (stats self))
       (valid (stats self) + v)
       (invalid (stats self) + i)
       (nwarnings (stats self) + List.length (List.concat wgroups))).

Definition is_digit_char (c : ascii) : bool :=
  ((48 <=? PyStr.code c) && (PyStr.code c <=? 57))%nat.

Fixpoint all_digits (s : string) : bool :=
  match s with
  | EmptyString => true
  | String c s' => is_digit_char c && all_digits s'
  end.

End FAQValidatorFile.

(* ===================================================================== *)
(** ** The parsers, as functions of the decoded value *)
(* ===================================================================== *)

Module Decoded.

Import Records.

(** An element of the decoded array on which the loop of
    [BankingFAQGenerator._parse_response] raises: a number, a boolean or
    [None], on which [in] is not defined, or a list or a string that holds
    both ['question'] and ['answer'] and then refuses the item
    assignment. *)
Definition breaks_parse (faq : value) : bool :=
  match faq with
  | VDict _ => false
  | VList l =>
      existsb (fun x => eq_str x "question") l
      && existsb (fun x => eq_str x "answer") l
  | VStr s => PyStr.contains "question" s && PyStr.contains "answer" s
  | _ => true
  end.

(** What [BankingFAQGenerator._parse_response] returns when it returns,
    given what [json.loads] gave on the payload. *)
Definition banking_records (category : string) (decoded : result value)
    : list value :=
  match decoded with
  | Raise _ => []
  | Ok (VDict d) =>
      if has_both_keys (VDict d) then [VDict (fill_dict category d)] else []
  | Ok (VList elements) =>
      if existsb breaks_parse elements then []
      else map (fill category) (filter has_both_keys elements)
  | Ok _ => []
  end.

(** The exception the [try] block of [BankingFAQGenerator._parse_response]
    ends with, given what [json.loads] gave on the payload: the exception
    of the decoder, or the [TypeError] of a value that cannot be gone
    through or of an element that breaks the loop. *)
Definition banking_failure (decoded : result value) : option exn :=
  match decoded with
  | Raise e => Some e
  | Ok (VDict _) => None
  | Ok (VStr _) => None
  | Ok (VList elements) =>
      if existsb breaks_parse elements then Some TypeError else None
  | Ok _ => Some TypeError
  end.

(** The lines the handlers print for it, in order. *)
Definition handler_prints (print : BankingFAQGenerator.line -> result unit)
    (payload : string) (decoded : result value) : result unit :=
  match banking_failure decoded with
  | None => Ok tt
  | Some JSONDecodeError =>
      rbind (print BankingFAQGenerator.ParsingError) (fun _ =>
      print (BankingFAQGenerator.ResponsePreview (substring 0 200 payload)))
  | Some e => print (BankingFAQGenerator.UnexpectedError e)
  end.

(** What [BatchFAQGenerator._parse_response] returns, given what
    [json.loads] gave on the payload. *)
Definition batch_records (category : string) (decoded : result value) : value :=
  match decoded with
  | Raise _ => VList []
  | Ok (VDict d) => VList [VDict (dict_set "category" (VStr category) d)]
  | Ok (VList elements) =>
      if forallb is_dict elements
      then VList (map (with_category category) elements)
      else VList []
  | Ok (VStr s) =>
      match s with
      | EmptyString => VStr EmptyString
      | String _ _ => VList []
      end
  | Ok _ => VList []
  end.

(** No backtick in the string. *)
Fixpoint backtick_free (s : string) : bool :=
  match s with
  | EmptyString => true
  | String c s' => negb (Ascii.eqb c "`") && backtick_free s'
  end.

(** The part opens a payload for the loop of
    [BankingFAQGenerator._parse_response]: stripped, it starts with
    [json], with [[] or with [{]. *)
Definition opens_payload (part : string) : bool :=
  let part := PyStr.strip part in
  PyStr.startswith part "json" || PyStr.startswith part "["
  || PyStr.startswith part "{".

(** The payload the loop takes from such a part. *)
Definition payload_of_part (part : string) : string :=
  let part := PyStr.strip part in
  if PyStr.startswith part "json" then PyStr.strip (PyStr.drop 4 part) else part.

End Decoded.

(* ===================================================================== *)
(** ** [batch_generator.py]: all categories *)
(* ===================================================================== *)

Module BatchAll.

Import BatchFAQGenerator.

Section All.

Variable json_loads : string -> result value.
Variable generate_content : list event -> string -> result string.
Variable batch_size : Z.
Variable delay : Z.

(** The loop [for category, count in categories.items()] of
    [generate_all_batched]; the categories are the items of the dict, a
    name and an integer count each. *)
Fixpoint categories_loop (categories : list (string * Z))
    (all_faqs : list value) : W (list value) :=
  fun trace =>
    match categories with
    | [] => (Ok all_faqs, trace)
    | (category, count) :: rest =>
        match generate_category_batched json_loads generate_content
                batch_size delay category count trace with
        | (Raise e, trace1) => (Raise e, trace1)
        | (Ok faqs, trace1) =>
            match sleep 1 trace1 with
            | (Raise e, trace2) => (Raise e, trace2)
            | (Ok _, trace2) =>
                categories_loop rest (all_faqs ++ faqs)%list trace2
            end
        end
    end.


End All.






End BatchAll.

(* ===================================================================== *)
(** ** [config_loader.py]: the configuration *)
(* ===================================================================== *)

(** The configuration is what [yaml.safe_load] gives: the values above,
    with mappings whose keys are strings. *)
Module ConfigLoader.

(** [_deep_merge(base, override)] on two mappings, for its result.  The
    outer function is the call, the inner loop is
    [for key, val in override.items()] ([val] for the source's [value]); [result] starts as the copy of
    [base]. *)
Fixpoint merge_into (result : dict) (override : value) {struct override} : dict :=
  match override with
  | VDict items =>
      (fix loop (items : list (string * value)) (result : dict) {struct items}
         : dict :=
         match items with
         | [] => result
         | (key, val) :: rest =>
             loop rest
               (dict_set key
                  (match dict_get key result, val with
                   | Some (VDict sub), VDict _ => VDict (merge_into sub val)
                   | _, _ => val
                   end)
                  result)
         end) items result
  | _ => result
  end.

(** [_deep_merge] on any two values.  [base.copy()] exists for a dict and
    for a list, [override.items()] for a dict; on the copy of a list
    every step of the loop raises [TypeError]. *)
Definition _deep_merge (base override : value) : result value :=
  match base, override with
  | VDict b, VDict _ => Ok (VDict (merge_into b override))
  | VList l, VDict [] => Ok (VList l)
  | VList _, VDict (_ :: _) => Raise TypeError
  | _, _ => Raise AttributeError
  end.

(** The loop of [get] over the keys of the path: the value reached, or
    [None] where the source returns the default. *)
Fixpoint walk (keys : list string) (val : value) : option value :=
  match keys with
  | [] => Some val
  | key :: rest =>
      match val with
      | VDict d =>
          match dict_get key d with
          | Some v => walk rest v
          | None => None
          end
      | _ => None
      end
  end.

(** [get(key_path, default)] on the configuration [config]. *)
Definition get (config : value) (key_path : string) (default : value) : value :=
  match walk (PyStr.split key_path ".") config with
  | Some v => v
  | None => default
  end.

(** What reading a YAML file gives. *)
Inductive yaml_file : Type :=
| Missing                    (* FileNotFoundError *)
| Malformed                  (* yaml.YAMLError *)
| Document (v : value).      (* the value yaml.safe_load returns *)

(** [_load_yaml]: [yaml.safe_load(f) or {}], [{}] for a missing file and
    [ValueError] for a malformed one. *)
Definition _load_yaml (file : yaml_file) : result value :=
  match file with
  | Missing => Ok (VDict [])
  | Malformed => Raise ValueError
  | Document v => Ok (if truthy v then v else VDict [])
  end.

(** [os.getenv(name)] as a value: the string, or [None]. *)
Definition env_value (getenv : string -> option string) (name : string) : value :=
  match getenv name with
  | Some s => VStr s
  | None => VNone
  end.

Definition secrets (getenv : string -> option string) : dict :=
  [("gemini_api_key", env_value getenv "GEMINI_API_KEY");
   ("sf_username", env_value getenv "SF_USERNAME");
   ("sf_password", env_value getenv "SF_PASSWORD");
   ("sf_security_token", env_value getenv "SF_SECURITY_TOKEN");
   ("sf_instance_url", env_value getenv "SF_INSTANCE_URL")].

(** [_load_config]: [base_file] is [config.yaml]; [env_file] is the file
    of the environment, [None] when [env_config_path.exists()] is
    false. *)
Definition _load_config (base_file : yaml_file) (env_file : option yaml_file)
    (getenv : string -> option string) : result value :=
  rbind (_load_yaml base_file) (fun config =>
  rbind (match env_file with
         | Some file =>
             rbind (_load_yaml file) (fun env_config =>
             _deep_merge config env_config)
         | None => Ok config
         end) (fun config =>
  setitem config "secrets" (VDict (secrets getenv)))).

(** [self.config.get(key, {})], as in [get_categories]. *)
Definition section (config : dict) (key : string) : value :=
  match dict_get key config with
  | Some v => v
  | None => VDict []
  end.

Section Prompts.

(** [str.format] with keyword arguments, of the Python standard
    library. *)
Variable str_format : string -> list (string * value) -> result string.

(** [get_prompt] with its keyword arguments: a missing or empty template and
    a [KeyError] of [format] give [ValueError]; a template that is not a
    string has no [format]. *)
Definition get_prompt (config : value) (prompt_name : string)
    (kwargs : list (string * value)) : result string :=
  let prompt_template := get config ("prompts." ++ prompt_name) VNone in
  if negb (truthy prompt_template) then Raise ValueError
  else
    match prompt_template with
    | VStr template =>
        match str_format template kwargs with
        | Ok prompt => Ok prompt
        | Raise KeyError => Raise ValueError
        | Raise e => Raise e
        end
    | _ => Raise AttributeError
    end.

End Prompts.

(** Every mapping in the value has each key once. *)
Fixpoint well_formed (v : value) : Prop :=
  match v with
  | VDict d =>
      NoDup (map fst d)
      /\ (fix each (d : list (string * value)) : Prop :=
            match d with
            | [] => True
            | (_, x) :: d' => well_formed x /\ each d'
            end) d
  | VList l =>
      (fix each (l : list value) : Prop :=
         match l with
         | [] => True
         | x :: l' => well_formed x /\ each l'
         end) l
  | _ => True
  end.

(** No dot in the string. *)
Fixpoint dot_free (s : string) : bool :=
  match s with
  | EmptyString => true
  | String c s' => negb (Ascii.eqb c ".") && dot_free s'
  end.

(** The value [result[key]] gets in the loop of [_deep_merge]. *)
Definition merged_value (old : option value) (val : value) : value :=
  match old, val with
  | Some (VDict sub), VDict _ => VDict (merge_into sub val)
  | _, _ => val
  end.

(** One step of the loop of [_deep_merge]. *)
Definition merge_step (result : dict) (item : string * value) : dict :=
  dict_set (fst item) (merged_value (dict_get (fst item) result) (snd item)) result.

(** The keys of [items] that [result] does not have. *)
Definition new_keys (result : dict) (items : dict) : list string :=
  filter (fun k => negb (dict_has k result)) (map fst items).

End ConfigLoader.

(* ===================================================================== *)
(** ** [generate_faqs.py]: all categories *)
(* ===================================================================== *)

Module BankingAll.

Section All.

Variable json_loads : string -> result value.
Variable print : BankingFAQGenerator.line -> result unit.
Variable str_format : string -> list (string * value) -> result string.

(** The external text service: its answer to a prompt, or the exception
    it raises, given the prompts sent before. *)
Variable generate_content : list string -> string -> result string.

(** The configuration held by [self.config]. *)
Variable config : value.

(** A method of the generator: it extends the list of prompts sent and
    returns or raises. *)
Definition G (A : Type) : Type := list string -> result A * list string.

(** [self.config.get_prompt('generate_faqs', count=count,
    category=category)] *)
Definition prompt_of (category : string) (count : value) : result string :=
  ConfigLoader.get_prompt str_format config "generate_faqs"
    [("count", count); ("category", VStr category)].

(** [generate_category_faqs]: the prompt is built before the [try], so
    its exception is not caught; any exception of the call or of the
    parser gives the empty list. *)
Definition generate_category_faqs (category : string) (count : value)
    : G (list value) :=
  fun sent =>
    match prompt_of category count with
    | Raise e => (Raise e, sent)
    | Ok prompt =>
        match rbind (generate_content sent prompt) (fun text =>
                BankingFAQGenerator._parse_response json_loads print text category) with
        | Ok faqs => (Ok faqs, (sent ++ [prompt])%list)
        | Raise _ => (Ok [], (sent ++ [prompt])%list)
        end
    end.

(** The loop [for category, count in self.CATEGORIES.items()]. *)
Fixpoint categories_loop (items : list (string * value)) (all_faqs : list value)
    : G (list value) :=
  fun sent =>
    match items with
    | [] => (Ok all_faqs, sent)
    | (category, count) :: rest =>
        match generate_category_faqs category count sent with
        | (Raise e, sent1) => (Raise e, sent1)
        | (Ok faqs, sent1) => categories_loop rest (all_faqs ++ faqs)%list sent1
        end
    end.

(** [generate_all_faqs]; [CATEGORIES] is what [get_categories] gave.
    [len(self.CATEGORIES)] is evaluated first, for the message printed,
    then [self.CATEGORIES.items()]. *)
Definition generate_all_faqs (CATEGORIES : value) : G (list value) :=
  fun sent =>
    match CATEGORIES with
    | VDict items => categories_loop items [] sent
    | VList _ | VStr _ => (Raise AttributeError, sent)
    | _ => (Raise TypeError, sent)
    end.

(** The prompts of the categories up to the first whose prompt cannot be
    built. *)
Fixpoint prompts_sent (items : list (string * value)) : list string :=
  match items with
  | [] => []
  | (category, count) :: rest =>
      match prompt_of category count with
      | Ok prompt => prompt :: prompts_sent rest
      | Raise _ => []
      end
  end.

(** The exception of the first category whose prompt cannot be built. *)
Fixpoint first_failure (items : list (string * value)) : option exn :=
  match items with
  | [] => None
  | (category, count) :: rest =>
      match prompt_of category count with
      | Ok _ => first_failure rest
      | Raise e => Some e
      end
  end.

End All.

(** [str.format] on templates without replacement fields, which it
    returns as they are. *)
Definition format_plain : string -> list (string * value) -> result string :=
  fun template _ => Ok template.

(** A configuration with a prompt template and two categories. *)
Definition sample_config : value :=
  VDict [("prompts", VDict [("generate_faqs", VStr "List banking FAQs as JSON.")]);
         ("categories", VDict [("Loans", VInt 2); ("Cards", VInt 2)])].

(** A text service that always answers with the fenced sample response. *)
Definition sample_service : list string -> string -> result string :=
  fun _ _ => Ok Samples.fenced_response.

(** The record is an object with a question and an answer whose category
    is one of [names]. *)
Definition record_from (names : list string) (r : value) : Prop :=
  exists d category,
    r = VDict d /\ In category names
    /\ dict_get "category" d = Some (VStr category)
    /\ dict_has "question" d = true /\ dict_has "answer" d = true.

End BankingAll.

(* ===================================================================== *)
(** ** [salesforce_import.py]: URL names *)
(* ===================================================================== *)

Module SalesforceVectorImporter.

(** [s[:n]] *)
Fixpoint take (n : nat) (s : string) : string :=
  match n, s with
  | O, _ => EmptyString
  | S _, EmptyString => EmptyString
  | S k, String c s' => String c (take k s')
  end.

(** The characters of the class [[a-z0-9]]. *)
Definition is_url_char (c : ascii) : bool :=
  let n := PyStr.code c in
  (((97 <=? n) && (n <=? 122)) || ((48 <=? n) && (n <=? 57)))%nat.

Definition is_hyphen (c : ascii) : bool := Ascii.eqb c "-".

(** [re.sub(r'[^a-z0-9]+', '-', s)]: every maximal run of other
    characters becomes one hyphen.  [in_run] tells that the previous
    character belonged to such a run. *)
Fixpoint sub_runs (in_run : bool) (s : string) : string :=
  match s with
  | EmptyString => EmptyString
  | String c s' =>
      if is_url_char c then String c (sub_runs false s')
      else if in_run then sub_runs true s'
      else String "-" (sub_runs true s')
  end.

(** [s.strip('-')] *)
Fixpoint lstrip_hyphens (s : string) : string :=
  match s with
  | EmptyString => EmptyString
  | String c s' => if is_hyphen c then lstrip_hyphens s' else s
  end.

Fixpoint rstrip_hyphens (s : string) : string :=
  match s with
  | EmptyString => EmptyString
  | String c s' =>
      match rstrip_hyphens s' with
      | EmptyString => if is_hyphen c then EmptyString else String c EmptyString
      | r => String c r
      end
  end.

Definition strip_hyphens (s : string) : string :=
  rstrip_hyphens (lstrip_hyphens s).

(** [_generate_url_name(question, idx)] for a string [question]; [idx]
    is the position of the record, counted from 1. *)
Definition _generate_url_name (question : string) (idx : nat) : string :=
  let name := PyStr.lower (take 50 question) in
  let name := sub_runs false name in
  let name := strip_hyphens name in
  name ++ "-" ++ PyStr.of_nat idx.

(** Only characters of [[a-z0-9]] and hyphens. *)
Fixpoint url_safe (s : string) : bool :=
  match s with
  | EmptyString => true
  | String c s' => (is_url_char c || is_hyphen c) && url_safe s'
  end.

End SalesforceVectorImporter.

(* ===================================================================== *)
(** ** Properties of the validator *)
(* ===================================================================== *)

Module ValidatorFacts.

Import FAQValidator Checks.

Lemma bind_ok {A B : Type} (m : M A) (k : A -> M B) self a self' :
  m self = (Ok a, self') -> bind m k self = k a self'.
Proof. intros H. unfold bind. now rewrite H. Qed.

Lemma bind_raise {A B : Type} (m : M A) (k : A -> M B) self e self' :
  m self = (Raise e, self') -> bind m k self = (Raise e, self').
Proof. intros H. unfold bind. now rewrite H. Qed.

Lemma reported_nil self : reported self [] [] = self.
Proof.
  destruct self as [es ws [t v i w]]. unfold reported. simpl.
  now rewrite !app_nil_r, Nat.add_0_r.
Qed.

Lemma reported_reported self e1 w1 e2 w2 :
  reported (reported self e1 w1) e2 w2 = reported self (e1 ++ e2) (w1 ++ w2).
Proof.
  unfold reported. simpl.
  now rewrite <- !app_assoc, length_app, Nat.add_assoc.
Qed.

Lemma add_error_run msg self :
  add_error msg self = (Ok tt, reported self [msg] []).
Proof.
  unfold add_error, reported. simpl.
  now rewrite app_nil_r, Nat.add_0_r; destruct self as [es ws [t v i w]].
Qed.

Lemma add_warning_run msg self :
  add_warning msg self = (Ok tt, reported self [] [msg]).
Proof.
  unfold add_warning, reported. simpl. now rewrite app_nil_r.
Qed.

Lemma field_missing_dict d field :
  field_missing (VDict d) field = Ok (negb (present_nonempty field d)).
Proof.
  unfold field_missing, present_nonempty, py_in, getitem, dict_has. simpl.
  now destruct (dict_get field d).
Qed.

Lemma check_required_dict d idx fields is_valid self :
  check_required (VDict d) idx fields is_valid self
  = (Ok (is_valid && forallb (fun f => present_nonempty f d) fields),
     reported self
       (map (missing_message idx)
            (filter (fun f => negb (present_nonempty f d)) fields)) []).
Proof.
  revert is_valid self. induction fields as [|field rest IH]; intros is_valid self.
  - simpl. now rewrite andb_true_r, reported_nil.
  - cbn [check_required]. unfold bind at 1, lift. rewrite field_missing_dict.
    cbn [filter forallb map].
    destruct (present_nonempty field d); cbn [negb].
    + rewrite IH. now rewrite andb_true_l.
    + unfold bind at 1. rewrite add_error_run, IH, reported_reported.
      cbn [map app]. now rewrite andb_false_l, andb_false_r.
Qed.

Lemma check_length_run idx what text lo hi self :
  check_length idx what text lo hi self
  = (Ok tt, reported self [] (length_warnings idx what text lo hi)).
Proof.
  unfold check_length, length_warnings.
  destruct (String.length text <? lo)%nat; [apply add_warning_run|].
  destruct (hi <? String.length text)%nat; [apply add_warning_run|].
  unfold ret. now rewrite reported_nil.
Qed.

Lemma check_question_mark_run idx question self :
  check_question_mark idx question self
  = (Ok tt, reported self [] (question_mark_warnings idx question)).
Proof.
  unfold check_question_mark, question_mark_warnings.
  destruct (PyStr.endswith question "?"); cbn [negb].
  - unfold ret. now rewrite reported_nil.
  - apply add_warning_run.
Qed.

Lemma check_repetitive_run idx answer self :
  check_repetitive idx answer self
  = (Ok tt, reported self [] (repetitive_warnings idx answer)).
Proof.
  unfold check_repetitive, repetitive_warnings.
  destruct (_has_repetitive_content answer).
  - apply add_warning_run.
  - unfold ret. now rewrite reported_nil.
Qed.

Lemma check_keywords_run d idx is_valid self :
  check_keywords (VDict d) idx is_valid self
  = (Ok (is_valid && keywords_ok d),
     reported self (keywords_errors idx d) (keywords_warnings idx d)).
Proof.
  unfold check_keywords, keywords_errors, keywords_warnings, keywords_ok.
  unfold bind at 1, lift, py_in, dict_has, getitem.
  destruct (dict_get "keywords" d) as [v|].
  - unfold bind at 1.
    destruct v; cbn [is_list];
      try (unfold bind; rewrite add_error_run; unfold ret;
           now rewrite andb_false_r).
    destruct (List.length l <? MIN_KEYWORDS)%nat.
    { unfold bind. rewrite add_warning_run. unfold ret. now rewrite andb_true_r. }
    destruct (MAX_KEYWORDS <? List.length l)%nat.
    { unfold bind. rewrite add_warning_run. unfold ret. now rewrite andb_true_r. }
    unfold ret. now rewrite andb_true_r, reported_nil.
  - unfold ret. now rewrite andb_true_r, reported_nil.
Qed.

Lemma check_enum_run d idx key choices is_valid self :
  check_enum (VDict d) idx key key choices is_valid self
  = (Ok (is_valid && enum_ok key choices d),
     reported self (enum_errors idx key choices d) []).
Proof.
  unfold check_enum, enum_errors, enum_ok.
  unfold bind at 1, lift, py_in, dict_has, getitem.
  destruct (dict_get key d) as [v|].
  - unfold bind at 1.
    destruct (in_strings v choices); cbn [negb].
    + unfold ret. now rewrite andb_true_r, reported_nil.
    + unfold bind. rewrite add_error_run. unfold ret. now rewrite andb_false_r.
  - unfold ret. now rewrite andb_true_r, reported_nil.
Qed.

Lemma forallb_filter_negb {A : Type} (p : A -> bool) (l : list A) :
  forallb p l = match filter (fun x => negb (p x)) l with [] => true | _ :: _ => false end.
Proof.
  induction l as [|x l IH]; [reflexivity|].
  cbn [forallb filter]. destruct (p x); cbn [negb andb]; [exact IH | reflexivity].
Qed.

Lemma missing_nil_present d :
  missing_fields d = [] ->
  present_nonempty "question" d = true /\ present_nonempty "answer" d = true
  /\ present_nonempty "category" d = true.
Proof.
  unfold missing_fields, REQUIRED_FIELDS. cbn [filter].
  destruct (present_nonempty "question" d), (present_nonempty "answer" d),
    (present_nonempty "category" d); cbn [negb]; intros H;
    try discriminate H; auto.
Qed.

Lemma stripped_field_dict d key :
  stripped_field (VDict d) key
  = match dict_get key d with
    | Some (VStr s) => Ok (PyStr.strip s)
    | Some _ => Raise AttributeError
    | None => Raise KeyError
    end.
Proof.
  unfold stripped_field, getitem, rbind, str_strip.
  destruct (dict_get key d) as [[]|]; reflexivity.
Qed.

(** [validate_single_faq] on an object reports exactly what
    [single_outcome] lists. *)
Lemma single_report_correct d idx self :
  validate_single_faq (VDict d) idx self
  = (fst (fst (single_outcome idx d)),
     reported self (snd (fst (single_outcome idx d))) (snd (single_outcome idx d))).
Proof.
  unfold validate_single_faq, single_outcome.
  unfold bind at 1. rewrite check_required_dict. cbn [andb].
  rewrite forallb_filter_negb. fold (missing_fields d).
  fold (required_errors idx d).
  destruct (missing_fields d) as [|f fs] eqn:Hmiss.
  2:{ reflexivity. }
  cbn [negb]. unfold required_errors. rewrite Hmiss. cbn [map].
  rewrite reported_nil.
  destruct (missing_nil_present d Hmiss) as (Hq & Ha & _).
  unfold bind at 1, lift. rewrite stripped_field_dict.
  unfold present_nonempty in Hq, Ha.
  destruct (dict_get "question" d) as [vq|]; [|discriminate Hq].
  destruct vq as [| | | |q| |];
    try (cbn [fst snd]; now rewrite reported_nil).
  cbn [fst snd].
  unfold bind at 1. rewrite check_length_run.
  unfold bind at 1. rewrite check_question_mark_run, reported_reported.
  unfold bind at 1, lift. rewrite stripped_field_dict.
  destruct (dict_get "answer" d) as [va|]; [|discriminate Ha].
  destruct va as [| | | |a| |]; try reflexivity.
  cbn [fst snd].
  unfold bind at 1. rewrite check_length_run, reported_reported.
  unfold bind at 1. rewrite check_keywords_run, reported_reported.
  unfold bind at 1. rewrite check_enum_run, reported_reported.
  unfold bind at 1. rewrite check_enum_run, reported_reported.
  unfold bind at 1. rewrite check_repetitive_run, reported_reported.
  unfold ret, later_ok, later_errors, heuristic_warnings.
  cbn [andb app]. now rewrite !app_nil_r, <- !app_assoc.
Qed.

(** *** The report of one record *)

(** C1, as the code has it.  The three required fields are all checked
    and every missing or empty one is reported.  When one of them is
    missing or empty the record is failed there and then, and no later
    check (keywords, difficulty, segment, the heuristics) is evaluated.
    When none is missing, every later structural check and every heuristic
    check runs whatever the others found: the errors are those of the
    keywords, difficulty and segment checks, the warnings those of the five
    heuristics, and the record is valid when the later checks all pass. *)
Theorem C1_later_checks_run_once_required_fields_pass :
  forall (d : dict) (idx : nat) (self : t),
    (missing_fields d <> [] ->
     validate_single_faq (VDict d) idx self
     = (Ok false, reported self (required_errors idx d) []))
    /\
    (forall q a,
        missing_fields d = [] ->
        dict_get "question" d = Some (VStr q) ->
        dict_get "answer" d = Some (VStr a) ->
        validate_single_faq (VDict d) idx self
        = (Ok (later_ok d),
           reported self (later_errors idx d)
             (heuristic_warnings idx d (PyStr.strip q) (PyStr.strip a)))).
Proof.
  intros d idx self. rewrite single_report_correct. unfold single_outcome. split.
  - intros Hmiss. destruct (missing_fields d); [now elim Hmiss | reflexivity].
  - intros q a Hmiss Hq Ha. now rewrite Hmiss, Hq, Ha.
Qed.

Lemma C1_witness :
  validate_single_faq (VDict Samples.empty_question_record) 1 __init__
  = (Ok false,
     reported __init__ (required_errors 1 Samples.empty_question_record) [])
  /\ validate_single_faq (VDict (Samples.plain_record "Yes.")) 1 __init__
     = (Ok true,
        reported __init__ []
          (heuristic_warnings 1 (Samples.plain_record "Yes.") "What is APR?" "Yes.")).
Proof.
  split.
  - apply (C1_later_checks_run_once_required_fields_pass
             Samples.empty_question_record 1 __init__).
    vm_compute. discriminate.
  - apply (proj2 (C1_later_checks_run_once_required_fields_pass
                    (Samples.plain_record "Yes.") 1 __init__) "What is APR?" "Yes.");
      reflexivity.
Defined.

(** C1 as stated fails: the record has an empty question, a difficulty
    outside the enumerated set and an answer of 16 characters.  The
    difficulty check and the answer-length check would each report a
    violation, but the report has the missing question only. *)
Lemma C1_counterexample :
  In "FAQ #1: Invalid difficulty 'extreme'"
     (later_errors 1 Samples.empty_question_record)
  /\ In "FAQ #1: Answer too short (16 chars)"
        (heuristic_warnings 1 Samples.empty_question_record
           EmptyString "Ask at a branch.")
  /\ validate_single_faq (VDict Samples.empty_question_record) 1 __init__
     = (Ok false,
        mkValidator ["FAQ #1: Missing required field 'question'"] []
          (mkStats 0 0 0 0)).
Proof.
  split; [|split]; vm_compute; auto.
Qed.

(** *** The answer-length boundary *)

Lemma prefix_app_same (a b c : string) :
  String.prefix (a ++ b) (a ++ c) = String.prefix b c.
Proof.
  induction a as [|x a IH]; [reflexivity|].
  cbn [append String.prefix]. now destruct (ascii_dec x x).
Qed.

Lemma answer_length_warning_tag idx rest :
  is_answer_length_warning idx (tag idx ++ rest) = String.prefix "Answer too " rest.
Proof. unfold is_answer_length_warning. apply prefix_app_same. Qed.

Lemma no_answer_length_in_question_length idx q lo hi :
  filter (is_answer_length_warning idx) (length_warnings idx "Question" q lo hi) = [].
Proof.
  unfold length_warnings.
  destruct (String.length q <? lo)%nat;
    [| destruct (hi <? String.length q)%nat]; cbn [filter];
    rewrite ?answer_length_warning_tag; reflexivity.
Qed.

Lemma no_answer_length_in_question_mark idx q :
  filter (is_answer_length_warning idx) (question_mark_warnings idx q) = [].
Proof.
  unfold question_mark_warnings.
  destruct (PyStr.endswith q "?"); cbn [filter];
    rewrite ?answer_length_warning_tag; reflexivity.
Qed.

Lemma no_answer_length_in_keywords idx d :
  filter (is_answer_length_warning idx) (keywords_warnings idx d) = [].
Proof.
  unfold keywords_warnings.
  destruct (dict_get "keywords" d) as [[]|]; try reflexivity.
  destruct (List.length l <? MIN_KEYWORDS)%nat;
    [| destruct (MAX_KEYWORDS <? List.length l)%nat]; cbn [filter];
    rewrite ?answer_length_warning_tag; reflexivity.
Qed.

Lemma no_answer_length_in_repetitive idx a :
  filter (is_answer_length_warning idx) (repetitive_warnings idx a) = [].
Proof.
  unfold repetitive_warnings.
  destruct (_has_repetitive_content a); cbn [filter];
    rewrite ?answer_length_warning_tag; reflexivity.
Qed.

(** Among the warnings of a record, the ones about the length of the
    answer are those of the answer-length check. *)
Lemma answer_length_warnings_of_record idx d q a :
  filter (is_answer_length_warning idx) (heuristic_warnings idx d q a)
  = filter (is_answer_length_warning idx)
      (length_warnings idx "Answer" a MIN_ANSWER_LENGTH MAX_ANSWER_LENGTH).
Proof.
  unfold heuristic_warnings. rewrite !filter_app.
  rewrite no_answer_length_in_question_length, no_answer_length_in_question_mark,
    no_answer_length_in_keywords, no_answer_length_in_repetitive.
  now rewrite app_nil_r.
Qed.

Lemma passes_no_missing d :
  passes_structural_checks (VDict d) = true ->
  missing_fields d = [] /\ later_ok d = true.
Proof.
  unfold passes_structural_checks. rewrite forallb_filter_negb.
  fold (missing_fields d). destruct (missing_fields d); cbn [andb]; intros H.
  - now split.
  - discriminate H.
Qed.

(** C9.  For a record that passes the structural checks, validated at any
    position by a new validator: when the stripped answer has exactly 100
    characters no warning about the length of the answer is reported, and
    when it has 99 exactly one is, the one that says "too short (99
    chars)". *)
Theorem C9_answer_length_boundary :
  forall (d : dict) (idx : nat) (q a : string),
    passes_structural_checks (VDict d) = true ->
    dict_get "question" d = Some (VStr q) ->
    dict_get "answer" d = Some (VStr a) ->
    let ws := warnings (snd (validate_single_faq (VDict d) idx __init__)) in
    (String.length (PyStr.strip a) = 100 ->
     filter (is_answer_length_warning idx) ws = [])
    /\
    (String.length (PyStr.strip a) = 99 ->
     filter (is_answer_length_warning idx) ws
     = [tag idx ++ "Answer too short (99 chars)"]).
Proof.
  intros d idx q a Hpass Hq Ha ws. subst ws.
  destruct (passes_no_missing d Hpass) as [Hmiss _].
  rewrite single_report_correct. unfold single_outcome.
  rewrite Hmiss, Hq, Ha. cbn [fst snd reported warnings __init__ app].
  rewrite answer_length_warnings_of_record. unfold length_warnings.
  split; intros Hlen; rewrite Hlen; cbn [Nat.ltb Nat.leb MIN_ANSWER_LENGTH
    MAX_ANSWER_LENGTH filter].
  - reflexivity.
  - rewrite answer_length_warning_tag. reflexivity.
Qed.

Lemma C9_witness :
  filter (is_answer_length_warning 7)
    (warnings (snd (validate_single_faq
       (VDict (Samples.plain_record (Samples.repeat_char "a" 100))) 7 __init__)))
  = []
  /\
  filter (is_answer_length_warning 7)
    (warnings (snd (validate_single_faq
       (VDict (Samples.plain_record (Samples.repeat_char "a" 99))) 7 __init__)))
  = ["FAQ #7: Answer too short (99 chars)"].
Proof.
  split.
  - apply (proj1 (C9_answer_length_boundary
                    (Samples.plain_record (Samples.repeat_char "a" 100)) 7
                    "What is APR?" (Samples.repeat_char "a" 100)
                    eq_refl eq_refl eq_refl)).
    reflexivity.
  - apply (proj2 (C9_answer_length_boundary
                    (Samples.plain_record (Samples.repeat_char "a" 99)) 7
                    "What is APR?" (Samples.repeat_char "a" 99)
                    eq_refl eq_refl eq_refl)).
    reflexivity.
Defined.

(** *** Valid and invalid counts *)



(** On values that are not objects. *)
Lemma field_missing_non_dict faq field :
  is_dict faq = false ->
  field_missing faq field = Ok true \/ exists e, field_missing faq field = Raise e.
Proof.
  destruct faq; try discriminate; intros _; unfold field_missing, py_in, rbind;
    try (right; eexists; reflexivity).
  - destruct (PyStr.contains field s); cbn [negb getitem]; [right|left]; eauto.
  - destruct (existsb (fun x => eq_str x field) l); cbn [negb getitem];
      [right|left]; eauto.
Qed.




(** *** Methods that only report *)

Lemma quiet_ret {A : Type} (a : A) : quiet (ret a).
Proof. exists (Ok a), [], []. intros self. unfold ret. now rewrite reported_nil. Qed.

Lemma quiet_lift {A : Type} (r : result A) : quiet (lift r).
Proof. exists r, [], []. intros self. unfold lift. now rewrite reported_nil. Qed.

Lemma quiet_add_error msg : quiet (add_error msg).
Proof. exists (Ok tt), [msg], []. apply add_error_run. Qed.

Lemma quiet_add_warning msg : quiet (add_warning msg).
Proof. exists (Ok tt), [], [msg]. apply add_warning_run. Qed.


Create HintDb quiet.

#[local] Hint Resolve quiet_ret quiet_lift quiet_add_error quiet_add_warning : quiet.







Lemma answer_150_length : String.length Samples.answer_150 = 150.
Proof. reflexivity. Qed.



(** *** Running a validator again *)

Lemma extend_init_r self : extend self __init__ = self.
Proof.
  destruct self as [es ws [t v i w]]. unfold extend. cbn.
  now rewrite !app_nil_r, !Nat.add_0_r.
Qed.

Lemma extend_assoc a b c : extend (extend a b) c = extend a (extend b c).
Proof.
  unfold extend. cbn. now rewrite <- !app_assoc, <- !Nat.add_assoc.
Qed.

Lemma framed_ret {A : Type} (a : A) : framed (ret a).
Proof. intros self. unfold ret. cbn. now rewrite extend_init_r. Qed.

Lemma framed_lift {A : Type} (r : result A) : framed (lift r).
Proof. intros self. unfold lift. cbn. now rewrite extend_init_r. Qed.

Lemma framed_add_error msg : framed (add_error msg).
Proof.
  intros self. unfold add_error, extend. cbn.
  now rewrite app_nil_r, !Nat.add_0_r; destruct self as [es ws [t v i w]].
Qed.

Lemma framed_add_warning msg : framed (add_warning msg).
Proof.
  intros self. unfold add_warning, extend. cbn.
  now rewrite app_nil_r, !Nat.add_0_r.
Qed.

Lemma framed_incr_valid : framed incr_valid.
Proof.
  intros self. unfold incr_valid, extend. cbn.
  now rewrite !app_nil_r, !Nat.add_0_r.
Qed.

Lemma framed_incr_invalid : framed incr_invalid.
Proof.
  intros self. unfold incr_invalid, extend. cbn.
  now rewrite !app_nil_r, !Nat.add_0_r.
Qed.

Lemma framed_bind {A B : Type} (m : M A) (k : A -> M B) :
  framed m -> (forall a, framed (k a)) -> framed (bind m k).
Proof.
  intros Hm Hk self. unfold bind. rewrite (Hm self).
  destruct (m __init__) as [r d] eqn:Hinit. cbn [fst snd].
  destruct r as [a|e]; [|reflexivity].
  rewrite (Hk a (extend self d)), (Hk a d). cbn [fst snd].
  now rewrite extend_assoc.
Qed.

Create HintDb framed.

#[local] Hint Resolve framed_ret framed_lift framed_add_error framed_add_warning
  framed_incr_valid framed_incr_invalid : framed.

Ltac framed_step :=
  match goal with
  | |- framed (bind _ _) => apply framed_bind; [|intro]
  | |- framed (if ?b then _ else _) => destruct b
  | |- framed (match ?v with _ => _ end) => destruct v
  | |- framed _ => solve [auto with framed]
  end.

Lemma framed_check_required faq idx fields :
  forall is_valid, framed (check_required faq idx fields is_valid).
Proof.
  induction fields as [|field rest IH]; intros is_valid; cbn [check_required].
  - auto with framed.
  - repeat framed_step; apply IH.
Qed.

Lemma framed_validate_single_faq faq idx : framed (validate_single_faq faq idx).
Proof.
  unfold validate_single_faq.
  apply framed_bind; [apply framed_check_required | intro is_valid].
  unfold check_length, check_question_mark, check_keywords, check_enum,
    check_repetitive.
  repeat framed_step.
Qed.

Lemma framed_validate_each faqs : forall idx, framed (validate_each faqs idx).
Proof.
  induction faqs as [|faq rest IH]; intros idx; cbn [validate_each].
  - auto with framed.
  - apply framed_bind; [apply framed_validate_single_faq | intro is_valid].
    apply framed_bind; [destruct is_valid; auto with framed | intros _].
    apply IH.
Qed.

(** What [validate_faqs] does on any validator, in terms of the run of the
    loop on a new one. *)
Lemma validate_faqs_extend faqs self :
  let r := fst (validate_each faqs 1 __init__) in
  let d := snd (validate_each faqs 1 __init__) in
  let self' :=
    extend (mkValidator (errors self) (warnings self)
              (mkStats (List.length faqs) (valid (stats self))
                 (invalid (stats self)) (nwarnings (stats self)))) d in
  validate_faqs faqs self
  = (match r with
     | Ok _ => Ok (invalid (stats self') =? 0)%nat
     | Raise e => Raise e
     end, self').
Proof.
  cbv zeta. unfold validate_faqs. unfold bind at 1. cbn [set_total].
  unfold bind. rewrite (framed_validate_each faqs 1).
  destruct (fst (validate_each faqs 1 __init__)); reflexivity.
Qed.

(** C8, as the code has it.  A validator is not reset by
    [validate_faqs].  A run on any validator sets the total and adds to
    what the validator holds exactly what a run on a new validator
    reports, so that the report of a new validator is a function of the
    records alone.  After a first run on a new validator, a second run on
    the same validator over the same records returns the same result and
    sets the same total, but reports every error and every warning of the
    first run a second time and adds the valid, invalid and warning counts
    of the first run to themselves. *)
Theorem C8_second_run_accumulates :
  forall faqs : list value,
    let run1 := validate_faqs faqs __init__ in
    let run2 := validate_faqs faqs (snd run1) in
    (forall self : t,
        let run := validate_faqs faqs self in
        errors (snd run) = (errors self ++ errors (snd run1))%list
        /\ warnings (snd run) = (warnings self ++ warnings (snd run1))%list
        /\ total (stats (snd run)) = total (stats (snd run1))
        /\ valid (stats (snd run)) = valid (stats self) + valid (stats (snd run1))
        /\ invalid (stats (snd run)) = invalid (stats self) + invalid (stats (snd run1))
        /\ nwarnings (stats (snd run))
           = nwarnings (stats self) + nwarnings (stats (snd run1)))
    /\ fst run2 = fst run1
    /\ errors (snd run2) = (errors (snd run1) ++ errors (snd run1))%list
    /\ warnings (snd run2) = (warnings (snd run1) ++ warnings (snd run1))%list
    /\ total (stats (snd run2)) = total (stats (snd run1))
    /\ valid (stats (snd run2)) = 2 * valid (stats (snd run1))
    /\ invalid (stats (snd run2)) = 2 * invalid (stats (snd run1))
    /\ nwarnings (stats (snd run2)) = 2 * nwarnings (stats (snd run1)).
Proof.
  intros faqs. cbv zeta. split.
  { intros self. rewrite (validate_faqs_extend faqs self).
    rewrite (validate_faqs_extend faqs __init__). cbv zeta.
    cbn [fst snd extend stats errors warnings total valid invalid nwarnings
      __init__ app Nat.add].
    repeat split. }
  rewrite (validate_faqs_extend faqs (snd (validate_faqs faqs __init__))).
  rewrite (validate_faqs_extend faqs __init__). cbv zeta.
  cbn [fst snd extend stats errors warnings total valid invalid nwarnings
    __init__ app].
  repeat split; try lia.
  destruct (fst (validate_each faqs 1 __init__)); [|reflexivity].
  f_equal.
  destruct (invalid (stats (snd (validate_each faqs 1 __init__)))); reflexivity.
Qed.

(** C8 as stated fails: one record without any field, validated twice by
    the same validator.  The first report has three errors and one invalid
    record, the second has six errors and two invalid records out of a
    total of one. *)
Lemma C8_counterexample :
  let run1 := validate_faqs [VDict []] __init__ in
  let run2 := validate_faqs [VDict []] (snd run1) in
  stats (snd run1) = mkStats 1 0 1 0
  /\ stats (snd run2) = mkStats 1 0 2 0
  /\ List.length (errors (snd run1)) = 3
  /\ List.length (errors (snd run2)) = 6
  /\ snd run2 <> snd run1.
Proof.
  vm_compute. repeat split; discriminate.
Qed.

(** *** Text that is not a string *)

Lemma non_string_text_raises d idx self :
  non_string_text d = true ->
  fst (validate_single_faq (VDict d) idx self) = Raise AttributeError.
Proof.
  unfold non_string_text. rewrite forallb_filter_negb. fold (missing_fields d).
  rewrite single_report_correct. unfold single_outcome, string_or_absent.
  destruct (missing_fields d) eqn:Hmiss; [|discriminate].
  destruct (missing_nil_present d Hmiss) as (Hq & Ha & _).
  unfold present_nonempty in Hq, Ha.
  destruct (dict_get "question" d) as [[]|]; try discriminate; try reflexivity;
    destruct (dict_get "answer" d) as [[]|]; try discriminate; try reflexivity.
Qed.

Lemma dict_result d idx self :
  (exists b, fst (validate_single_faq (VDict d) idx self) = Ok b)
  \/ fst (validate_single_faq (VDict d) idx self) = Raise AttributeError.
Proof.
  rewrite single_report_correct. unfold single_outcome. cbn [fst].
  destruct (missing_fields d); [|left; eexists; reflexivity].
  destruct (dict_get "question" d) as [[]|]; try (right; reflexivity).
  destruct (dict_get "answer" d) as [[]|]; try (right; reflexivity).
  left; eexists; reflexivity.
Qed.

Lemma validate_each_raises pre d post :
  Forall (fun faq => is_dict faq = true) pre ->
  non_string_text d = true ->
  forall idx self,
    fst (validate_each (pre ++ VDict d :: post) idx self) = Raise AttributeError.
Proof.
  intros Hpre Hbad. induction Hpre as [|faq pre Hfaq _ IH]; intros idx self.
  - cbn [app validate_each]. unfold bind at 1.
    pose proof (non_string_text_raises d idx self Hbad) as H.
    destruct (validate_single_faq (VDict d) idx self) as [r s1].
    cbn [fst] in H. now rewrite H.
  - cbn [app validate_each]. unfold bind at 1.
    destruct faq as [| | | | | |d0]; try discriminate Hfaq.
    destruct (dict_result d0 idx self) as [[b H]|H];
      destruct (validate_single_faq (VDict d0) idx self) as [r s1];
      cbn [fst] in H; rewrite H; [|reflexivity].
    unfold bind at 1.
    destruct b; cbn [incr_valid incr_invalid]; apply IH.
Qed.

Lemma validate_faqs_raises faqs self :
  fst (validate_each faqs 1 __init__) = Raise AttributeError ->
  fst (validate_faqs faqs self) = Raise AttributeError.
Proof.
  intros H. rewrite validate_faqs_extend. cbv zeta. now rewrite H.
Qed.

End ValidatorFacts.

(* ===================================================================== *)
(** ** Properties of the response parsers *)
(* ===================================================================== *)

Module ParserFacts.

Import Records.

(** *** Dictionaries *)

Lemma dict_get_set_same k v d : dict_get k (dict_set k v d) = Some v.
Proof.
  induction d as [|[k' v'] d IH]; cbn [dict_set dict_get].
  - now rewrite String.eqb_refl.
  - destruct (String.eqb k k') eqn:E; cbn [dict_get]; rewrite E; auto.
Qed.

Lemma dict_get_set_other k k' v d :
  k <> k' -> dict_get k' (dict_set k v d) = dict_get k' d.
Proof.
  intros Hne. induction d as [|[k0 v0] d IH]; cbn [dict_set dict_get].
  - destruct (String.eqb_spec k' k); [congruence | reflexivity].
  - destruct (String.eqb_spec k k0) as [->|]; cbn [dict_get].
    + destruct (String.eqb_spec k' k0); [congruence | reflexivity].
    + now rewrite IH.
Qed.

Lemma dict_get_setdefault_same k v d :
  dict_get k (dict_setdefault k v d) = Some (get_or k v d).
Proof.
  unfold dict_setdefault, dict_has, get_or.
  destruct (dict_get k d) eqn:E; [assumption | apply dict_get_set_same].
Qed.

Lemma dict_get_setdefault_other k k' v d :
  k <> k' -> dict_get k' (dict_setdefault k v d) = dict_get k' d.
Proof.
  intros Hne. unfold dict_setdefault.
  destruct (dict_has k d); [reflexivity | now apply dict_get_set_other].
Qed.

Ltac other_key :=
  first [ rewrite dict_get_setdefault_other by (intro; discriminate)
        | rewrite dict_get_set_other by (intro; discriminate) ].

Lemma fill_dict_category category d :
  dict_get "category" (fill_dict category d) = Some (VStr category).
Proof. unfold fill_dict. repeat other_key. apply dict_get_set_same. Qed.

Lemma fill_dict_keywords category d :
  dict_get "keywords" (fill_dict category d) = Some (get_or "keywords" (VList []) d).
Proof.
  unfold fill_dict. repeat other_key. rewrite dict_get_setdefault_same.
  unfold get_or. now other_key.
Qed.

Lemma fill_dict_difficulty category d :
  dict_get "difficulty" (fill_dict category d)
  = Some (get_or "difficulty" (VStr "basic") d).
Proof.
  unfold fill_dict. repeat other_key. rewrite dict_get_setdefault_same.
  unfold get_or. now repeat other_key.
Qed.

Lemma fill_dict_segment category d :
  dict_get "segment" (fill_dict category d)
  = Some (get_or "segment" (VStr "retail") d).
Proof.
  unfold fill_dict. repeat other_key. rewrite dict_get_setdefault_same.
  unfold get_or. now repeat other_key.
Qed.

Lemma fill_dict_subcategory category d :
  dict_get "subcategory" (fill_dict category d)
  = Some (get_or "subcategory" (VStr category) d).
Proof.
  unfold fill_dict. rewrite dict_get_setdefault_same.
  unfold get_or. now repeat other_key.
Qed.

Lemma fill_dict_other category d k :
  ~ In k written_keys -> dict_get k (fill_dict category d) = dict_get k d.
Proof.
  unfold written_keys. cbn [In]. intros Hk. unfold fill_dict.
  rewrite !dict_get_setdefault_other, dict_get_set_other; tauto.
Qed.

Lemma fill_dict_has category d k :
  ~ In k written_keys -> dict_has k (fill_dict category d) = dict_has k d.
Proof. intros Hk. unfold dict_has. now rewrite fill_dict_other. Qed.

(** *** Splitting at the fence *)

Lemma split_from_nonempty sep s : forall skip, PyStr.split_from sep s skip <> [].
Proof.
  induction s as [|c s IH]; intros skip; cbn [PyStr.split_from]; [discriminate|].
  destruct skip; [|apply IH].
  destruct (String.prefix sep (String c s)); [discriminate|].
  destruct (PyStr.split_from sep s 0); discriminate.
Qed.

(** A text that contains the separator splits into two pieces at least,
    so that the piece of index 1 exists. *)
Lemma split_contains sep s :
  sep <> EmptyString ->
  PyStr.contains sep s = true ->
  2 <= List.length (PyStr.split s sep).
Proof.
  intros Hsep. unfold PyStr.split. induction s as [|c s IH].
  - destruct sep; [now elim Hsep | discriminate].
  - cbn [PyStr.contains PyStr.split_from].
    destruct (String.prefix sep (String c s)); cbn [orb].
    + intros _. pose proof (split_from_nonempty sep s (String.length sep - 1)).
      destruct (PyStr.split_from sep s (String.length sep - 1)); [congruence|].
      cbn [List.length]. lia.
    + intros H. specialize (IH H).
      destruct (PyStr.split_from sep s 0); cbn [List.length] in *; lia.
Qed.

Lemma batch_payload_ok text : exists p, BatchFAQGenerator.payload text = Ok p.
Proof.
  unfold BatchFAQGenerator.payload.
  destruct (PyStr.contains FENCE (PyStr.strip text)) eqn:E.
  - pose proof (split_contains FENCE (PyStr.strip text)) as H.
    specialize (H ltac:(discriminate) E).
    unfold list_index.
    destruct (PyStr.split (PyStr.strip text) FENCE) as [|p0 [|p1 ps]];
      cbn [List.length] in H; try lia.
    cbn. eexists; reflexivity.
  - cbn. eexists; reflexivity.
Qed.

(** *** The payload of a response without a fence *)

Lemma contains_lstrip sub s :
  PyStr.contains sub (PyStr.lstrip s) = true -> PyStr.contains sub s = true.
Proof.
  induction s as [|c s IH]; cbn [PyStr.lstrip]; [auto|].
  destruct (PyStr.isspace c); [|auto].
  intros H. cbn [PyStr.contains]. rewrite (IH H). apply orb_true_r.
Qed.

Lemma rstrip_is_prefix s : exists t, s = PyStr.rstrip s ++ t.
Proof.
  induction s as [|c s [t IH]]; [now exists EmptyString|].
  cbn [PyStr.rstrip]. destruct (PyStr.rstrip s) as [|c' r].
  - destruct (PyStr.isspace c).
    + now exists (String c s).
    + exists s. reflexivity.
  - exists t. cbn [append] in *. now rewrite <- IH.
Qed.

Lemma prefix_app_l sub a t :
  String.prefix sub a = true -> String.prefix sub (a ++ t) = true.
Proof.
  revert a. induction sub as [|x sub IH]; intros [|y a]; cbn [String.prefix append];
    try discriminate; try reflexivity.
  - now destruct t.
  - destruct (ascii_dec x y); [apply IH | discriminate].
Qed.

Lemma contains_app_l sub a t :
  PyStr.contains sub a = true -> PyStr.contains sub (a ++ t) = true.
Proof.
  induction a as [|c a IH]; cbn [PyStr.contains append].
  - rewrite orb_false_r. intros H. destruct sub; [|discriminate H].
    destruct t; reflexivity.
  - intros H. apply orb_true_iff in H. destruct H as [H|H].
    + change (String c (a ++ t)) with (String c a ++ t).
      now rewrite (prefix_app_l _ _ t H).
    + rewrite (IH H). apply orb_true_r.
Qed.

Lemma contains_strip sub s :
  PyStr.contains sub s = false -> PyStr.contains sub (PyStr.strip s) = false.
Proof.
  intros H. destruct (PyStr.contains sub (PyStr.strip s)) eqn:E; [|reflexivity].
  unfold PyStr.strip in E.
  destruct (rstrip_is_prefix (PyStr.lstrip s)) as [t Ht].
  apply (contains_app_l _ _ t) in E. rewrite <- Ht in E.
  apply contains_lstrip in E. congruence.
Qed.

(** A response in which no fence occurs is handed to the decoder as it
    is, stripped. *)
Lemma payload_without_fence text :
  PyStr.contains FENCE text = false ->
  BankingFAQGenerator.payload text = PyStr.strip text.
Proof.
  intros H. unfold BankingFAQGenerator.payload.
  now rewrite (contains_strip FENCE text H).
Qed.

(** *** The loop over the decoded elements *)

Section Banking.

Variable json_loads : string -> result value.
Variable print : BankingFAQGenerator.line -> result unit.

Lemma has_question_and_answer_dict d :
  BankingFAQGenerator.has_question_and_answer (VDict d) = Ok (has_both_keys (VDict d)).
Proof.
  unfold BankingFAQGenerator.has_question_and_answer, has_both_keys, py_in, rbind.
  now destruct (dict_has "question" d).
Qed.

Lemma fill_defaults_dict d category :
  BankingFAQGenerator.fill_defaults (VDict d) category
  = Ok (VDict (fill_dict category d)).
Proof. reflexivity. Qed.

Lemma clean_each_dicts category faqs :
  Forall (fun faq => is_dict faq = true) faqs ->
  forall cleaned_faqs,
    BankingFAQGenerator.clean_each faqs category cleaned_faqs
    = Ok (cleaned_faqs ++ map (fill category) (filter has_both_keys faqs))%list.
Proof.
  induction 1 as [|faq faqs Hfaq _ IH]; intros acc.
  - cbn. now rewrite app_nil_r.
  - destruct faq as [| | | | | |d]; try discriminate Hfaq.
    cbn [BankingFAQGenerator.clean_each filter].
    rewrite has_question_and_answer_dict. cbn [rbind].
    destruct (has_both_keys (VDict d)).
    + rewrite fill_defaults_dict. cbn [rbind map fill]. rewrite IH.
      now rewrite <- app_assoc.
    + apply IH.
Qed.

(** Whatever the decoded elements are, a record that reaches the output
    was made of an object that has both keys. *)
Lemma clean_each_records category faqs :
  forall cleaned_faqs recs,
    BankingFAQGenerator.clean_each faqs category cleaned_faqs = Ok recs ->
    forall r, In r recs ->
      In r cleaned_faqs
      \/ exists d, In (VDict d) faqs /\ has_both_keys (VDict d) = true
                   /\ r = VDict (fill_dict category d).
Proof.
  induction faqs as [|faq faqs IH]; intros acc recs Hrun r Hr.
  - cbn in Hrun. injection Hrun as <-. now left.
  - cbn [BankingFAQGenerator.clean_each] in Hrun.
    destruct (BankingFAQGenerator.has_question_and_answer faq) as [keep|] eqn:Hkeep;
      [|discriminate Hrun].
    cbn [rbind] in Hrun. destruct keep.
    + destruct faq as [| | | | | |d]; try discriminate Hrun.
      rewrite has_question_and_answer_dict in Hkeep. injection Hkeep as Hkeep.
      rewrite fill_defaults_dict in Hrun. cbn [rbind] in Hrun.
      destruct (IH _ _ Hrun r Hr) as [Hacc|(d' & Hin & Hk & ->)].
      * apply in_app_or in Hacc. destruct Hacc as [Hacc|[<-|[]]]; [now left|].
        right. exists d. repeat split; auto. now left.
      * right. exists d'. repeat split; auto. now right.
    + destruct (IH _ _ Hrun r Hr) as [Hacc|(d' & Hin & Hk & ->)]; [now left|].
      right. exists d'. repeat split; auto. now right.
Qed.

(** When [_parse_response] returns, it returns what the [try] block gave
    or the empty list of a handler. *)
Lemma parse_response_returns text category recs :
  BankingFAQGenerator._parse_response json_loads print text category = Ok recs ->
  BankingFAQGenerator.parse_body json_loads text category = Ok recs \/ recs = [].
Proof.
  unfold BankingFAQGenerator._parse_response.
  destruct (BankingFAQGenerator.parse_body json_loads text category) as [l|e].
  - intros [= <-]. now left.
  - intros H. right.
    destruct e; cbn [rbind] in H;
      repeat match type of H with
             | context [print ?l] => destruct (print l); cbn [rbind] in H
             end; congruence.
Qed.

(** A record of the [try] block is the completion of a decoded object
    that has both keys. *)
Lemma parse_body_records text category recs :
  BankingFAQGenerator.parse_body json_loads text category = Ok recs ->
  forall r, In r recs ->
    exists d,
      decoded_object (json_loads (BankingFAQGenerator.payload text)) d
      /\ has_both_keys (VDict d) = true /\ r = VDict (fill_dict category d).
Proof.
  unfold BankingFAQGenerator.parse_body.
  destruct (json_loads (BankingFAQGenerator.payload text)) as [faqs|];
    cbn [rbind]; [|discriminate].
  destruct (iter (if is_dict faqs then VList [faqs] else faqs)) as [elements|] eqn:Hiter;
    cbn [rbind]; [|discriminate].
  intros Hrun r Hr.
  destruct (clean_each_records category elements [] recs Hrun r Hr)
    as [[]|(d & Hin & Hk & ->)].
  exists d. split; [|now split].
  destruct faqs as [|b|z|nz sh|s|l|d0]; cbn [is_dict iter] in Hiter;
    try discriminate Hiter; injection Hiter as <-.
  - apply in_map_iff in Hin. destruct Hin as (x & Hx & _). discriminate Hx.
  - right. now exists l.
  - left. destruct Hin as [[= ->]|[]]. reflexivity.
Qed.

Lemma parse_records text category recs :
  BankingFAQGenerator._parse_response json_loads print text category = Ok recs ->
  forall r, In r recs ->
    exists d,
      decoded_object (json_loads (BankingFAQGenerator.payload text)) d
      /\ has_both_keys (VDict d) = true /\ r = VDict (fill_dict category d).
Proof.
  intros Hrun r Hr.
  destruct (parse_response_returns text category recs Hrun) as [Hbody| ->];
    [|now destruct Hr].
  exact (parse_body_records text category recs Hbody r Hr).
Qed.

(** The parser on a response that decodes to an array of objects. *)
Lemma parse_array text category elements :
  json_loads (BankingFAQGenerator.payload text) = Ok (VList elements) ->
  Forall (fun faq => is_dict faq = true) elements ->
  BankingFAQGenerator._parse_response json_loads print text category
  = Ok (map (fill category) (filter has_both_keys elements)).
Proof.
  intros Hloads Hall.
  unfold BankingFAQGenerator._parse_response, BankingFAQGenerator.parse_body.
  rewrite Hloads. cbn [rbind is_dict iter].
  now rewrite clean_each_dicts.
Qed.

Lemma set_category_each_dicts category faqs :
  Forall (fun faq => is_dict faq = true) faqs ->
  BatchFAQGenerator.set_category_each faqs category
  = Ok (map (with_category category) faqs).
Proof.
  induction 1 as [|faq faqs Hfaq _ IH]; [reflexivity|].
  destruct faq; try discriminate Hfaq.
  cbn [BatchFAQGenerator.set_category_each setitem rbind]. now rewrite IH.
Qed.

Lemma batch_parse_array text category p elements :
  BatchFAQGenerator.payload text = Ok p ->
  json_loads p = Ok (VList elements) ->
  Forall (fun faq => is_dict faq = true) elements ->
  BatchFAQGenerator._parse_response json_loads text category
  = Ok (VList (map (with_category category) elements)).
Proof.
  intros Hp Hloads Hall.
  unfold BatchFAQGenerator._parse_response, BatchFAQGenerator.parse_body.
  rewrite Hp. cbn [rbind]. rewrite Hloads. cbn [rbind is_dict iter].
  now rewrite set_category_each_dicts.
Qed.

Lemma fill_has_both category d :
  has_both_keys (VDict (fill_dict category d)) = has_both_keys (VDict d).
Proof.
  unfold has_both_keys.
  rewrite !fill_dict_has; [reflexivity| |]; unfold written_keys; cbn [In];
    intros H; repeat (destruct H as [H|H]; [discriminate H|]); exact H.
Qed.

(** C2, as the code has it.  Every record [parse] returns is an object
    that has a [question] key and an [answer] key, and it is the
    completion of a decoded object that has both keys: a decoded element
    that lacks one of the two keys never appears in the output.  The
    values under the two keys are not tested: when every element of the
    decoded array is an object, the elements that have both keys are all
    returned, whatever is stored under the keys.  The parser of the batch
    generator does not test the keys either: when every element of the
    decoded array is an object, it returns all of them, each with its
    category set. *)
Theorem C2_records_have_question_and_answer_keys :
  forall text category : string,
    (forall recs r,
        BankingFAQGenerator._parse_response json_loads print text category = Ok recs ->
        In r recs ->
        exists d d',
          decoded_object (json_loads (BankingFAQGenerator.payload text)) d
          /\ has_both_keys (VDict d) = true
          /\ d' = fill_dict category d
          /\ r = VDict d'
          /\ dict_has "question" d' = true /\ dict_has "answer" d' = true)
    /\ (forall elements,
           json_loads (BankingFAQGenerator.payload text) = Ok (VList elements) ->
           Forall (fun faq => is_dict faq = true) elements ->
           BankingFAQGenerator._parse_response json_loads print text category
           = Ok (map (fill category) (filter has_both_keys elements)))
    /\ (forall p elements,
           BatchFAQGenerator.payload text = Ok p ->
           json_loads p = Ok (VList elements) ->
           Forall (fun faq => is_dict faq = true) elements ->
           BatchFAQGenerator._parse_response json_loads text category
           = Ok (VList (map (with_category category) elements))).
Proof.
  intros text category. split; [|split].
  - intros recs r Hrun Hr.
    destruct (parse_records text category recs Hrun r Hr) as (d & Hfrom & Hk & ->).
    exists d, (fill_dict category d).
    split; [exact Hfrom|]. split; [exact Hk|]. split; [reflexivity|].
    split; [reflexivity|].
    rewrite <- (fill_has_both category d) in Hk. unfold has_both_keys in Hk.
    now apply andb_true_iff in Hk.
  - apply parse_array.
  - apply batch_parse_array.
Qed.

Lemma filter_all {A : Type} (p : A -> bool) (l : list A) :
  Forall (fun x => p x = true) l -> filter p l = l.
Proof.
  induction 1 as [|x l Hx _ IH]; [reflexivity|]. cbn. now rewrite Hx, IH.
Qed.

Lemma fill_record_of category d :
  record_of category (VDict d) (VDict (fill_dict category d)).
Proof.
  exists d, (fill_dict category d). repeat split.
  - apply fill_dict_category.
  - apply fill_dict_subcategory.
  - apply fill_dict_keywords.
  - apply fill_dict_difficulty.
  - apply fill_dict_segment.
  - intros k. apply fill_dict_other.
Qed.

(** C5, as the code has it.  When the text handed to the decoder, which
    is the stripped response if no fence occurs in it, decodes to an
    array of objects that all have a [question] and an [answer] (empty or
    not), [parse] returns one record per element, in the order of the
    array; in each record the category is the caller's whatever the
    element declared, [subcategory] is the element's or else the
    category, [keywords], [difficulty] and [segment] are the element's or
    else the empty list, "basic" and "retail", and every other key is as
    in the element. *)
Theorem C5_one_record_per_element_with_defaults :
  forall (text category : string) (elements : list value),
    json_loads (BankingFAQGenerator.payload text) = Ok (VList elements)
    \/ (PyStr.contains FENCE text = false
        /\ json_loads (PyStr.strip text) = Ok (VList elements)) ->
    Forall (fun faq => has_both_keys faq = true) elements ->
    exists recs,
      BankingFAQGenerator._parse_response json_loads print text category = Ok recs
      /\ List.length recs = List.length elements
      /\ Forall2 (record_of category) elements recs.
Proof.
  intros text category elements Hresponse Hall.
  assert (Hloads : json_loads (BankingFAQGenerator.payload text) = Ok (VList elements)).
  { destruct Hresponse as [H|[Hfree H]]; [exact H|].
    now rewrite (payload_without_fence text Hfree). }
  exists (map (fill category) elements).
  assert (Hdicts : Forall (fun faq => is_dict faq = true) elements).
  { eapply Forall_impl; [|exact Hall]. intros [] H; now try discriminate H. }
  split; [|split].
  - rewrite (parse_array text category elements Hloads Hdicts).
    now rewrite filter_all.
  - apply length_map.
  - clear Hresponse Hloads Hall.
    induction Hdicts as [|faq faqs Hfaq _ IH]; cbn [map].
    + constructor.
    + constructor; [|exact IH].
      destruct faq; try discriminate Hfaq. apply fill_record_of.
Qed.

(** C3.  The parser of the batch generator never raises, and returns the
    empty list when the decoder fails.  [BankingFAQGenerator._parse_response]
    does the same as long as the prints of its handlers return.  An
    exception of such a print is not caught: when the decoder fails on the
    text handed to it and the preview of that text cannot be printed, the
    parser raises what [print] raised. *)
Theorem C3_exception_of_print_in_handler_leaves_parse :
  forall text category : string,
    (exists p faqs,
        BatchFAQGenerator.payload text = Ok p
        /\ BatchFAQGenerator._parse_response json_loads text category = Ok faqs
        /\ (is_ok (json_loads p) = false -> faqs = VList []))
    /\ ((forall l, print l = Ok tt) ->
        exists recs,
          BankingFAQGenerator._parse_response json_loads print text category = Ok recs
          /\ (is_ok (json_loads (BankingFAQGenerator.payload text)) = false ->
              recs = []))
    /\ (forall e,
           json_loads (BankingFAQGenerator.payload text) = Raise JSONDecodeError ->
           print BankingFAQGenerator.ParsingError = Ok tt ->
           print (BankingFAQGenerator.ResponsePreview
                    (substring 0 200 (BankingFAQGenerator.payload text))) = Raise e ->
           BankingFAQGenerator._parse_response json_loads print text category
           = Raise e).
Proof.
  intros text category. split; [|split].
  - destruct (batch_payload_ok text) as [p Hp]. exists p.
    unfold BatchFAQGenerator._parse_response. rewrite Hp. cbn [rbind].
    unfold BatchFAQGenerator.parse_body.
    destruct (json_loads p) as [faqs|e]; cbn [rbind is_ok].
    + match goal with |- context [match ?b with Ok _ => _ | Raise _ => _ end] =>
        destruct b as [v|] end; eexists; (split; [reflexivity|]);
        (split; [reflexivity|discriminate]).
    + exists (VList []). now repeat split.
  - intros Hprint.
    unfold BankingFAQGenerator._parse_response, BankingFAQGenerator.parse_body.
    destruct (json_loads (BankingFAQGenerator.payload text)) as [faqs|e];
      cbn [rbind is_ok].
    + match goal with |- context [match ?b with Ok _ => _ | Raise _ => _ end] =>
        destruct b as [recs|e] end.
      * eexists. split; [reflexivity|discriminate].
      * exists []. split; [|discriminate].
        destruct e; rewrite ?Hprint; reflexivity.
    + exists []. split; [|reflexivity].
      destruct e; rewrite ?Hprint; reflexivity.
  - intros e Hloads Hfirst Hpreview.
    unfold BankingFAQGenerator._parse_response, BankingFAQGenerator.parse_body.
    rewrite Hloads. cbn [rbind]. rewrite Hfirst. cbn [rbind].
    now rewrite Hpreview.
Qed.

End Banking.

(** *** The parsers on sample responses *)

Lemma C2_witness :
  (exists d d',
      decoded_object (Json.loads (BankingFAQGenerator.payload Samples.empty_text_response)) d
      /\ has_both_keys (VDict d) = true
      /\ d' = fill_dict "Loans" d
      /\ VDict (fill_dict "Loans" [("question", VStr EmptyString);
                                    ("answer", VStr EmptyString)]) = VDict d'
      /\ dict_has "question" d' = true /\ dict_has "answer" d' = true)
  /\ BankingFAQGenerator._parse_response Json.loads Samples.stdout
       Samples.no_answer_response "Loans"
     = Ok []
  /\ BatchFAQGenerator._parse_response Json.loads Samples.no_answer_response "Loans"
     = Ok (VList [VDict [("question", VStr "What is APR?");
                         ("category", VStr "Loans")]]).
Proof.
  split; [|split].
  - apply (proj1 (C2_records_have_question_and_answer_keys Json.loads Samples.stdout
                    Samples.empty_text_response "Loans")
             [VDict (fill_dict "Loans" [("question", VStr EmptyString);
                                        ("answer", VStr EmptyString)])]).
    + vm_compute. reflexivity.
    + now left.
  - apply (proj1 (proj2 (C2_records_have_question_and_answer_keys Json.loads
                           Samples.stdout Samples.no_answer_response "Loans"))
             [VDict [("question", VStr "What is APR?")]]).
    + vm_compute. reflexivity.
    + repeat constructor.
  - apply (proj2 (proj2 (C2_records_have_question_and_answer_keys Json.loads
                           Samples.stdout Samples.no_answer_response "Loans"))
             Samples.no_answer_response
             [VDict [("question", VStr "What is APR?")]]).
    + vm_compute. reflexivity.
    + vm_compute. reflexivity.
    + repeat constructor.
Defined.

(** C2 as stated fails: the response [[{"question": "", "answer": ""}]]
    gives a record whose question and answer are empty, and the parser of
    the batch generator returns the record of [[{"question": "What is
    APR?"}]], which has no answer at all. *)
Lemma C2_counterexample :
  BankingFAQGenerator._parse_response Json.loads Samples.stdout
    Samples.empty_text_response "Loans"
  = Ok [VDict [("question", VStr EmptyString);
               ("answer", VStr EmptyString);
               ("category", VStr "Loans");
               ("keywords", VList []);
               ("difficulty", VStr "basic");
               ("segment", VStr "retail");
               ("subcategory", VStr "Loans")]]
  /\ BatchFAQGenerator._parse_response Json.loads Samples.no_answer_response "Loans"
     = Ok (VList [VDict [("question", VStr "What is APR?");
                         ("category", VStr "Loans")]]).
Proof.
  split; vm_compute; reflexivity.
Qed.

Lemma C3_witness :
  BatchFAQGenerator._parse_response Json.loads "Sorry, I cannot help with that." "Loans"
  = Ok (VList [])
  /\ BankingFAQGenerator._parse_response Json.loads Samples.stdout
       "Sorry, I cannot help with that." "Loans"
     = Ok []
  /\ BankingFAQGenerator._parse_response Json.loads Samples.narrow_stdout
       Samples.accented_response "Loans"
     = Raise UnicodeEncodeError.
Proof.
  split; [|split].
  - destruct (proj1 (C3_exception_of_print_in_handler_leaves_parse Json.loads
                       Samples.stdout "Sorry, I cannot help with that." "Loans"))
      as (p & faqs & Hp & Hrun & Hempty).
    rewrite Hrun. f_equal. apply Hempty.
    vm_compute in Hp. injection Hp as <-. vm_compute. reflexivity.
  - destruct (proj1 (proj2 (C3_exception_of_print_in_handler_leaves_parse Json.loads
                              Samples.stdout "Sorry, I cannot help with that." "Loans"))
                (fun _ => eq_refl))
      as (recs & Hrun & Hempty).
    rewrite Hrun. f_equal. apply Hempty. vm_compute. reflexivity.
  - apply (proj2 (proj2 (C3_exception_of_print_in_handler_leaves_parse Json.loads
                           Samples.narrow_stdout Samples.accented_response "Loans"))).
    + vm_compute. reflexivity.
    + reflexivity.
    + vm_compute. reflexivity.
Defined.

Lemma C5_witness :
  (exists recs,
      BankingFAQGenerator._parse_response Json.loads Samples.stdout
        Samples.fenced_response "Loans"
      = Ok recs
      /\ List.length recs = 2
      /\ Forall2 (record_of "Loans")
           [VDict [("question", VStr "What is APR?"); ("answer", VStr "A yearly rate.")];
            VDict [("question", VStr "What is a lien?");
                   ("answer", VStr "A claim on property.");
                   ("category", VStr "Elsewhere");
                   ("difficulty", VStr "advanced");
                   ("keywords", VList [VStr "lien"])]]
           recs)
  /\ (exists recs,
         BankingFAQGenerator._parse_response Json.loads Samples.stdout
           Samples.empty_text_response "Loans"
         = Ok recs
         /\ List.length recs = 1
         /\ Forall2 (record_of "Loans")
              [VDict [("question", VStr EmptyString); ("answer", VStr EmptyString)]]
              recs).
Proof.
  split.
  - apply (C5_one_record_per_element_with_defaults Json.loads Samples.stdout
             Samples.fenced_response "Loans"
             [VDict [("question", VStr "What is APR?"); ("answer", VStr "A yearly rate.")];
              VDict [("question", VStr "What is a lien?");
                     ("answer", VStr "A claim on property.");
                     ("category", VStr "Elsewhere");
                     ("difficulty", VStr "advanced");
                     ("keywords", VList [VStr "lien"])]]).
    + left. vm_compute. reflexivity.
    + repeat constructor.
  - apply (C5_one_record_per_element_with_defaults Json.loads Samples.stdout
             Samples.empty_text_response "Loans"
             [VDict [("question", VStr EmptyString); ("answer", VStr EmptyString)]]).
    + right. split; vm_compute; reflexivity.
    + repeat constructor.
Defined.

(** C5 as stated fails: the response [fence_in_answer_response] is a
    well-formed JSON array of one object with a question and an answer
    that are not empty, and [parse] splits it at the fence inside the
    answer, hands the first piece to the decoder, which fails, and returns
    no record. *)
Lemma C5_counterexample :
  Json.loads Samples.fence_in_answer_response
  = Ok (VList [VDict [("question", VStr "How do I quote code?");
                      ("answer", VStr "Put ``` before and after it.")]])
  /\ BankingFAQGenerator.payload Samples.fence_in_answer_response
     = "[{" ++ Json.quoted "question" ++ ": " ++ Json.quoted "How do I quote code?"
       ++ ", " ++ Json.quoted "answer" ++ ": " ++ String dquote "Put"
  /\ BankingFAQGenerator._parse_response Json.loads Samples.stdout
       Samples.fence_in_answer_response "Loans"
     = Ok [].
Proof.
  split; [|split]; vm_compute; reflexivity.
Qed.

End ParserFacts.

(* ===================================================================== *)
(** ** The parser followed by the validator *)
(* ===================================================================== *)

Module PipelineFacts.

Import FAQValidator Checks Records.

Lemma fill_is_dict category faqs :
  Forall (fun faq => is_dict faq = true) faqs ->
  Forall (fun faq => is_dict faq = true) (map (fill category) faqs).
Proof.
  induction 1 as [|faq faqs Hfaq _ IH]; cbn [map]; constructor; auto.
  now destruct faq.
Qed.

Lemma Forall_filter {A : Type} (P : A -> Prop) (p : A -> bool) (l : list A) :
  Forall P l -> Forall P (filter p l).
Proof.
  induction 1 as [|x l Hx _ IH]; cbn [filter]; [constructor|].
  destruct (p x); [constructor|]; assumption.
Qed.

Lemma Forall_app_l {A : Type} (P : A -> Prop) (l1 l2 : list A) :
  Forall P (l1 ++ l2)%list -> Forall P l1.
Proof.
  induction l1 as [|x l1 IH]; cbn [app]; intros H; [constructor|].
  inversion H; subst. constructor; auto.
Qed.

Lemma present_has field d :
  present_nonempty field d = true -> dict_has field d = true.
Proof.
  unfold present_nonempty, dict_has. now destruct (dict_get field d).
Qed.

(** The record the parser makes of an object with a non-string question
    or answer is one the validator raises on. *)
Lemma fill_non_string_text category d :
  category <> EmptyString ->
  present_nonempty "question" d = true ->
  present_nonempty "answer" d = true ->
  string_or_absent "question" d && string_or_absent "answer" d = false ->
  non_string_text (fill_dict category d) = true.
Proof.
  intros Hcat Hq Ha Hstr.
  unfold non_string_text, REQUIRED_FIELDS, present_nonempty, string_or_absent in *.
  cbn [forallb].
  rewrite ParserFacts.fill_dict_category.
  rewrite !(ParserFacts.fill_dict_other category d "question"),
          !(ParserFacts.fill_dict_other category d "answer");
    try (unfold written_keys; cbn [In]; intros H;
         repeat (destruct H as [H|H]; [discriminate H|]); exact H).
  rewrite Hq, Ha, Hstr. cbn [truthy andb negb].
  destruct (String.eqb_spec category EmptyString); [contradiction | reflexivity].
Qed.

(** C10.  Let a response decode to an array of objects one of which has a
    non-empty [question] and [answer] of which one is not a string (a
    number, say).  With a non-empty category, [parse] returns normally and
    its output holds the record of that object, and [validate_faqs]
    raises [AttributeError] on the output, on whatever validator, instead
    of returning a report. *)
Theorem C10_validate_raises_on_non_string_text :
  forall (json_loads : string -> result value)
         (print : BankingFAQGenerator.line -> result unit)
         (text category : string) (elements : list value) (d : dict),
    json_loads (BankingFAQGenerator.payload text) = Ok (VList elements) ->
    Forall (fun faq => is_dict faq = true) elements ->
    In (VDict d) elements ->
    category <> EmptyString ->
    present_nonempty "question" d = true ->
    present_nonempty "answer" d = true ->
    string_or_absent "question" d && string_or_absent "answer" d = false ->
    exists recs,
      BankingFAQGenerator._parse_response json_loads print text category = Ok recs
      /\ In (VDict (fill_dict category d)) recs
      /\ forall self, fst (validate_faqs recs self) = Raise AttributeError.
Proof.
  intros json_loads print text category elements d Hloads Hall Hin Hcat Hq Ha Hstr.
  exists (map (fill category) (filter has_both_keys elements)).
  assert (Hrec : In (VDict (fill_dict category d))
                    (map (fill category) (filter has_both_keys elements))).
  { apply (in_map (fill category) _ (VDict d)). apply filter_In. split; [exact Hin|].
    unfold has_both_keys. now rewrite !present_has. }
  split; [|split].
  - now apply ParserFacts.parse_array.
  - exact Hrec.
  - intros self. apply ValidatorFacts.validate_faqs_raises.
    destruct (in_split _ _ Hrec) as (pre & post & Hsplit). rewrite Hsplit.
    apply ValidatorFacts.validate_each_raises.
    + apply (Forall_app_l _ pre (VDict (fill_dict category d) :: post)).
      rewrite <- Hsplit. apply fill_is_dict. now apply Forall_filter.
    + now apply fill_non_string_text.
Qed.

Lemma C10_witness :
  exists recs,
    BankingFAQGenerator._parse_response Json.loads Samples.stdout
      Samples.number_question_response "Loans" = Ok recs
    /\ In (VDict (fill_dict "Loans" [("question", VInt 5);
                                     ("answer", VStr "A yearly rate.")])) recs
    /\ forall self, fst (validate_faqs recs self) = Raise AttributeError.
Proof.
  apply (C10_validate_raises_on_non_string_text Json.loads Samples.stdout
           Samples.number_question_response "Loans"
           [VDict [("question", VInt 5); ("answer", VStr "A yearly rate.")]]).
  - vm_compute. reflexivity.
  - repeat constructor.
  - now left.
  - discriminate.
  - reflexivity.
  - reflexivity.
  - reflexivity.
Defined.

End PipelineFacts.

(* ===================================================================== *)
(** ** Properties of the batch scheduler *)
(* ===================================================================== *)

Module BatchFacts.

Import BatchFAQGenerator Schedule.

(** *** [range] *)





(** *** The number of batches *)


Lemma ceiling_unique total_count batch_size n m :
  (1 <= batch_size)%Z ->
  ((n - 1) * batch_size < total_count <= n * batch_size)%Z ->
  ((m - 1) * batch_size < total_count <= m * batch_size)%Z ->
  n = m.
Proof. intros Hb Hn Hm. nia. Qed.

Section Scheduler.

Variable json_loads : string -> result value.
Variable generate_content : list event -> string -> result string.
Variable batch_size : Z.
Variable delay : Z.

(** *** The loop *)






End Scheduler.



End BatchFacts.

(* ===================================================================== *)
(** ** Properties of the repetitive-content check *)
(* ===================================================================== *)

Module RepetitionFacts.

Import FAQValidator Repetition.

(** *** The counter *)

Lemma counter_get_add k k' c :
  counter_get k' (counter_add k c)
  = if String.eqb k' k then S (counter_get k' c) else counter_get k' c.
Proof.
  induction c as [|[k0 n] c IH]; cbn [counter_add counter_get].
  - now destruct (String.eqb k' k).
  - destruct (String.eqb_spec k k0) as [->|Hne]; cbn [counter_get].
    + now destruct (String.eqb k' k0).
    + destruct (String.eqb_spec k' k0) as [->|].
      * destruct (String.eqb_spec k0 k); [congruence | reflexivity].
      * exact IH.
Qed.

Lemma counter_keys_add k k' c :
  In k' (map fst (counter_add k c)) <-> k' = k \/ In k' (map fst c).
Proof.
  induction c as [|[k0 n] c IH]; cbn [counter_add map fst In].
  - intuition.
  - destruct (String.eqb_spec k k0) as [->|Hne]; cbn [map fst In].
    + intuition.
    + rewrite IH. intuition.
Qed.

Lemma counter_nodup_add k c :
  NoDup (map fst c) -> NoDup (map fst (counter_add k c)).
Proof.
  induction c as [|[k0 n] c IH]; cbn [counter_add map fst]; intros Hnd.
  - constructor; [intros [] | constructor].
  - inversion Hnd as [|? ? Hnotin Hnd']; subst.
    destruct (String.eqb_spec k k0) as [->|Hne]; cbn [map fst].
    + now constructor.
    + constructor; [|now apply IH].
      rewrite counter_keys_add. intros [->|H]; [congruence | contradiction].
Qed.

Lemma occurrences_cons x y l :
  occurrences x (y :: l)
  = if String.eqb x y then S (occurrences x l) else occurrences x l.
Proof.
  unfold occurrences. cbn [count_occ].
  destruct (string_dec y x) as [->|Hne].
  - now rewrite String.eqb_refl.
  - destruct (String.eqb_spec x y); [congruence | reflexivity].
Qed.

(** The counter after counting the keys [l] on top of [c]. *)
Lemma counter_fold l :
  forall c,
    NoDup (map fst c) ->
    let c' := fold_left (fun c k => counter_add k c) l c in
    NoDup (map fst c')
    /\ (forall k, counter_get k c' = counter_get k c + occurrences k l)
    /\ (forall k, In k (map fst c') <-> In k (map fst c) \/ In k l).
Proof.
  induction l as [|x l IH]; intros c Hnd; cbn [fold_left].
  - cbv zeta. repeat split; auto; cbn [In]; intuition.
  - destruct (IH (counter_add x c) (counter_nodup_add x c Hnd)) as (Hnd' & Hget & Hkeys).
    cbv zeta in *. split; [exact Hnd'|]. split.
    + intros k. rewrite Hget, counter_get_add, occurrences_cons.
      destruct (String.eqb k x); lia.
    + intros k. rewrite Hkeys, counter_keys_add. cbn [In]. intuition.
Qed.

Lemma counter_get_in k n c :
  NoDup (map fst c) -> In (k, n) c -> counter_get k c = n.
Proof.
  induction c as [|[k0 n0] c IH]; cbn [map fst In counter_get]; [intros _ []|].
  intros Hnd [Heq|Hin].
  - injection Heq as -> ->. now rewrite String.eqb_refl.
  - inversion Hnd as [|? ? Hnotin Hnd']; subst.
    destruct (String.eqb_spec k k0) as [->|]; [|now apply IH].
    elim Hnotin. apply in_map_iff. now exists (k0, n).
Qed.

(** *** The largest value *)

Lemma max_upper (f : string -> nat) l x :
  In x l -> f x <= fold_right Nat.max 0 (map f l).
Proof.
  induction l as [|y l IH]; cbn [In map fold_right]; [intros []|].
  intros [->|Hin]; [lia|]. specialize (IH Hin). lia.
Qed.

Lemma max_attained (f : string -> nat) l :
  fold_right Nat.max 0 (map f l) = 0
  \/ exists x, In x l /\ f x = fold_right Nat.max 0 (map f l).
Proof.
  induction l as [|y l IH]; cbn [In map fold_right]; [now left|].
  destruct (Nat.max_spec (f y) (fold_right Nat.max 0 (map f l))) as [[Hlt ->]|[Hle ->]].
  - destruct IH as [H0|(x & Hin & Hx)]; [left; lia|].
    right. exists x. split; [now right | exact Hx].
  - right. exists y. split; [now left | reflexivity].
Qed.

(** Two lists with the same elements have the same largest value. *)
Lemma max_same_elements (f : string -> nat) l1 l2 :
  (forall x, In x l1 <-> In x l2) ->
  fold_right Nat.max 0 (map f l1) = fold_right Nat.max 0 (map f l2).
Proof.
  intros Hsame. apply Nat.le_antisymm.
  - destruct (max_attained f l1) as [->|(x & Hin & <-)]; [lia|].
    apply max_upper. now apply Hsame.
  - destruct (max_attained f l2) as [->|(x & Hin & <-)]; [lia|].
    apply max_upper. now apply Hsame.
Qed.

(** The largest value of the counter of [l] is the number of occurrences
    of the most frequent element of [l]. *)
Lemma max_values_counter l : max_values (Counter l) = most_frequent l.
Proof.
  unfold max_values, most_frequent, Counter.
  destruct (counter_fold l [] ltac:(constructor)) as (Hnd & Hget & Hkeys).
  cbv zeta in *. set (c := fold_left (fun c k => counter_add k c) l []) in *.
  transitivity (fold_right Nat.max 0 (map (fun k => occurrences k l) (map fst c))).
  - f_equal. rewrite map_map. apply map_ext_in. intros [k n] Hin. cbn [fst snd].
    rewrite <- (counter_get_in k n c Hnd Hin). now rewrite Hget.
  - apply max_same_elements. intros x. rewrite Hkeys. cbn [map In]. intuition.
Qed.

(** The check of the source, in terms of occurrences. *)
Lemma has_repetitive_content_spec text :
  _has_repetitive_content text = share_of_nonblank_segment_exceeds text.
Proof.
  unfold _has_repetitive_content, share_of_nonblank_segment_exceeds, segments.
  now rewrite max_values_counter.
Qed.

(** *** Texts made of sentences *)

Lemma re_split_sentence s rest :
  terminal_free s = true ->
  PyStr.re_split_from false (s ++ String "." rest)
  = s :: PyStr.re_split_from true rest.
Proof.
  induction s as [|c s IH]; cbn [append terminal_free PyStr.re_split_from].
  - reflexivity.
  - intros H. apply andb_true_iff in H. destruct H as [Hc Hs].
    apply negb_true_iff in Hc. rewrite Hc. now rewrite (IH Hs).
Qed.

Lemma join_sentences_start ss :
  Forall (fun s => is_sentence s = true) ss ->
  PyStr.re_split_from true (join_sentences ss)
  = PyStr.re_split_from false (join_sentences ss).
Proof.
  intros Hall. destruct Hall as [|s ss Hs _]; [reflexivity|].
  destruct s as [|c s]; [discriminate Hs|].
  unfold is_sentence in Hs. cbn [terminal_free] in Hs.
  apply andb_true_iff in Hs. destruct Hs as [Hs _].
  apply andb_true_iff in Hs. destruct Hs as [Hc _].
  apply negb_true_iff in Hc.
  cbn [join_sentences append PyStr.re_split_from]. now rewrite Hc.
Qed.

(** The segments of such a text are its sentences and the empty piece
    after the last full stop. *)
Lemma segments_join ss :
  Forall (fun s => is_sentence s = true) ss ->
  segments (join_sentences ss) = (ss ++ [EmptyString])%list.
Proof.
  unfold segments, PyStr.re_split_terminal.
  induction 1 as [|s ss Hs Hall IH]; [reflexivity|].
  cbn [join_sentences app]. change ("." ++ join_sentences ss)
    with (String "." (join_sentences ss)).
  unfold is_sentence in Hs. apply andb_true_iff in Hs.
  rewrite re_split_sentence by apply Hs.
  now rewrite join_sentences_start, IH.
Qed.

Lemma nonblank_sentences ss :
  Forall (fun s => is_sentence s = true) ss ->
  filter nonblank (ss ++ [EmptyString]) = ss.
Proof.
  intros Hall. rewrite filter_app. cbn. rewrite app_nil_r.
  induction Hall as [|s ss Hs _ IH]; [reflexivity|].
  cbn [filter]. unfold is_sentence in Hs. apply andb_true_iff in Hs.
  destruct Hs as [_ ->]. now rewrite IH.
Qed.

Lemma most_frequent_upper x l : occurrences x l <= most_frequent l.
Proof.
  unfold most_frequent.
  destruct (Nat.eq_dec (occurrences x l) 0) as [->|Hpos]; [lia|].
  apply (max_upper (fun x => occurrences x l)).
  apply (count_occ_In string_dec). unfold occurrences in Hpos. lia.
Qed.

Lemma most_frequent_nodup l : NoDup l -> most_frequent l <= 1.
Proof.
  intros Hnd. unfold most_frequent.
  destruct (max_attained (fun x => occurrences x l) l) as [->|(x & _ & <-)]; [lia|].
  now apply (proj1 (NoDup_count_occ string_dec l)).
Qed.

(** C7, as the code has it.  The answer is split at the runs of [.], [!]
    and [?]; with fewer than 3 segments there is no warning; otherwise the
    warning is given exactly when the number of occurrences of the most
    frequent normalized segment among the segments that are not blank,
    divided by the number of all segments (blank ones included), exceeds
    3/10.  A text of 5 sentences of which 4 normalize to the same gives
    the warning; a text of 5 sentences with 5 different normalizations
    does not. *)
Theorem C7_repetitive_when_nonblank_segment_share_exceeds :
  forall text : string,
    let n := List.length (segments text) in
    let m := most_frequent (map normalize (filter nonblank (segments text))) in
    (n < 3 -> _has_repetitive_content text = false)
    /\ (3 <= n -> (_has_repetitive_content text = true <-> 3 * n < 10 * m))
    /\ (forall ss x,
           text = join_sentences ss ->
           List.length ss = 5 ->
           Forall (fun s => is_sentence s = true) ss ->
           4 <= occurrences x (map normalize ss) ->
           _has_repetitive_content text = true)
    /\ (forall ss,
           text = join_sentences ss ->
           List.length ss = 5 ->
           Forall (fun s => is_sentence s = true) ss ->
           NoDup (map normalize ss) ->
           _has_repetitive_content text = false).
Proof.
  intros text n m. rewrite has_repetitive_content_spec.
  unfold share_of_nonblank_segment_exceeds. fold n. fold m.
  split; [|split; [|split]].
  - intros Hn. apply Nat.ltb_lt in Hn. now rewrite Hn.
  - intros Hn. apply Nat.ltb_ge in Hn. rewrite Hn. apply Nat.ltb_lt.
  - intros ss x -> Hlen Hall Hocc. subst n m.
    rewrite (segments_join ss Hall), (nonblank_sentences ss Hall).
    rewrite length_app, Hlen. cbn [List.length Nat.add Nat.ltb Nat.leb].
    apply Nat.ltb_lt. pose proof (most_frequent_upper x (map normalize ss)). lia.
  - intros ss -> Hlen Hall Hnd. subst n m.
    rewrite (segments_join ss Hall), (nonblank_sentences ss Hall).
    rewrite length_app, Hlen. cbn [List.length Nat.add Nat.ltb Nat.leb].
    apply Nat.ltb_ge. pose proof (most_frequent_nodup (map normalize ss) Hnd). lia.
Qed.

Lemma C7_witness :
  _has_repetitive_content "A. B" = false
  /\ (_has_repetitive_content "A. B. C" = true <-> 3 * 3 < 10 * 1)
  /\ _has_repetitive_content (join_sentences Samples.four_of_five) = true
  /\ _has_repetitive_content (join_sentences Samples.five_distinct) = false.
Proof.
  split; [|split; [|split]].
  - apply (proj1 (C7_repetitive_when_nonblank_segment_share_exceeds "A. B")).
    vm_compute. lia.
  - apply (proj1 (proj2 (C7_repetitive_when_nonblank_segment_share_exceeds "A. B. C"))).
    vm_compute. lia.
  - apply (proj1 (proj2 (proj2 (C7_repetitive_when_nonblank_segment_share_exceeds
                                  (join_sentences Samples.four_of_five))))
             Samples.four_of_five "fees apply").
    + reflexivity.
    + reflexivity.
    + repeat constructor.
    + vm_compute. lia.
  - apply (proj2 (proj2 (proj2 (C7_repetitive_when_nonblank_segment_share_exceeds
                                  (join_sentences Samples.five_distinct))))
             Samples.five_distinct).
    + reflexivity.
    + reflexivity.
    + repeat constructor.
    + vm_compute. repeat constructor; cbn [In]; intuition discriminate.
Defined.

(** C7 as stated fails: the text has 5 segments, 3 of which are blank.
    The most frequent normalized segment is the empty one, with a share of
    3/5, which exceeds 0.3, but no warning is given, because blank
    segments are not counted. *)
Lemma C7_counterexample :
  segments Samples.spaced_ellipsis
  = ["Rates vary"; " "; " "; " Ask us"; EmptyString]
  /\ map normalize (segments Samples.spaced_ellipsis)
     = ["rates vary"; EmptyString; EmptyString; "ask us"; EmptyString]
  /\ share_of_all_segments_exceeds Samples.spaced_ellipsis = true
  /\ _has_repetitive_content Samples.spaced_ellipsis = false.
Proof.
  repeat split; vm_compute; reflexivity.
Qed.

End RepetitionFacts.

(* ===================================================================== *)
(** ** More on the reports of the validator *)
(* ===================================================================== *)

Module ReportFacts.

Import FAQValidator Checks FAQValidatorFile.

(** *** Decimal numerals *)

Lemma digits_of_uint d : all_digits (NilEmpty.string_of_uint d) = true.
Proof. induction d; cbn; auto. Qed.

Lemma of_nat_digits n : all_digits (PyStr.of_nat n) = true.
Proof.
  unfold PyStr.of_nat, NilZero.string_of_uint.
  destruct (Nat.to_uint n); try reflexivity; apply (digits_of_uint (_ _)).
Qed.

Lemma to_uint_nonnil n : Nat.to_uint n <> Decimal.Nil.
Proof.
  rewrite <- (DecimalNat.Unsigned.of_to n) at 1.
  rewrite DecimalNat.Unsigned.to_of. apply DecimalFacts.unorm_nonnil.
Qed.

Lemma of_nat_inj n m : PyStr.of_nat n = PyStr.of_nat m -> n = m.
Proof.
  unfold PyStr.of_nat. intros H.
  apply DecimalNat.Unsigned.to_uint_inj.
  pose proof (NilZero.usu _ (to_uint_nonnil n)) as Hn.
  pose proof (NilZero.usu _ (to_uint_nonnil m)) as Hm.
  rewrite H in Hn. rewrite Hn in Hm. now injection Hm.
Qed.

(** Two numerals, each followed by a character that is not a digit, that
    start the same text are the same numeral. *)
Lemma numeral_prefix_unique a b c ra rb :
  all_digits a = true -> all_digits b = true -> is_digit_char c = false ->
  a ++ String c ra = b ++ String c rb -> a = b.
Proof.
  revert b. induction a as [|x a IH]; intros [|y b] Ha Hb Hc; cbn [append].
  - reflexivity.
  - intros [= -> _]. cbn in Hb. now rewrite Hc in Hb.
  - intros [= -> _]. cbn in Ha. now rewrite Hc in Ha.
  - intros [= -> H]. cbn in Ha, Hb.
    apply andb_true_iff in Ha. apply andb_true_iff in Hb. f_equal.
    apply (IH b); tauto.
Qed.

Lemma prefix_split a m : String.prefix a m = true -> exists r, m = a ++ r.
Proof.
  revert m. induction a as [|x a IH]; intros m.
  - intros _. now exists m.
  - destruct m as [|y m]; cbn [String.prefix append];
      [intros H; discriminate H|].
    destruct (ascii_dec x y) as [->|]; [|intros H; discriminate H].
    intros H. destruct (IH m H) as [r ->]. now exists r.
Qed.

Lemma prefix_app_self a b : String.prefix a (a ++ b) = true.
Proof.
  induction a as [|x a IH]; [now destruct b|].
  cbn [append String.prefix]. now destruct (ascii_dec x x).
Qed.

Lemma append_assoc (a b c : string) : (a ++ b) ++ c = a ++ (b ++ c).
Proof. induction a as [|x a IH]; cbn [append]; [reflexivity | now rewrite IH]. Qed.

Lemma append_inv_head (a b c : string) : a ++ b = a ++ c -> b = c.
Proof. induction a as [|x a IH]; cbn [append]; [auto | intros [= H]; auto]. Qed.

(** *** Messages and positions *)

Lemma position_unique i j m :
  at_position i m = true -> at_position j m = true -> i = j.
Proof.
  unfold at_position, tag. intros Hi Hj.
  apply prefix_split in Hi. destruct Hi as [ri Hi].
  apply prefix_split in Hj. destruct Hj as [rj Hj].
  rewrite Hi in Hj. cbn [append] in Hj. injection Hj as Hj.
  rewrite !append_assoc in Hj. cbn [append] in Hj.
  apply of_nat_inj.
  apply (numeral_prefix_unique _ _ ":" (String " " ri) (String " " rj));
    auto using of_nat_digits.
Qed.

Lemma group_empty idx k : group_of idx k [].
Proof. split; [constructor | cbn; lia]. Qed.

Lemma group_single idx rest : group_of idx 1 [tag idx ++ rest].
Proof.
  split; [|cbn; lia]. constructor; [|constructor].
  unfold at_position. apply prefix_app_self.
Qed.

Lemma group_weaken idx k k' g : k <= k' -> group_of idx k g -> group_of idx k' g.
Proof. intros Hk [Hall Hlen]. split; [assumption | lia]. Qed.

Lemma group_app idx k1 k2 g1 g2 :
  group_of idx k1 g1 -> group_of idx k2 g2 -> group_of idx (k1 + k2) (g1 ++ g2).
Proof.
  intros [H1 L1] [H2 L2]. split.
  - apply Forall_app. now split.
  - rewrite length_app. lia.
Qed.

Create HintDb groups.

#[local] Hint Resolve group_empty group_single : groups.

Lemma group_required idx d : group_of idx 3 (required_errors idx d).
Proof.
  unfold required_errors, missing_fields, REQUIRED_FIELDS, missing_message.
  cbn [filter].
  destruct (present_nonempty "question" d), (present_nonempty "answer" d),
    (present_nonempty "category" d); cbn [negb map];
    (split; [repeat constructor; apply prefix_app_self | cbn; lia]).
Qed.

Lemma group_keywords_errors idx d : group_of idx 1 (keywords_errors idx d).
Proof. unfold keywords_errors. destruct (keywords_ok d); auto with groups. Qed.

Lemma group_enum_errors idx key choices d :
  group_of idx 1 (enum_errors idx key choices d).
Proof.
  unfold enum_errors. destruct (dict_get key d); auto with groups.
  destruct (in_strings v choices); auto with groups.
Qed.

Lemma group_later idx d : group_of idx 3 (later_errors idx d).
Proof.
  unfold later_errors.
  apply (group_app idx 1 2); [apply group_keywords_errors|].
  apply (group_app idx 1 1); apply group_enum_errors.
Qed.

Lemma group_length_warnings idx what text lo hi :
  group_of idx 1 (length_warnings idx what text lo hi).
Proof.
  unfold length_warnings.
  destruct (String.length text <? lo)%nat; auto with groups.
  destruct (hi <? String.length text)%nat; auto with groups.
Qed.

Lemma group_question_mark idx q : group_of idx 1 (question_mark_warnings idx q).
Proof.
  unfold question_mark_warnings.
  destruct (PyStr.endswith q "?"); auto with groups.
Qed.

Lemma group_keywords_warnings idx d : group_of idx 1 (keywords_warnings idx d).
Proof.
  unfold keywords_warnings.
  destruct (dict_get "keywords" d) as [[]|]; auto with groups.
  destruct (List.length l <? MIN_KEYWORDS)%nat; auto with groups.
  destruct (MAX_KEYWORDS <? List.length l)%nat; auto with groups.
Qed.

Lemma group_repetitive idx a : group_of idx 1 (repetitive_warnings idx a).
Proof.
  unfold repetitive_warnings.
  destruct (_has_repetitive_content a); auto with groups.
Qed.

Lemma group_heuristic idx d q a : group_of idx 5 (heuristic_warnings idx d q a).
Proof.
  unfold heuristic_warnings.
  apply (group_app idx 1 4); [apply group_length_warnings|].
  apply (group_app idx 1 3); [apply group_question_mark|].
  apply (group_app idx 1 2); [apply group_length_warnings|].
  apply (group_app idx 1 1); [apply group_keywords_warnings|].
  apply group_repetitive.
Qed.

Lemma later_errors_nil idx d : later_ok d = true <-> later_errors idx d = [].
Proof.
  unfold later_ok, later_errors, keywords_errors, enum_errors, enum_ok.
  destruct (keywords_ok d); cbn [andb app]; [|split; discriminate].
  destruct (dict_get "difficulty" d) as [v|];
    [destruct (in_strings v VALID_DIFFICULTIES)|]; cbn [andb app];
    try (split; discriminate);
    (destruct (dict_get "segment" d) as [w|];
     [destruct (in_strings w VALID_SEGMENTS)|]; cbn [andb app];
     split; (reflexivity || discriminate)).
Qed.

(** The loop over the required fields on a value that is not an object:
    each field is either reported missing or makes the loop raise. *)
Lemma check_required_non_dict_summary faq idx :
  is_dict faq = false ->
  forall fields is_valid,
  exists r es,
    (forall self,
        check_required faq idx fields is_valid self = (r, reported self es []))
    /\ group_of idx (List.length fields) es
    /\ (forall v, r = Ok v ->
          (fields = [] /\ v = is_valid) \/ (fields <> [] /\ v = false /\ es <> [])).
Proof.
  intros Hfaq. induction fields as [|field rest IH]; intros is_valid.
  - exists (Ok is_valid), []. split; [|split].
    + intros self. cbn. now rewrite ValidatorFacts.reported_nil.
    + apply group_empty.
    + intros v [= <-]. now left.
  - destruct (ValidatorFacts.field_missing_non_dict faq field Hfaq) as [Hm|[e Hm]].
    + destruct (IH false) as (r & es & Hrun & Hgroup & Hres).
      exists r, ((tag idx ++ "Missing required field '" ++ field ++ "'") :: es).
      split; [|split].
      * intros self. cbn [check_required]. unfold bind at 1, lift. rewrite Hm.
        unfold bind at 1. rewrite ValidatorFacts.add_error_run, Hrun.
        now rewrite ValidatorFacts.reported_reported.
      * apply (group_app idx 1 (List.length rest) [_] es);
          [apply group_single | exact Hgroup].
      * intros v Hv. right. split; [discriminate|]. split; [|discriminate].
        destruct (Hres v Hv) as [[_ ->]|(_ & -> & _)]; reflexivity.
    + exists (Raise e), []. split; [|split].
      * intros self. cbn [check_required]. unfold bind at 1, lift. rewrite Hm.
        now rewrite ValidatorFacts.reported_nil.
      * apply group_empty.
      * intros v [=].
Qed.

(** What one record adds to the report: at most 3 errors and 5 warnings,
    all of its position; no error when it is valid, at least one when it
    is not. *)
Lemma single_summary faq idx :
  exists r es ws,
    (forall self, validate_single_faq faq idx self = (r, reported self es ws))
    /\ group_of idx 3 es /\ group_of idx 5 ws
    /\ (r = Ok true -> es = []) /\ (r = Ok false -> es <> []).
Proof.
  destruct (is_dict faq) eqn:Hfaq.
  - destruct faq as [| | | | | |d]; try discriminate Hfaq.
    exists (fst (fst (single_outcome idx d))),
      (snd (fst (single_outcome idx d))), (snd (single_outcome idx d)).
    split; [intros self; apply ValidatorFacts.single_report_correct|].
    unfold single_outcome.
    destruct (missing_fields d) as [|f fs] eqn:Hmiss; cbn [fst snd].
    + destruct (dict_get "question" d) as [[]|]; cbn [fst snd];
        try (split; [apply group_empty|]; split; [apply group_empty|];
             split; discriminate).
      destruct (dict_get "answer" d) as [[]|]; cbn [fst snd];
        try (split; [apply group_empty|];
             split; [|split; discriminate];
             apply (group_weaken idx 2 5); [lia|];
             apply (group_app idx 1 1);
             [apply group_length_warnings | apply group_question_mark]).
      split; [apply group_later|]. split; [apply group_heuristic|]. split.
      * intros [= H]. now apply later_errors_nil.
      * intros [= H] Hnil. apply later_errors_nil in Hnil. congruence.
    + split; [apply group_required|]. split; [apply group_empty|].
      split; [discriminate|]. intros _.
      unfold required_errors. rewrite Hmiss. discriminate.
  - destruct (check_required_non_dict_summary faq idx Hfaq REQUIRED_FIELDS true)
      as (r & es & Hrun & Hgroup & Hres).
    destruct r as [v|e].
    + destruct (Hres v eq_refl) as [[Hnil _]|(_ & -> & Hes)]; [discriminate Hnil|].
      exists (Ok false), es, []. split; [|split; [|split; [|split]]].
      * intros self. unfold validate_single_faq. unfold bind at 1.
        rewrite Hrun. reflexivity.
      * exact Hgroup.
      * apply group_empty.
      * discriminate.
      * intros _. exact Hes.
    + exists (Raise e), es, []. split; [|split; [|split; [|split]]].
      * intros self. unfold validate_single_faq. unfold bind at 1.
        rewrite Hrun. reflexivity.
      * exact Hgroup.
      * apply group_empty.
      * discriminate.
      * discriminate.
Qed.

(** *** The report of a whole run *)

Lemma after_loop_nil self : after_loop self [] [] 0 0 = self.
Proof.
  destruct self as [es ws [t v i w]]. unfold after_loop. cbn.
  now rewrite !app_nil_r, !Nat.add_0_r.
Qed.

Lemma after_loop_cons self es ws eg wg v i b :
  after_loop
    (snd ((if b : bool then incr_valid else incr_invalid) (reported self es ws)))
    eg wg v i
  = after_loop self (es :: eg) (ws :: wg)
      (if b then S v else v) (if b then i else S i).
Proof.
  unfold after_loop, reported. destruct b; cbn [snd incr_valid incr_invalid
    stats errors warnings total valid invalid nwarnings List.concat];
    rewrite <- !app_assoc, !length_app; f_equal; f_equal; lia.
Qed.

(** The loop, whether it returns or raises: what it reports comes in one
    group per record gone through, and every record counted invalid has
    reported an error. *)
Lemma validate_each_summary faqs :
  forall idx self,
  exists r egroups wgroups v i,
    validate_each faqs idx self = (r, after_loop self egroups wgroups v i)
    /\ List.length egroups <= List.length faqs
    /\ List.length wgroups <= List.length faqs
    /\ (forall k g, nth_error egroups k = Some g -> group_of (idx + k) 3 g)
    /\ (forall k g, nth_error wgroups k = Some g -> group_of (idx + k) 5 g)
    /\ i <= List.length (List.concat egroups)
    /\ (r = Ok tt ->
        v + i = List.length faqs
        /\ List.length (List.concat egroups) <= 3 * i).
Proof.
  induction faqs as [|faq faqs IH]; intros idx self.
  - exists (Ok tt), [], [], 0, 0. rewrite after_loop_nil.
    split; [reflexivity|]. split; [cbn; lia|]. split; [cbn; lia|].
    split; [intros [|k] g H; discriminate H|].
    split; [intros [|k] g H; discriminate H|].
    split; [cbn; lia|]. intros _. cbn. lia.
  - destruct (single_summary faq idx)
      as (r1 & es & ws & Hrun & Hge & Hgw & Htrue & Hfalse).
    cbn [validate_each]. unfold bind at 1. rewrite Hrun.
    destruct r1 as [b|e].
    + unfold bind at 1.
      assert (Hstep : (if b then incr_valid else incr_invalid) (reported self es ws)
                      = (Ok tt, snd ((if b then incr_valid else incr_invalid)
                                       (reported self es ws)))).
      { now destruct b. }
      rewrite Hstep.
      destruct (IH (S idx)
                  (snd ((if b then incr_valid else incr_invalid)
                          (reported self es ws))))
        as (r & eg & wg & v & i & Hloop & Hle & Hlw & Hpe & Hpw & Hi & Hok).
      exists r, (es :: eg), (ws :: wg), (if b then S v else v),
        (if b then i else S i).
      rewrite Hloop, after_loop_cons.
      split; [reflexivity|]. split; [cbn; lia|]. split; [cbn; lia|].
      split; [|split].
      * intros [|k] g; cbn [nth_error].
        -- intros [= <-]. now rewrite Nat.add_0_r.
        -- intros H. rewrite Nat.add_succ_r. now apply Hpe.
      * intros [|k] g; cbn [nth_error].
        -- intros [= <-]. now rewrite Nat.add_0_r.
        -- intros H. rewrite Nat.add_succ_r. now apply Hpw.
      * cbn [List.concat]. rewrite length_app. destruct Hge as [_ Hlen]. split.
        -- destruct b; [lia|].
           specialize (Hfalse eq_refl). destruct es; [congruence | cbn; lia].
        -- intros Hr. destruct (Hok Hr) as [Hsum Hthree].
           destruct b; cbn [List.length].
           ++ rewrite (Htrue eq_refl). cbn. lia.
           ++ lia.
    + exists (Raise e), [es], [ws], 0, 0.
      split.
      { f_equal. unfold after_loop, reported. cbn [List.concat].
        now rewrite !app_nil_r, !Nat.add_0_r; destruct self as [? ? []]. }
      split; [cbn; lia|]. split; [cbn; lia|]. split; [|split; [|split]].
      * intros [|[|k]] g; cbn [nth_error]; intros [= <-].
        now rewrite Nat.add_0_r.
      * intros [|[|k]] g; cbn [nth_error]; intros [= <-].
        now rewrite Nat.add_0_r.
      * lia.
      * discriminate.
Qed.

Lemma validate_faqs_unfold faqs self :
  let self0 :=
    mkValidator (errors self) (warnings self)
      (mkStats (List.length faqs) (valid (stats self)) (invalid (stats self))
         (nwarnings (stats self))) in
  validate_faqs faqs self
  = (match fst (validate_each faqs 1 self0) with
     | Ok _ => Ok (invalid (stats (snd (validate_each faqs 1 self0))) =? 0)%nat
     | Raise e => Raise e
     end,
     snd (validate_each faqs 1 self0)).
Proof.
  cbv zeta. unfold validate_faqs. unfold bind at 1. cbn [set_total].
  unfold bind.
  destruct (validate_each faqs 1 _) as [[u|e] self1]; reflexivity.
Qed.

Lemma run_warnings_counter faqs self :
  nwarnings (stats self) = List.length (warnings self) ->
  nwarnings (stats (snd (validate_faqs faqs self)))
  = List.length (warnings (snd (validate_faqs faqs self))).
Proof.
  intros Hinv. rewrite validate_faqs_unfold. cbv zeta. cbn [snd].
  match goal with |- context [validate_each faqs 1 ?s] =>
    destruct (validate_each_summary faqs 1 s) as (r & eg & wg & v & i & Hrun & _)
  end.
  rewrite Hrun. cbn [snd after_loop stats warnings nwarnings].
  rewrite length_app. lia.
Qed.

(** Every warning is counted: a run keeps [stats['warnings']] equal to
    the length of the list of warnings, whether it returns or raises. *)
Theorem warnings_counter_matches_list :
  forall (faqs : list value) (self : t),
    nwarnings (stats self) = List.length (warnings self) ->
    nwarnings (stats (snd (validate_faqs faqs self)))
    = List.length (warnings (snd (validate_faqs faqs self))).
Proof. exact run_warnings_counter. Qed.

Lemma warnings_counter_witness :
  nwarnings (stats (snd (validate_faqs
                           [VDict (Samples.plain_record "Yes."); VDict []] __init__)))
  = List.length (warnings (snd (validate_faqs
                           [VDict (Samples.plain_record "Yes."); VDict []] __init__))).
Proof.
  apply (warnings_counter_matches_list
           [VDict (Samples.plain_record "Yes."); VDict []] __init__).
  reflexivity.
Defined.

Lemma run_errors_bounds faqs b self' :
  validate_faqs faqs __init__ = (Ok b, self') ->
  (b = true <-> errors self' = [])
  /\ invalid (stats self') <= List.length (errors self')
  /\ List.length (errors self') <= 3 * invalid (stats self').
Proof.
  revert b self'.
  intros b self'. rewrite validate_faqs_unfold. cbv zeta.
  match goal with |- context [validate_each faqs 1 ?s] =>
    destruct (validate_each_summary faqs 1 s)
      as (r & eg & wg & v & i & Hrun & _ & _ & _ & _ & Hi & Hok)
  end.
  rewrite Hrun. cbn [fst snd]. destruct r as [[]|e]; [|discriminate].
  intros [= <- <-]. destruct (Hok eq_refl) as [_ Hthree].
  cbn [after_loop stats errors invalid __init__ app Nat.add].
  split; [|split; assumption].
  rewrite Nat.eqb_eq. split.
  - intros ->. destruct (List.concat eg); [reflexivity | cbn in Hthree; lia].
  - intros Hnil. rewrite Hnil in Hi. cbn in Hi. lia.
Qed.

(** When a run on a new validator returns, it returns [True] exactly when
    it has recorded no error; every invalid record has between 1 and 3
    errors to its name and a valid record none. *)
Theorem verdict_true_iff_no_errors :
  forall (faqs : list value) (b : bool) (self' : t),
    validate_faqs faqs __init__ = (Ok b, self') ->
    (b = true <-> errors self' = [])
    /\ invalid (stats self') <= List.length (errors self')
    /\ List.length (errors self') <= 3 * invalid (stats self').
Proof. exact run_errors_bounds. Qed.

Lemma verdict_true_iff_no_errors_witness :
  exists self',
    validate_faqs [Samples.apr_record] __init__ = (Ok false, self')
    /\ errors self' <> []
    /\ invalid (stats self') <= List.length (errors self').
Proof.
  eexists. split; [vm_compute; reflexivity|].
  destruct (verdict_true_iff_no_errors [Samples.apr_record] false _ eq_refl)
    as (Hiff & Hlow & _).
  split; [|exact Hlow].
  intros Hnil. apply Hiff in Hnil. discriminate Hnil.
Defined.

(** The errors of a run on a new validator are the concatenation of one
    group per record gone through, in the order of the records; the group
    of the record at position [k] has at most 3 messages, each starting
    with [FAQ #k: ].  The same holds of the warnings, with at most 5 per
    record.  This holds whether the run returns or raises. *)
Theorem messages_grouped_by_position :
  forall faqs : list value,
  exists egroups wgroups,
    errors (snd (validate_faqs faqs __init__)) = List.concat egroups
    /\ warnings (snd (validate_faqs faqs __init__)) = List.concat wgroups
    /\ List.length egroups <= List.length faqs
    /\ List.length wgroups <= List.length faqs
    /\ (forall k g, nth_error egroups k = Some g -> group_of (1 + k) 3 g)
    /\ (forall k g, nth_error wgroups k = Some g -> group_of (1 + k) 5 g).
Proof.
  intros faqs. rewrite validate_faqs_unfold. cbv zeta. cbn [snd].
  match goal with |- context [validate_each faqs 1 ?s] =>
    destruct (validate_each_summary faqs 1 s)
      as (r & eg & wg & v & i & Hrun & Hle & Hlw & Hpe & Hpw & _)
  end.
  exists eg, wg. rewrite Hrun. cbn [snd after_loop errors warnings __init__ app].
  split; [reflexivity|]. split; [reflexivity|].
  split; [exact Hle|]. split; [exact Hlw|]. split; [exact Hpe | exact Hpw].
Qed.

(** A message names one position only: no text starts with the tags of
    two different positions. *)
Theorem message_names_one_position :
  forall (i j : nat) (m : string),
    at_position i m = true -> at_position j m = true -> i = j.
Proof. exact position_unique. Qed.

Lemma message_names_one_position_witness :
  at_position 12 "FAQ #12: Keywords must be a list" = true /\ 12 = 12.
Proof.
  split; [reflexivity|].
  apply (message_names_one_position 12 12 "FAQ #12: Keywords must be a list");
    reflexivity.
Defined.

(** *** Validating a file *)









End ReportFacts.

(* ===================================================================== *)
(** ** The parsers on every decoded value *)
(* ===================================================================== *)

Module DecodedFacts.

Import Records Decoded.

Lemma no_word_in_char (c : ascii) (w : string) :
  (2 <= String.length w)%nat -> PyStr.contains w (String c EmptyString) = false.
Proof.
  destruct w as [|a [|b w]]; cbn [String.length]; try lia. intros _.
  cbn [PyStr.contains String.prefix].
  destruct (ascii_dec a c); reflexivity.
Qed.

Section Banking.

Variable json_loads : string -> result value.
Variable print : BankingFAQGenerator.line -> result unit.

(** The loop over the elements of any array. *)
Lemma clean_each_any category faqs :
  forall cleaned_faqs,
    BankingFAQGenerator.clean_each faqs category cleaned_faqs
    = if existsb breaks_parse faqs then Raise TypeError
      else Ok (cleaned_faqs ++ map (fill category) (filter has_both_keys faqs))%list.
Proof.
  induction faqs as [|faq faqs IH]; intros acc.
  - cbn. now rewrite app_nil_r.
  - cbn [BankingFAQGenerator.clean_each existsb filter].
    destruct faq as [|b|z|nz sh|s|l|d]; cbn [breaks_parse has_both_keys orb];
      try reflexivity.
    + unfold BankingFAQGenerator.has_question_and_answer, py_in, rbind.
      destruct (PyStr.contains "question" s); cbn [andb orb];
        [destruct (PyStr.contains "answer" s); cbn [orb]|];
        try reflexivity; apply IH.
    + unfold BankingFAQGenerator.has_question_and_answer, py_in, rbind.
      destruct (existsb (fun x => eq_str x "question") l); cbn [andb orb];
        [destruct (existsb (fun x => eq_str x "answer") l); cbn [orb]|];
        try reflexivity; apply IH.
    + rewrite ParserFacts.has_question_and_answer_dict. cbn [rbind has_both_keys].
      destruct (dict_has "question" d && dict_has "answer" d).
      * rewrite ParserFacts.fill_defaults_dict. cbn [rbind map fill]. rewrite IH.
        destruct (existsb breaks_parse faqs); [reflexivity|].
        now rewrite <- app_assoc.
      * apply IH.
Qed.

Lemma clean_each_chars category s :
  forall cleaned_faqs,
    BankingFAQGenerator.clean_each (map VStr (PyStr.chars s)) category cleaned_faqs
    = Ok cleaned_faqs.
Proof.
  induction s as [|c s IH]; intros acc; [reflexivity|].
  cbn [PyStr.chars map BankingFAQGenerator.clean_each].
  unfold BankingFAQGenerator.has_question_and_answer, py_in, rbind.
  rewrite no_word_in_char by (cbn; lia). apply IH.
Qed.

Lemma banking_parse_decoded text category :
  BankingFAQGenerator._parse_response json_loads print text category
  = rbind (handler_prints print (BankingFAQGenerator.payload text)
             (json_loads (BankingFAQGenerator.payload text)))
      (fun _ =>
         Ok (banking_records category (json_loads (BankingFAQGenerator.payload text)))).
Proof.
  unfold BankingFAQGenerator._parse_response, BankingFAQGenerator.parse_body,
    banking_records, handler_prints, banking_failure.
  destruct (json_loads (BankingFAQGenerator.payload text)) as [decoded|e];
    cbn [rbind].
  - destruct decoded as [|b|z|nz sh|s|l|d]; cbn [is_dict iter rbind]; try reflexivity.
    + now rewrite clean_each_chars.
    + rewrite clean_each_any. now destruct (existsb breaks_parse l).
    + rewrite clean_each_any. cbn [existsb breaks_parse orb filter].
      now destruct (has_both_keys (VDict d)).
  - destruct e; cbn [rbind];
      repeat match goal with
             | |- context [print ?l] => destruct (print l); cbn [rbind]
             end; reflexivity.
Qed.

(** Where the [try] block fails, no record is returned. *)
Lemma banking_failure_no_records category decoded e :
  banking_failure decoded = Some e -> banking_records category decoded = [].
Proof.
  unfold banking_failure, banking_records.
  destruct decoded as [[|b|z|nz sh|s|l|d]|e']; try reflexivity; try discriminate.
  now destruct (existsb breaks_parse l).
Qed.

Lemma set_category_each_any category faqs :
  BatchFAQGenerator.set_category_each faqs category
  = if forallb is_dict faqs then Ok (map (with_category category) faqs)
    else Raise TypeError.
Proof.
  induction faqs as [|faq faqs IH]; [reflexivity|].
  cbn [BatchFAQGenerator.set_category_each forallb].
  destruct faq; cbn [setitem rbind is_dict andb]; try reflexivity.
  rewrite IH. now destruct (forallb is_dict faqs).
Qed.

Lemma batch_parse_decoded text category :
  exists p,
    BatchFAQGenerator.payload text = Ok p
    /\ BatchFAQGenerator._parse_response json_loads text category
       = Ok (batch_records category (json_loads p)).
Proof.
  destruct (ParserFacts.batch_payload_ok text) as [p Hp]. exists p.
  split; [exact Hp|].
  unfold BatchFAQGenerator._parse_response. rewrite Hp. cbn [rbind].
  unfold BatchFAQGenerator.parse_body, batch_records.
  destruct (json_loads p) as [decoded|e]; cbn [rbind]; [|reflexivity].
  destruct decoded as [|b|z|nz sh|s|l|d]; cbn [is_dict iter rbind]; try reflexivity.
  - destruct s as [|c s]; reflexivity.
  - rewrite set_category_each_any. now destruct (forallb is_dict l).
Qed.

(** [parse] is a function of what the decoder gives on the payload and
    of what [print] does in the handlers.  It prints nothing when the
    decoder gives an object, a string, or an array on which the loop does
    not raise; it prints two lines when the decoder raises
    [JSONDecodeError] and one line for any other exception of the [try]
    block.  An exception of one of these prints leaves [parse].
    Otherwise [parse] returns: an object gives its record when it has
    both keys; an array gives the records of its objects that have both
    keys, unless one element breaks the loop, and then nothing; anything
    else gives nothing. *)
Theorem banking_parse_by_decoded_value :
  forall text category : string,
    BankingFAQGenerator._parse_response json_loads print text category
    = rbind (handler_prints print (BankingFAQGenerator.payload text)
               (json_loads (BankingFAQGenerator.payload text)))
        (fun _ =>
           Ok (banking_records category
                 (json_loads (BankingFAQGenerator.payload text)))).
Proof. exact banking_parse_decoded. Qed.

(** The parser of the batch generator is a function of what the decoder
    gives on the payload: an array of objects gives the objects with the
    category set, an object gives itself with the category set, the empty
    string gives the empty string, and anything else, an array with one
    element that is not an object included, gives the empty list. *)
Theorem batch_parse_by_decoded_value :
  forall text category : string,
  exists p,
    BatchFAQGenerator.payload text = Ok p
    /\ BatchFAQGenerator._parse_response json_loads text category
       = Ok (batch_records category (json_loads p)).
Proof. exact batch_parse_decoded. Qed.

End Banking.

(** *** Stripping and splitting around a fence *)

Lemma append_nil_r (s : string) : s ++ EmptyString = s.
Proof. induction s as [|c s IH]; cbn [append]; [reflexivity | now rewrite IH]. Qed.

Lemma lstrip_app a c b :
  PyStr.isspace c = false ->
  PyStr.lstrip (a ++ String c b) = PyStr.lstrip a ++ String c b.
Proof.
  intros Hc. induction a as [|x a IH]; cbn [append PyStr.lstrip].
  - now rewrite Hc.
  - destruct (PyStr.isspace x); [exact IH | reflexivity].
Qed.

Lemma rstrip_app_nonblank a b :
  PyStr.rstrip b <> EmptyString -> PyStr.rstrip (a ++ b) = a ++ PyStr.rstrip b.
Proof.
  intros Hb. induction a as [|x a IH]; cbn [append PyStr.rstrip]; [reflexivity|].
  rewrite IH. destruct (a ++ PyStr.rstrip b) eqn:E; [|reflexivity].
  destruct a; cbn [append] in E; [contradiction | discriminate E].
Qed.

Lemma rstrip_app_blank a b :
  PyStr.rstrip b = EmptyString -> PyStr.rstrip (a ++ b) = PyStr.rstrip a.
Proof.
  intros Hb. induction a as [|x a IH]; cbn [append PyStr.rstrip];
    [exact Hb | now rewrite IH].
Qed.

Lemma rstrip_after_fence a post :
  PyStr.rstrip (a ++ FENCE ++ post) = a ++ FENCE ++ PyStr.rstrip post.
Proof.
  destruct (PyStr.rstrip post) eqn:Hpost.
  - rewrite <- ReportFacts.append_assoc. rewrite (rstrip_app_blank _ post Hpost).
    rewrite (rstrip_app_nonblank a FENCE); [|discriminate].
    now rewrite append_nil_r.
  - rewrite <- Hpost. rewrite <- !ReportFacts.append_assoc.
    apply rstrip_app_nonblank. rewrite Hpost. discriminate.
Qed.

Lemma lstrip_idem s : PyStr.lstrip (PyStr.lstrip s) = PyStr.lstrip s.
Proof.
  induction s as [|c s IH]; cbn [PyStr.lstrip]; [reflexivity|].
  destruct (PyStr.isspace c) eqn:Hc; [exact IH|].
  cbn [PyStr.lstrip]. now rewrite Hc.
Qed.

Lemma strip_lstrip s : PyStr.strip (PyStr.lstrip s) = PyStr.strip s.
Proof. unfold PyStr.strip. now rewrite lstrip_idem. Qed.

Lemma backtick_free_lstrip s :
  backtick_free s = true -> backtick_free (PyStr.lstrip s) = true.
Proof.
  induction s as [|c s IH]; cbn [PyStr.lstrip backtick_free]; [reflexivity|].
  intros H. destruct (PyStr.isspace c).
  - apply IH. apply andb_true_iff in H. tauto.
  - exact H.
Qed.

(** A text splits at a fence that follows a piece without backticks. *)
Lemma split_at_fence a rest :
  backtick_free a = true ->
  PyStr.split (a ++ FENCE ++ rest) FENCE = a :: PyStr.split rest FENCE.
Proof.
  unfold PyStr.split. induction a as [|c a IH]; intros Ha.
  - cbn [append FENCE PyStr.split_from String.prefix String.length Nat.sub].
    destruct rest; reflexivity.
  - cbn [backtick_free] in Ha. apply andb_true_iff in Ha. destruct Ha as [Hc Ha].
    apply negb_true_iff in Hc.
    cbn [append PyStr.split_from]. rewrite (IH Ha).
    replace (String.prefix FENCE (String c (a ++ FENCE ++ rest))) with false;
      [reflexivity|].
    unfold FENCE. cbn [String.prefix].
    destruct (ascii_dec "`" c) as [<-|]; [discriminate Hc | reflexivity].
Qed.

Lemma contains_prefix sub s :
  String.prefix sub s = true -> PyStr.contains sub s = true.
Proof. intros H. destruct s; cbn [PyStr.contains]; now rewrite H. Qed.

Lemma contains_fence a rest :
  PyStr.contains FENCE (a ++ FENCE ++ rest) = true.
Proof.
  induction a as [|c a IH].
  - apply contains_prefix. exact (ReportFacts.prefix_app_self FENCE rest).
  - cbn [append PyStr.contains]. rewrite IH. apply orb_true_r.
Qed.

(** A text with a fenced block, stripped. *)
Lemma strip_fenced pre body post :
  PyStr.strip (pre ++ FENCE ++ body ++ FENCE ++ post)
  = PyStr.lstrip pre ++ FENCE ++ body ++ FENCE ++ PyStr.rstrip post.
Proof.
  unfold PyStr.strip.
  change (FENCE ++ body ++ FENCE ++ post)
    with (String "`" (String "`" (String "`" (body ++ FENCE ++ post)))).
  rewrite lstrip_app by reflexivity.
  change (String "`" (String "`" (String "`" (body ++ FENCE ++ post))))
    with (FENCE ++ body ++ FENCE ++ post).
  rewrite <- (ReportFacts.append_assoc FENCE body (FENCE ++ post)).
  rewrite <- (ReportFacts.append_assoc (PyStr.lstrip pre) (FENCE ++ body) (FENCE ++ post)).
  rewrite rstrip_after_fence.
  now rewrite !ReportFacts.append_assoc.
Qed.

Lemma select_part_cons part rest text :
  BankingFAQGenerator.select_part (part :: rest) text
  = if opens_payload part then payload_of_part part
    else BankingFAQGenerator.select_part rest text.
Proof.
  cbn [BankingFAQGenerator.select_part]. unfold opens_payload, payload_of_part.
  destruct (PyStr.startswith (PyStr.strip part) "json"); [reflexivity|].
  cbn [orb].
  destruct (PyStr.startswith (PyStr.strip part) "["
            || PyStr.startswith (PyStr.strip part) "{"); reflexivity.
Qed.

Lemma opens_payload_lstrip part :
  opens_payload (PyStr.lstrip part) = opens_payload part.
Proof. unfold opens_payload. now rewrite strip_lstrip. Qed.

Lemma payload_of_part_lstrip part :
  payload_of_part (PyStr.lstrip part) = payload_of_part part.
Proof. unfold payload_of_part. now rewrite strip_lstrip. Qed.

(** In a text with a fenced block, where neither the text before the
    block nor the block holds a backtick, the parser of the batch
    generator takes the block as payload, less a leading [json], whatever
    surrounds it. *)
Theorem batch_payload_is_the_fenced_block :
  forall pre body post : string,
    backtick_free pre = true ->
    backtick_free body = true ->
    BatchFAQGenerator.payload (pre ++ FENCE ++ body ++ FENCE ++ post)
    = Ok (PyStr.strip (if PyStr.startswith body "json"
                       then PyStr.drop 4 body else body)).
Proof.
  intros pre body post Hpre Hbody. unfold BatchFAQGenerator.payload.
  rewrite strip_fenced, contains_fence.
  rewrite split_at_fence by now apply backtick_free_lstrip.
  rewrite split_at_fence by exact Hbody.
  reflexivity.
Qed.

(** In such a text [BankingFAQGenerator._parse_response] looks at the
    text before the block first: when that text, stripped, starts with
    [json], [[] or [{], it is taken as the payload and the block is
    ignored; otherwise the block is taken when it starts so, and
    otherwise the search goes on in what follows the block. *)
Theorem banking_payload_prefers_text_before_block :
  forall pre body post : string,
    backtick_free pre = true ->
    backtick_free body = true ->
    BankingFAQGenerator.payload (pre ++ FENCE ++ body ++ FENCE ++ post)
    = if opens_payload pre then payload_of_part pre
      else if opens_payload body then payload_of_part body
      else BankingFAQGenerator.select_part
             (PyStr.split (PyStr.rstrip post) FENCE)
             (PyStr.strip (pre ++ FENCE ++ body ++ FENCE ++ post)).
Proof.
  intros pre body post Hpre Hbody. unfold BankingFAQGenerator.payload.
  rewrite strip_fenced, contains_fence.
  rewrite split_at_fence by now apply backtick_free_lstrip.
  rewrite split_at_fence by exact Hbody.
  rewrite !select_part_cons, opens_payload_lstrip, payload_of_part_lstrip.
  reflexivity.
Qed.

Lemma batch_payload_is_the_fenced_block_witness :
  BatchFAQGenerator.payload ("[Note] see: " ++ FENCE ++ "json [1, 2] " ++ FENCE ++ " bye")
  = Ok "[1, 2]".
Proof.
  apply (batch_payload_is_the_fenced_block "[Note] see: " "json [1, 2] " " bye");
    reflexivity.
Defined.

Lemma banking_payload_prefers_text_before_block_witness :
  BankingFAQGenerator.payload
    ("[Note] see: " ++ FENCE ++ "json [1, 2] " ++ FENCE ++ " bye")
  = "[Note] see:"
  /\ BankingFAQGenerator.payload
       ("Note, see: " ++ FENCE ++ "json [1, 2] " ++ FENCE ++ " bye")
     = "[1, 2]".
Proof.
  split.
  - apply (banking_payload_prefers_text_before_block
             "[Note] see: " "json [1, 2] " " bye"); reflexivity.
  - apply (banking_payload_prefers_text_before_block
             "Note, see: " "json [1, 2] " " bye"); reflexivity.
Defined.

End DecodedFacts.

(* ===================================================================== *)
(** ** The batch generator over all categories *)
(* ===================================================================== *)

Module BatchAllFacts.

Import BatchFAQGenerator Schedule BatchAll Records Decoded.

Section All.

Variable json_loads : string -> result value.
Variable generate_content : list event -> string -> result string.
Variable batch_size : Z.
Variable delay : Z.

Hypothesis batch_size_positive : (1 <= batch_size)%Z.
Hypothesis delay_not_negative : (0 <= delay)%Z.









End All.





End BatchAllFacts.

(* ===================================================================== *)
(** ** Properties of the configuration *)
(* ===================================================================== *)

Module ConfigFacts.

Import ConfigLoader.

(** *** Merging *)

Lemma merge_into_fold result items :
  merge_into result (VDict items) = fold_left merge_step items result.
Proof.
  cbn [merge_into]. revert result.
  induction items as [|[key val] rest IH]; intros result; [reflexivity|].
  cbn [fold_left]. rewrite <- IH. reflexivity.
Qed.

Lemma dict_get_absent k (d : dict) : ~ In k (map fst d) -> dict_get k d = None.
Proof.
  induction d as [|[k0 v0] d IH]; cbn [map fst In dict_get]; [reflexivity|].
  intros H. destruct (String.eqb_spec k k0) as [->|]; [tauto|]. apply IH. tauto.
Qed.

Lemma fold_merge_lookup items :
  NoDup (map fst items) ->
  forall result k,
    dict_get k (fold_left merge_step items result)
    = match dict_get k items with
      | None => dict_get k result
      | Some val => Some (merged_value (dict_get k result) val)
      end.
Proof.
  induction items as [|[k0 v0] rest IH]; intros Hnd result k; [reflexivity|].
  cbn [map fst] in Hnd. inversion Hnd as [|? ? Hnotin Hrest]; subst.
  cbn [fold_left]. rewrite (IH Hrest). unfold merge_step at 1 2. cbn [fst snd dict_get].
  destruct (String.eqb_spec k k0) as [->|Hne].
  - rewrite (dict_get_absent k0 rest Hnotin).
    apply ParserFacts.dict_get_set_same.
  - rewrite ParserFacts.dict_get_set_other by congruence. reflexivity.
Qed.

Lemma dict_set_keys k v (d : dict) :
  map fst (dict_set k v d)
  = if dict_has k d then map fst d else (map fst d ++ [k])%list.
Proof.
  unfold dict_has. induction d as [|[k0 v0] d IH]; cbn [dict_set dict_get map fst];
    [reflexivity|].
  destruct (String.eqb_spec k k0) as [->|Hne]; cbn [map fst]; [reflexivity|].
  rewrite IH. now destruct (dict_get k d).
Qed.

Lemma dict_has_set k k' v (d : dict) :
  dict_has k' (dict_set k v d) = (String.eqb k' k || dict_has k' d)%bool.
Proof.
  unfold dict_has. destruct (String.eqb_spec k' k) as [->|Hne]; cbn [orb].
  - now rewrite ParserFacts.dict_get_set_same.
  - rewrite ParserFacts.dict_get_set_other by congruence. reflexivity.
Qed.

Lemma fold_merge_keys items :
  NoDup (map fst items) ->
  forall result,
    map fst (fold_left merge_step items result)
    = (map fst result ++ new_keys result items)%list.
Proof.
  unfold new_keys.
  induction items as [|[k0 v0] rest IH]; intros Hnd result.
  - cbn. now rewrite app_nil_r.
  - cbn [map fst] in Hnd. inversion Hnd as [|? ? Hnotin Hrest]; subst.
    cbn [fold_left map fst filter]. rewrite (IH Hrest).
    unfold merge_step at 1 2. cbn [fst snd]. rewrite dict_set_keys.
    assert (Hfilter : forall val,
               filter (fun k => negb (dict_has k (dict_set k0 val result))) (map fst rest)
               = filter (fun k => negb (dict_has k result)) (map fst rest)).
    { intros val. apply filter_ext_in. intros k Hk. rewrite dict_has_set.
      destruct (String.eqb_spec k k0) as [->|]; [contradiction | reflexivity]. }
    rewrite Hfilter.
    destruct (dict_has k0 result); cbn [negb]; [reflexivity|].
    now rewrite <- app_assoc.
Qed.

(** The result of a merge, key by key.  A key the override does not have
    keeps the value of the base; a key it has takes the value of the
    override, unless both values are mappings, which are merged in turn.
    The keys of the base keep their order, and the keys only the override
    has follow in the order of the override. *)
Theorem deep_merge_key_by_key :
  forall (base items : dict) (k : string),
    NoDup (map fst items) ->
    dict_get k (merge_into base (VDict items))
    = match dict_get k items with
      | None => dict_get k base
      | Some val => Some (merged_value (dict_get k base) val)
      end
    /\ map fst (merge_into base (VDict items))
       = (map fst base ++ new_keys base items)%list.
Proof.
  intros base items k Hnd. rewrite merge_into_fold. split.
  - now apply fold_merge_lookup.
  - now apply fold_merge_keys.
Qed.

Lemma deep_merge_key_by_key_witness :
  dict_get "model"
    (merge_into [("model", VDict [("name", VStr "pro"); ("temperature", VInt 1)]);
                 ("env", VStr "dev")]
       (VDict [("model", VDict [("name", VStr "flash")]); ("debug", VBool true)]))
  = Some (VDict [("name", VStr "flash"); ("temperature", VInt 1)])
  /\ map fst
       (merge_into [("model", VDict [("name", VStr "pro"); ("temperature", VInt 1)]);
                    ("env", VStr "dev")]
          (VDict [("model", VDict [("name", VStr "flash")]); ("debug", VBool true)]))
     = ["model"; "env"; "debug"].
Proof.
  apply (deep_merge_key_by_key
           [("model", VDict [("name", VStr "pro"); ("temperature", VInt 1)]);
            ("env", VStr "dev")]
           [("model", VDict [("name", VStr "flash")]); ("debug", VBool true)]
           "model").
  repeat constructor; cbn [In]; intuition discriminate.
Defined.

(** *** Paths *)

Lemma well_formed_dict d :
  well_formed (VDict d) ->
  NoDup (map fst d)
  /\ forall k v, dict_get k d = Some v -> well_formed v.
Proof.
  cbn [well_formed]. intros [Hnd Heach]. split; [exact Hnd|]. clear Hnd.
  induction d as [|[k0 v0] d IH]; intros k v; cbn [dict_get]; [discriminate|].
  destruct Heach as [Hv0 Heach].
  destruct (String.eqb k k0); [intros [= <-]; exact Hv0 | now apply IH].
Qed.

Lemma override_leaf_wins keys :
  forall base items v,
    well_formed (VDict items) ->
    walk keys (VDict items) = Some v ->
    is_dict v = false ->
    walk keys (VDict (merge_into base (VDict items))) = Some v.
Proof.
  induction keys as [|key rest IH]; intros base items v Hwf Hwalk Hleaf.
  - cbn in Hwalk. injection Hwalk as <-. discriminate Hleaf.
  - destruct (well_formed_dict items Hwf) as [Hnd Hsub].
    cbn [walk] in Hwalk |- *.
    rewrite merge_into_fold, (fold_merge_lookup items Hnd).
    destruct (dict_get key items) as [ov|] eqn:Hov; [|discriminate Hwalk].
    specialize (Hsub key ov Hov).
    unfold merged_value.
    destruct (dict_get key base) as [[| | | | | |sub]|]; try exact Hwalk.
    destruct ov as [| | | | | |items']; try exact Hwalk.
    now apply IH.
Qed.

(** A leaf the override sets is what the merged configuration holds at
    its path, whatever the base holds there; a path whose first key the
    override does not have leads where it led in the base. *)
Theorem override_wins_along_path :
  forall (keys : list string) (base items : dict),
    well_formed (VDict items) ->
    (forall v,
        walk keys (VDict items) = Some v -> is_dict v = false ->
        walk keys (VDict (merge_into base (VDict items))) = Some v)
    /\ (forall key rest,
           keys = key :: rest -> dict_get key items = None ->
           walk keys (VDict (merge_into base (VDict items)))
           = walk keys (VDict base)).
Proof.
  intros keys base items Hwf. split.
  - intros v. now apply override_leaf_wins.
  - intros key rest -> Hnone. destruct (well_formed_dict items Hwf) as [Hnd _].
    cbn [walk]. rewrite merge_into_fold, (fold_merge_lookup items Hnd).
    now rewrite Hnone.
Qed.

Lemma override_wins_along_path_witness :
  walk ["model"; "name"]
    (VDict (merge_into [("model", VDict [("name", VStr "pro"); ("temperature", VInt 1)])]
              (VDict [("model", VDict [("name", VStr "flash")])])))
  = Some (VStr "flash")
  /\ walk ["env"; "name"]
       (VDict (merge_into [("env", VDict [("name", VStr "dev")])]
                 (VDict [("model", VDict [("name", VStr "flash")])])))
     = walk ["env"; "name"] (VDict [("env", VDict [("name", VStr "dev")])]).
Proof.
  split.
  - apply (proj1 (override_wins_along_path ["model"; "name"]
                    [("model", VDict [("name", VStr "pro"); ("temperature", VInt 1)])]
                    [("model", VDict [("name", VStr "flash")])]
                    ltac:(cbn; repeat constructor; cbn [In]; tauto)));
      reflexivity.
  - apply (proj2 (override_wins_along_path ["env"; "name"]
                    [("env", VDict [("name", VStr "dev")])]
                    [("model", VDict [("name", VStr "flash")])]
                    ltac:(cbn; repeat constructor; cbn [In]; tauto))
             "env" ["name"]); reflexivity.
Defined.

(** *** Dotted paths *)

Lemma prefix_empty s : String.prefix EmptyString s = true.
Proof. now destruct s. Qed.

Lemma prefix_dot c s :
  String.prefix "." (String c s) = Ascii.eqb c ".".
Proof.
  cbn [String.prefix]. destruct (ascii_dec "." c) as [<-|Hne].
  - now rewrite prefix_empty.
  - destruct (Ascii.eqb_spec c "."); [congruence | reflexivity].
Qed.

Lemma split_dot_cons c s :
  PyStr.split_from "." (String c s) 0
  = if Ascii.eqb c "." then EmptyString :: PyStr.split_from "." s 0
    else match PyStr.split_from "." s 0 with
         | p :: ps => String c p :: ps
         | [] => [String c EmptyString]
         end.
Proof. cbn [PyStr.split_from]. rewrite prefix_dot. reflexivity. Qed.

Lemma split_keys_dot_free s : Forall (fun k => dot_free k = true) (PyStr.split s ".").
Proof.
  unfold PyStr.split. induction s as [|c s IH]; [repeat constructor|].
  rewrite split_dot_cons. destruct (Ascii.eqb c ".") eqn:Hc.
  - constructor; [reflexivity | exact IH].
  - destruct (PyStr.split_from "." s 0) as [|p ps]; [repeat constructor; cbn; now rewrite Hc|].
    inversion IH; subst. constructor; [|assumption].
    cbn [dot_free]. now rewrite Hc.
Qed.

Lemma split_dot_free k : dot_free k = true -> PyStr.split k "." = [k].
Proof.
  unfold PyStr.split. induction k as [|c k IH]; [reflexivity|].
  cbn [dot_free]. intros H. apply andb_true_iff in H. destruct H as [Hc Hk].
  apply negb_true_iff in Hc. rewrite split_dot_cons, Hc, (IH Hk). reflexivity.
Qed.

Lemma split_at_dot k rest :
  dot_free k = true ->
  PyStr.split (k ++ "." ++ rest) "." = k :: PyStr.split rest ".".
Proof.
  unfold PyStr.split. induction k as [|c k IH].
  - intros _. cbn [append]. now rewrite split_dot_cons.
  - cbn [dot_free append]. intros H. apply andb_true_iff in H. destruct H as [Hc Hk].
    apply negb_true_iff in Hc. rewrite split_dot_cons, Hc.
    cbn [append] in IH. now rewrite (IH Hk).
Qed.

Lemma split_dotted keys :
  keys <> [] ->
  Forall (fun k => dot_free k = true) keys ->
  PyStr.split (String.concat "." keys) "." = keys.
Proof.
  intros Hne Hall. induction Hall as [|k rest Hk Hrest IH]; [contradiction|].
  destruct rest as [|k' rest'].
  - cbn [String.concat]. now apply split_dot_free.
  - cbn [String.concat] in *. rewrite (split_at_dot k _ Hk). f_equal.
    apply IH. discriminate.
Qed.

(** [get] never looks up a key that holds a dot, so an entry under such a
    key cannot be reached; and for keys without dots, [get] on the keys
    joined by dots walks down exactly these keys, giving the default as
    soon as one is missing or the value reached is not a mapping. *)
Theorem get_walks_the_dotted_path :
  forall (config default : value),
    (forall key_path, Forall (fun k => dot_free k = true) (PyStr.split key_path "."))
    /\ (forall keys,
           keys <> [] ->
           Forall (fun k => dot_free k = true) keys ->
           get config (String.concat "." keys) default
           = match walk keys config with
             | Some v => v
             | None => default
             end).
Proof.
  intros config default. split.
  - apply split_keys_dot_free.
  - intros keys Hne Hall. unfold get. now rewrite split_dotted.
Qed.

Lemma get_walks_the_dotted_path_witness :
  get (VDict [("model", VDict [("name", VStr "pro")])]) "model.name" VNone = VStr "pro"
  /\ get (VDict [("model", VStr "pro")]) "model.name" VNone = VNone.
Proof.
  split.
  - apply (proj2 (get_walks_the_dotted_path
                    (VDict [("model", VDict [("name", VStr "pro")])]) VNone)
             ["model"; "name"]); [discriminate | repeat constructor].
  - apply (proj2 (get_walks_the_dotted_path (VDict [("model", VStr "pro")]) VNone)
             ["model"; "name"]); [discriminate | repeat constructor].
Defined.

(** *** Loading *)

(** Whenever [_load_config] returns, the section [secrets] of the
    configuration is the one made of the five environment variables,
    whatever the YAML files hold under [secrets]; every other section is
    as the YAML files give it.  A malformed [config.yaml] makes it raise
    [ValueError]. *)
Theorem secrets_come_from_the_environment :
  forall (base_file : yaml_file) (env_file : option yaml_file)
         (getenv : string -> option string),
    (forall config,
        _load_config base_file env_file getenv = Ok config ->
        walk ["secrets"] config = Some (VDict (secrets getenv))
        /\ get config "secrets.gemini_api_key" VNone = env_value getenv "GEMINI_API_KEY"
        /\ get config "secrets.sf_username" VNone = env_value getenv "SF_USERNAME"
        /\ get config "secrets.sf_password" VNone = env_value getenv "SF_PASSWORD"
        /\ get config "secrets.sf_security_token" VNone
           = env_value getenv "SF_SECURITY_TOKEN"
        /\ get config "secrets.sf_instance_url" VNone
           = env_value getenv "SF_INSTANCE_URL"
        /\ exists merged,
             rbind (_load_yaml base_file) (fun base =>
               match env_file with
               | Some file => rbind (_load_yaml file) (_deep_merge base)
               | None => Ok base
               end) = Ok (VDict merged)
             /\ forall k, k <> "secrets" ->
                  walk [k] config = walk [k] (VDict merged))
    /\ (base_file = Malformed ->
        _load_config base_file env_file getenv = Raise ValueError).
Proof.
  intros base_file env_file getenv. split.
  - intros config. unfold _load_config.
    destruct (_load_yaml base_file) as [base|]; cbn [rbind]; [|discriminate].
    destruct (match env_file with
              | Some file => rbind (_load_yaml file) (fun env_config =>
                               _deep_merge base env_config)
              | None => Ok base
              end) as [merged|] eqn:Hmerged; cbn [rbind]; [|discriminate].
    destruct merged as [| | | | | |d]; try discriminate.
    cbn [setitem]. intros [= <-].
    assert (Hs : dict_get "secrets" (dict_set "secrets" (VDict (secrets getenv)) d)
                 = Some (VDict (secrets getenv)))
      by apply ParserFacts.dict_get_set_same.
    unfold get.
    change (PyStr.split "secrets.gemini_api_key" ".") with ["secrets"; "gemini_api_key"].
    change (PyStr.split "secrets.sf_username" ".") with ["secrets"; "sf_username"].
    change (PyStr.split "secrets.sf_password" ".") with ["secrets"; "sf_password"].
    change (PyStr.split "secrets.sf_security_token" ".")
      with ["secrets"; "sf_security_token"].
    change (PyStr.split "secrets.sf_instance_url" ".")
      with ["secrets"; "sf_instance_url"].
    cbn [walk]. rewrite Hs.
    repeat (split; [reflexivity|]).
    exists d. split.
    + first [reflexivity | exact Hmerged | destruct env_file; exact Hmerged].
    + intros k Hk. cbn [walk].
      rewrite ParserFacts.dict_get_set_other by congruence. reflexivity.
  - intros ->. reflexivity.
Qed.

Lemma secrets_come_from_the_environment_witness :
  get (VDict [("secrets", VDict [("gemini_api_key", VStr "from-yaml")]);
              ("model", VStr "pro")]) "secrets.gemini_api_key" VNone
  = VStr "from-yaml"
  /\ exists config,
       _load_config
         (Document (VDict [("secrets", VDict [("gemini_api_key", VStr "from-yaml")]);
                           ("model", VStr "pro")]))
         None (fun _ => Some "from-env") = Ok config
       /\ get config "secrets.gemini_api_key" VNone = VStr "from-env".
Proof.
  split; [reflexivity|].
  eexists. split; [reflexivity|].
  apply (proj1 (secrets_come_from_the_environment
                  (Document (VDict [("secrets",
                                     VDict [("gemini_api_key", VStr "from-yaml")]);
                                    ("model", VStr "pro")]))
                  None (fun _ => Some "from-env"))).
  reflexivity.
Defined.

End ConfigFacts.

(* ===================================================================== *)
(** ** The FAQ generator over all categories *)
(* ===================================================================== *)

Module BankingAllFacts.

Import BankingAll Records.

Section All.

Variable json_loads : string -> result value.
Variable print : BankingFAQGenerator.line -> result unit.
Variable str_format : string -> list (string * value) -> result string.
Variable generate_content : list string -> string -> result string.
Variable config : value.

Lemma generate_category_faqs_run category count sent :
  generate_category_faqs json_loads print str_format generate_content config
    category count sent
  = match prompt_of str_format config category count with
    | Raise e => (Raise e, sent)
    | Ok prompt =>
        (Ok (match generate_content sent prompt with
             | Ok text =>
                 Decoded.banking_records category
                   (json_loads (BankingFAQGenerator.payload text))
             | Raise _ => []
             end), (sent ++ [prompt])%list)
    end.
Proof.
  unfold generate_category_faqs.
  destruct (prompt_of str_format config category count) as [prompt|]; [|reflexivity].
  destruct (generate_content sent prompt) as [text|]; cbn [rbind]; [|reflexivity].
  rewrite DecodedFacts.banking_parse_decoded. unfold Decoded.handler_prints.
  destruct (Decoded.banking_failure (json_loads (BankingFAQGenerator.payload text)))
    as [e|] eqn:Hfail; [|reflexivity].
  rewrite (DecodedFacts.banking_failure_no_records category _ e Hfail).
  destruct e; cbn [rbind];
    repeat match goal with
           | |- context [print ?l] => destruct (print l); cbn [rbind]
           end; reflexivity.
Qed.

Lemma banking_records_from category decoded :
  Forall (record_from [category]) (Decoded.banking_records category decoded).
Proof.
  assert (Hrec : forall d, has_both_keys (VDict d) = true ->
                           record_from [category] (VDict (fill_dict category d))).
  { intros d Hd. exists (fill_dict category d), category.
    rewrite <- (ParserFacts.fill_has_both category d) in Hd.
    unfold has_both_keys in Hd. apply andb_true_iff in Hd.
    repeat split; try tauto; [now left | apply ParserFacts.fill_dict_category]. }
  unfold Decoded.banking_records.
  destruct decoded as [[|b|z|nz sh|s|elements|d]|e]; try constructor.
  - destruct (existsb Decoded.breaks_parse elements); [constructor|].
    induction elements as [|x elements IH]; cbn [filter map]; [constructor|].
    destruct (has_both_keys x) eqn:Hx; cbn [map]; [|exact IH].
    constructor; [|exact IH].
    destruct x; try discriminate Hx. now apply Hrec.
  - destruct (has_both_keys (VDict d)) eqn:Hd; repeat constructor. now apply Hrec.
Qed.

Lemma record_from_more names names' r :
  incl names names' -> record_from names r -> record_from names' r.
Proof.
  intros Hincl (d & category & Hr & Hin & Hrest).
  exists d, category. split; [exact Hr|]. split; [now apply Hincl | exact Hrest].
Qed.

Lemma banking_categories_loop_run items :
  forall known all_faqs sent,
    Forall (record_from known) all_faqs ->
    snd (categories_loop json_loads print str_format generate_content config
           items all_faqs sent)
    = (sent ++ prompts_sent str_format config items)%list
    /\ match first_failure str_format config items with
       | Some e =>
           fst (categories_loop json_loads print str_format generate_content config
                  items all_faqs sent) = Raise e
       | None =>
           exists faqs,
             fst (categories_loop json_loads print str_format generate_content config
                    items all_faqs sent) = Ok faqs
             /\ Forall (record_from (known ++ map fst items)) faqs
       end.
Proof.
  induction items as [|[category count] rest IH]; intros known all_faqs sent Hall.
  - cbn. rewrite !app_nil_r. split; [reflexivity|]. now exists all_faqs.
  - cbn [categories_loop prompts_sent first_failure].
    rewrite generate_category_faqs_run.
    destruct (prompt_of str_format config category count) as [prompt|e].
    + match goal with |- context [categories_loop _ _ _ _ _ rest ?acc ?s] =>
        destruct (IH (known ++ [category])%list acc s) as [Hsent Hres] end.
      { apply Forall_app. split.
        - eapply Forall_impl; [|exact Hall]. intros r.
          apply record_from_more. intros x Hx. apply in_or_app. now left.
        - eapply Forall_impl.
          2:{ destruct (generate_content sent prompt);
                [apply banking_records_from | constructor]. }
          intros r. apply record_from_more. intros x Hx. apply in_or_app. now right. }
      split.
      * rewrite Hsent. now rewrite <- app_assoc.
      * cbn [map fst]. now rewrite <- app_assoc in Hres.
    + cbn [fst snd]. split; [now rewrite app_nil_r | reflexivity].
Qed.

End All.


(** Every record [generate_all_faqs] returns is an object with a question
    and an answer whose category is the name of one of the categories of
    the configuration. *)
Theorem generated_records_belong_to_a_category :
  forall (json_loads : string -> result value)
         (print : BankingFAQGenerator.line -> result unit)
         (str_format : string -> list (string * value) -> result string)
         (generate_content : list string -> string -> result string)
         (config : value) (items : list (string * value)) (sent : list string)
         (faqs : list value),
    fst (generate_all_faqs json_loads print str_format generate_content config
           (VDict items) sent) = Ok faqs ->
    Forall (record_from (map fst items)) faqs.
Proof.
  intros json_loads print str_format generate_content config items sent faqs.
  cbn [generate_all_faqs].
  destruct (banking_categories_loop_run json_loads print str_format generate_content config
              items [] [] sent ltac:(constructor)) as [_ Hres].
  destruct (first_failure str_format config items).
  - rewrite Hres. discriminate.
  - destruct Hres as (faqs' & -> & Hall). now intros [= <-].
Qed.

Lemma generated_records_belong_to_a_category_witness :
  exists faqs,
    fst (generate_all_faqs Json.loads Samples.stdout format_plain
           sample_service sample_config
           (ConfigLoader.section
              [("prompts", VDict [("generate_faqs", VStr "List banking FAQs as JSON.")]);
               ("categories", VDict [("Loans", VInt 2); ("Cards", VInt 2)])]
              "categories") []) = Ok faqs
    /\ List.length faqs = 4
    /\ Forall (record_from ["Loans"; "Cards"]) faqs.
Proof.
  eexists. split; [vm_compute; reflexivity|]. split; [reflexivity|].
  apply (generated_records_belong_to_a_category Json.loads Samples.stdout format_plain
           sample_service sample_config
           [("Loans", VInt 2); ("Cards", VInt 2)] []).
  vm_compute. reflexivity.
Defined.

End BankingAllFacts.

(* ===================================================================== *)
(** ** Properties of the URL names *)
(* ===================================================================== *)

Module UrlNameFacts.

Import SalesforceVectorImporter FAQValidatorFile.

Lemma url_safe_app a b : url_safe (a ++ b) = url_safe a && url_safe b.
Proof.
  induction a as [|c a IH]; cbn [append url_safe]; [reflexivity|].
  now rewrite IH, andb_assoc.
Qed.

Lemma sub_runs_safe s : forall in_run, url_safe (sub_runs in_run s) = true.
Proof.
  induction s as [|c s IH]; intros in_run; cbn [sub_runs]; [reflexivity|].
  destruct (is_url_char c) eqn:Hc; [cbn [url_safe]; now rewrite Hc, IH|].
  destruct in_run; [apply IH|]. cbn [url_safe]. now rewrite IH.
Qed.

Lemma lstrip_hyphens_safe s :
  url_safe s = true -> url_safe (lstrip_hyphens s) = true.
Proof.
  induction s as [|c s IH]; cbn [lstrip_hyphens url_safe]; [reflexivity|].
  intros H. destruct (is_hyphen c) eqn:Hh.
  - apply IH. apply andb_true_iff in H. tauto.
  - cbn [url_safe]. rewrite Hh. exact H.
Qed.

Lemma rstrip_hyphens_safe s :
  url_safe s = true -> url_safe (rstrip_hyphens s) = true.
Proof.
  induction s as [|c s IH]; cbn [rstrip_hyphens url_safe]; [reflexivity|].
  intros H. apply andb_true_iff in H. destruct H as [Hc Hs]. specialize (IH Hs).
  destruct (rstrip_hyphens s) as [|c' r].
  - destruct (is_hyphen c) eqn:Hh; [reflexivity|].
    cbn [url_safe]. rewrite Hh. now rewrite Hc.
  - cbn [url_safe] in *. now rewrite Hc, IH.
Qed.

Lemma digits_safe s : all_digits s = true -> url_safe s = true.
Proof.
  induction s as [|c s IH]; cbn [all_digits url_safe]; [reflexivity|].
  intros H. apply andb_true_iff in H. destruct H as [Hc Hs]. rewrite (IH Hs).
  unfold is_digit_char in Hc. unfold is_url_char. rewrite Hc.
  now rewrite orb_true_r.
Qed.

(** A URL name is made of the letters a to z, digits and hyphens only,
    whatever the question holds. *)
Theorem url_name_is_url_safe :
  forall (question : string) (idx : nat),
    url_safe (_generate_url_name question idx) = true.
Proof.
  intros question idx. unfold _generate_url_name, strip_hyphens.
  rewrite !url_safe_app.
  rewrite rstrip_hyphens_safe
    by (apply lstrip_hyphens_safe; apply sub_runs_safe).
  rewrite (digits_safe (PyStr.of_nat idx)) by apply ReportFacts.of_nat_digits.
  reflexivity.
Qed.

Lemma digits_have_no_hyphen a b :
  all_digits (a ++ String "-" b) = false.
Proof.
  induction a as [|c a IH]; cbn [append all_digits]; [reflexivity|].
  rewrite IH. apply andb_false_r.
Qed.

Lemma numeral_suffix_unique a b da db :
  all_digits da = true -> all_digits db = true ->
  a ++ String "-" da = b ++ String "-" db -> da = db.
Proof.
  intros Hda Hdb. revert b.
  induction a as [|x a IH]; intros [|y b]; cbn [append].
  - now intros [= ->].
  - intros [= _ ->]. now rewrite digits_have_no_hyphen in Hda.
  - intros [= _ <-]. now rewrite digits_have_no_hyphen in Hdb.
  - intros [= _ H]. now apply IH in H.
Qed.

(** The position can be read off a URL name: two records at different
    positions never get the same URL name, whatever their questions. *)
Theorem url_names_differ_between_positions :
  forall (question1 question2 : string) (idx1 idx2 : nat),
    _generate_url_name question1 idx1 = _generate_url_name question2 idx2 ->
    idx1 = idx2.
Proof.
  intros question1 question2 idx1 idx2. unfold _generate_url_name. cbn [append].
  intros H. apply ReportFacts.of_nat_inj.
  eapply numeral_suffix_unique; [| |exact H]; apply ReportFacts.of_nat_digits.
Qed.

Lemma url_names_differ_between_positions_witness :
  _generate_url_name "What is APR?" 3 = "what-is-apr-3" /\ 3 = 3.
Proof.
  split; [reflexivity|].
  apply (url_names_differ_between_positions "What is APR?" "what is apr" 3 3).
  reflexivity.
Defined.

End UrlNameFacts.
